(** * ZOF Solver: the six root-finding methods of [ZOF_CLI.py] and [app.py]

    A shallow embedding of class [ZOFSolver] (both copies: the command-line
    one and the web one) and the properties of its six methods.

    - Python floats are an instance of the class [Arith]: IEEE binary64
      (Rocq's primitive floats) for what the program runs on, and the real
      numbers for statements about exact arithmetic.
    - Exceptions are the [Raise] results of type [result].
    - The solver object and the list objects it creates live in a [Store]:
      [self.iteration_data] is a reference, and the dict a method returns
      holds the same reference (Python aliasing).
    - [sympy] is outside the repository: it is the interface [Sympy].  A
      compiled function maps a float to a float or raises.
    - A [for] loop with [return] statements in its body is [for_range]: the
      body of the loop, as a function of the loop variables, and the code
      after the loop. *)

From Stdlib Require Import ZArith List String Ascii Bool Lia.
From Stdlib Require Import Floats.
From Stdlib Require Import Reals Lra Psatz.
Import ListNotations.

Local Open Scope string_scope.
Local Open Scope list_scope.

Set Implicit Arguments.

(** ** Exceptions and results *)

Inductive exn : Type :=
| ValueError (msg : string)
| ZeroDivisionError (msg : string)
| UnboundLocalError (var : string)
| OverflowError (msg : string)
| SympifyError (msg : string)
| OtherException (cls msg : string).

(** [str(e)] *)
Definition str_exn (e : exn) : string :=
  match e with
  | ValueError m => m
  | ZeroDivisionError m => m
  | UnboundLocalError v =>
      String.append "cannot access local variable '"
        (String.append v "' where it is not associated with a value")
  | OverflowError m => m
  | SympifyError m => m
  | OtherException _ m => m
  end.

Inductive result (A : Type) : Type :=
| Ok (a : A)
| Raise (e : exn).
Arguments Ok {A} a.
Arguments Raise {A} e.

(** ** Numbers *)

(** The float operations the solver uses.  [fdiv] is the IEEE quotient;
    Python's [/] is [truediv] below. *)
Class Arith : Type := {
  num : Type;
  fadd : num -> num -> num;
  fsub : num -> num -> num;
  fmul : num -> num -> num;
  fdiv : num -> num -> num;
  fabs : num -> num;
  flt : num -> num -> bool;
  feqb : num -> num -> bool;
  zero : num;        (* 0 *)
  two : num;         (* 2 *)
  lit_1e_12 : num;   (* 1e-12 *)
  lit_1e10 : num     (* 1e10 *)
}.

Section Numbers.
Context {A : Arith}.

(** [x > y] *)
Definition fgt (x y : num) : bool := flt y x.

(** [x != y] *)
Definition fne (x y : num) : bool := negb (feqb x y).

(** [x / y]: Python raises on a zero divisor, whatever the dividend. *)
Definition truediv (x y : num) : result num :=
  if feqb y zero then Raise (ZeroDivisionError "float division by zero")
  else Ok (fdiv x y).
End Numbers.

(** IEEE binary64, the arithmetic of Python's [float].  The decimal literals
    denote the nearest binary64 value, in Python as here. *)
Set Warnings "-inexact-float".
#[export] Instance binary64 : Arith := {|
  num := float;
  fadd := PrimFloat.add;
  fsub := PrimFloat.sub;
  fmul := PrimFloat.mul;
  fdiv := PrimFloat.div;
  fabs := PrimFloat.abs;
  flt := PrimFloat.ltb;
  feqb := PrimFloat.eqb;
  zero := 0%float;
  two := 2%float;
  lit_1e_12 := 1e-12%float;
  lit_1e10 := 1e10%float
|}.

(** Exact arithmetic on the reals. *)
Definition Rltb (x y : R) : bool := if Rlt_dec x y then true else false.
Definition Reqb (x y : R) : bool := if Req_dec_T x y then true else false.

Definition exact : Arith := {|
  num := R;
  fadd := Rplus;
  fsub := Rminus;
  fmul := Rmult;
  fdiv := Rdiv;
  fabs := Rabs;
  flt := Rltb;
  feqb := Reqb;
  zero := 0%R;
  two := 2%R;
  lit_1e_12 := (/ 10 ^ 12)%R;
  lit_1e10 := (10 ^ 10)%R
|}.

(** ** Python values, dicts and the store *)

Definition loc := nat.

Section Values.
Context {A : Arith}.

Inductive value : Type :=
| VInt (z : Z)
| VNum (x : num)
| VStr (s : string)
| VList (l : loc).

(** A dict literal, in the order its keys are written. *)
Definition dict := list (string * value).

Fixpoint lookup (k : string) (d : dict) : option value :=
  match d with
  | [] => None
  | (k', v) :: d' => if String.eqb k k' then Some v else lookup k d'
  end.

(** [k in d] *)
Definition has_key (k : string) (d : dict) : bool :=
  match lookup k d with Some _ => true | None => false end.

(** The list objects created so far, by address, and the solver's
    [iteration_data] attribute. *)
Record Store : Type := {
  lists : list (list dict);
  self_iteration_data : loc
}.

Definition deref (st : Store) (l : loc) : list dict := nth l (lists st) [].

Fixpoint update {T} (l : list T) (n : nat) (f : T -> T) : list T :=
  match l, n with
  | [], _ => []
  | x :: l', O => f x :: l'
  | x :: l', S n' => x :: update l' n' f
  end.

(** A computation on the store that may raise. *)
Definition M (T : Type) : Type := Store -> result T * Store.

Definition ret {T} (x : T) : M T := fun st => (Ok x, st).
Definition raise {T} (e : exn) : M T := fun st => (Raise e, st).
Definition bind {T U} (m : M T) (k : T -> M U) : M U :=
  fun st => match m st with
            | (Ok x, st') => k x st'
            | (Raise e, st') => (Raise e, st')
            end.
Definition lift {T} (r : result T) : M T := fun st => (r, st).

(** The store after [self.iteration_data = []]: a new list object. *)
Definition fresh (st : Store) : Store :=
  {| lists := (lists st ++ [[]])%list;
     self_iteration_data := List.length (lists st) |}.

(** The store after [self.iteration_data.append(rec)]. *)
Definition push (rec : dict) (st : Store) : Store :=
  {| lists := update (lists st) (self_iteration_data st)
                (fun l => (l ++ [rec])%list);
     self_iteration_data := self_iteration_data st |}.

(** [self.iteration_data = []] *)
Definition reset_iteration_data : M unit := fun st => (Ok tt, fresh st).

(** [self.iteration_data.append(rec)] *)
Definition append_iteration_data (rec : dict) : M unit :=
  fun st => (Ok tt, push rec st).

(** [self.iteration_data] *)
Definition get_iteration_data : M loc :=
  fun st => (Ok (self_iteration_data st), st).

(** [ZOFSolver()] *)
Definition init (st : Store) : Store := fresh st.
End Values.

Notation "x <- m ;; k" := (bind m (fun x => k))
  (at level 61, m at next level, right associativity).
Notation "m ;;; k" := (bind m (fun _ => k))
  (at level 61, right associativity).

(** [for i in range(start, ...)] with [fuel] passes left: a pass either
    returns from the method ([inl]) or hands the loop variables on ([inr]);
    [after] is the code that follows the loop. *)
Fixpoint for_range {A : Arith} {V : Type}
    (body : Z -> V -> M (dict + V)) (after : V -> M dict)
    (fuel : nat) (i : Z) (vars : V) : M dict :=
  match fuel with
  | O => after vars
  | S fuel' =>
      r <- body i vars ;;
      match r with
      | inl d => ret d
      | inr vars' => for_range body after fuel' (i + 1)%Z vars'
      end
  end.

(** ** The sympy interface *)

Class Sympy {A : Arith} : Type := {
  Expr : Type;
  sympify : string -> result Expr;
  lambdify : Expr -> result (num -> result num);
  diff : Expr -> result Expr
}.

(** The builtins the web copy formats its output with: [round(v, n)] and
    [format(v, spec)] (the f-string [f"{v:.6e}"]). *)
Class Builtins {A : Arith} : Type := {
  round : num -> Z -> num;
  format : num -> string -> string
}.

(** ** [ZOF_CLI.py]: class [ZOFSolver] *)

Module CLI.
Section Solver.
Context {A : Arith} {S : Sympy}.

(** [parse_function] ([ZOF_CLI.py], lines 19-26): any exception of [sympify] or
    [lambdify] becomes a [ValueError]. *)
Definition parse_function (func_str : string)
  : result ((num -> result num) * Expr) :=
  match sympify func_str with
  | Raise e =>
      Raise (ValueError
               (String.append "Error parsing function: " (str_exn e)))
  | Ok expr =>
      match lambdify expr with
      | Raise e =>
          Raise (ValueError
               (String.append "Error parsing function: " (str_exn e)))
      | Ok func => Ok (func, expr)
      end
  end.

(** Loop variables [a, b, fa, fb] and, once a pass has run, [c, error]. *)
Definition bracket_vars : Type :=
  (num * num * num * num * option (num * num))%type.

(** One pass of the loop of [bisection_method] ([ZOF_CLI.py], lines 43-71).
    The divisor in [(a + b) / 2] and [abs(b - a) / 2] is the literal [2]:
    these quotients cannot raise. *)
Definition bisection_body (func : num -> result num) (tol : num) (i : Z)
    (vars : bracket_vars) : M (dict + bracket_vars) :=
  let '(a, b, fa, fb, _) := vars in
  let c := fdiv (fadd a b) two in
  fc <- lift (func c) ;;
  let error := fdiv (fabs (fsub b a)) two in
  append_iteration_data
    [("iteration", VInt i); ("a", VNum a); ("b", VNum b); ("c", VNum c);
     ("f(c)", VNum fc); ("error", VNum error)] ;;;
  if flt (fabs fc) tol || flt error tol then
    data <- get_iteration_data ;;
    ret (inl [("root", VNum c); ("iterations", VInt i);
              ("final_error", VNum error); ("iteration_data", VList data);
              ("method", VStr "Bisection Method")])
  else if flt (fmul fa fc) zero then
    ret (inr (a, c, fa, fc, Some (c, error)))
  else
    ret (inr (c, b, fc, fb, Some (c, error))).

(** The [return] after the loop (lines 73-80); [c] is unbound when no pass
    has run. *)
Definition bisection_after (max_iter : Z) (vars : bracket_vars) : M dict :=
  let '(_, _, _, _, last) := vars in
  match last with
  | None => raise (UnboundLocalError "c")
  | Some (c, error) =>
      data <- get_iteration_data ;;
      ret [("root", VNum c); ("iterations", VInt max_iter);
           ("final_error", VNum error); ("iteration_data", VList data);
           ("method", VStr "Bisection Method");
           ("warning", VStr "Maximum iterations reached")]
  end.

(** [bisection_method] ([ZOF_CLI.py], lines 28-80). *)
Definition bisection_method (func_str : string) (a b tol : num)
    (max_iter : Z) : M dict :=
  fe <- lift (parse_function func_str) ;;
  let func := fst fe in
  reset_iteration_data ;;;
  fa <- lift (func a) ;;
  fb <- lift (func b) ;;
  if fgt (fmul fa fb) zero then
    ret [("error", VStr "Function must have opposite signs at endpoints")]
  else
    for_range (bisection_body func tol) (bisection_after max_iter)
      (Z.to_nat max_iter) 1%Z (a, b, fa, fb, None).

(** Loop variables [a, b, fa, fb, c_old] and, once a pass has run,
    [c, error]. *)
Definition falsi_vars : Type :=
  (num * num * num * num * num * option (num * num))%type.

(** One pass of the loop of [regula_falsi_method] ([ZOF_CLI.py], lines 99-133).
    The quotient is Python's [/], which raises on a zero divisor. *)
Definition regula_falsi_body (func : num -> result num) (tol : num) (i : Z)
    (vars : falsi_vars) : M (dict + falsi_vars) :=
  let '(a, b, fa, fb, c_old, _) := vars in
  q <- lift (truediv (fmul fb (fsub b a)) (fsub fb fa)) ;;
  let c := fsub b q in
  fc <- lift (func c) ;;
  let error := if (1 <? i)%Z then fabs (fsub c c_old) else fabs (fsub b a) in
  append_iteration_data
    [("iteration", VInt i); ("a", VNum a); ("b", VNum b); ("c", VNum c);
     ("f(c)", VNum fc); ("error", VNum error)] ;;;
  if flt (fabs fc) tol || flt error tol then
    data <- get_iteration_data ;;
    ret (inl [("root", VNum c); ("iterations", VInt i);
              ("final_error", VNum error); ("iteration_data", VList data);
              ("method", VStr "Regula Falsi Method")])
  else if flt (fmul fa fc) zero then
    ret (inr (a, c, fa, fc, c, Some (c, error)))
  else
    ret (inr (c, b, fc, fb, c, Some (c, error))).

(** The [return] after the loop (lines 135-142); [c] is unbound when no pass
    has run. *)
Definition regula_falsi_after (max_iter : Z) (vars : falsi_vars) : M dict :=
  let '(_, _, _, _, _, last) := vars in
  match last with
  | None => raise (UnboundLocalError "c")
  | Some (c, error) =>
      data <- get_iteration_data ;;
      ret [("root", VNum c); ("iterations", VInt max_iter);
           ("final_error", VNum error); ("iteration_data", VList data);
           ("method", VStr "Regula Falsi Method");
           ("warning", VStr "Maximum iterations reached")]
  end.

(** [regula_falsi_method] ([ZOF_CLI.py], lines 82-142). *)
Definition regula_falsi_method (func_str : string) (a b tol : num)
    (max_iter : Z) : M dict :=
  fe <- lift (parse_function func_str) ;;
  let func := fst fe in
  reset_iteration_data ;;;
  fa <- lift (func a) ;;
  fb <- lift (func b) ;;
  if fgt (fmul fa fb) zero then
    ret [("error", VStr "Function must have opposite signs at endpoints")]
  else
    for_range (regula_falsi_body func tol) (regula_falsi_after max_iter)
      (Z.to_nat max_iter) 1%Z (a, b, fa, fb, a, None).

(** Loop variables [x0, x1, f0, f1] and, once a pass has run, [x2, error]. *)
Definition secant_vars : Type :=
  (num * num * num * num * option (num * num))%type.

(** One pass of the loop of [secant_method] ([ZOF_CLI.py], lines 155-182). *)
Definition secant_body (func : num -> result num) (tol : num) (i : Z)
    (vars : secant_vars) : M (dict + secant_vars) :=
  let '(x0, x1, f0, f1, _) := vars in
  if flt (fabs (fsub f1 f0)) lit_1e_12 then
    ret (inl [("error", VStr "Division by zero: f(x1) - f(x0) too small")])
  else
    q <- lift (truediv (fmul f1 (fsub x1 x0)) (fsub f1 f0)) ;;
    let x2 := fsub x1 q in
    f2 <- lift (func x2) ;;
    let error := fabs (fsub x2 x1) in
    append_iteration_data
      [("iteration", VInt i); ("x0", VNum x0); ("x1", VNum x1);
       ("x2", VNum x2); ("f(x2)", VNum f2); ("error", VNum error)] ;;;
    if flt (fabs f2) tol || flt error tol then
      data <- get_iteration_data ;;
      ret (inl [("root", VNum x2); ("iterations", VInt i);
                ("final_error", VNum error); ("iteration_data", VList data);
                ("method", VStr "Secant Method")])
    else
      ret (inr (x1, x2, f1, f2, Some (x2, error))).

(** The [return] after the loop (lines 184-191); [x2] is unbound when no pass
    has run. *)
Definition secant_after (max_iter : Z) (vars : secant_vars) : M dict :=
  let '(_, _, _, _, last) := vars in
  match last with
  | None => raise (UnboundLocalError "x2")
  | Some (x2, error) =>
      data <- get_iteration_data ;;
      ret [("root", VNum x2); ("iterations", VInt max_iter);
           ("final_error", VNum error); ("iteration_data", VList data);
           ("method", VStr "Secant Method");
           ("warning", VStr "Maximum iterations reached")]
  end.

(** [secant_method] ([ZOF_CLI.py], lines 144-191). *)
Definition secant_method (func_str : string) (x0 x1 tol : num)
    (max_iter : Z) : M dict :=
  fe <- lift (parse_function func_str) ;;
  let func := fst fe in
  reset_iteration_data ;;;
  f0 <- lift (func x0) ;;
  f1 <- lift (func x1) ;;
  for_range (secant_body func tol) (secant_after max_iter)
    (Z.to_nat max_iter) 1%Z (x0, x1, f0, f1, None).

(** Loop variable [x] and, once a pass has run, [error]. *)
Definition point_vars : Type := (num * option num)%type.

(** One pass of the loop of [newton_raphson_method] ([ZOF_CLI.py],
    lines 208-236).
    [func(x_new)] is evaluated after the record is appended. *)
Definition newton_raphson_body (func derivative : num -> result num)
    (tol : num) (i : Z) (vars : point_vars) : M (dict + point_vars) :=
  let '(x, _) := vars in
  fx <- lift (func x) ;;
  dfx <- lift (derivative x) ;;
  if flt (fabs dfx) lit_1e_12 then
    ret (inl [("error", VStr "Derivative too small, division by zero")])
  else
    q <- lift (truediv fx dfx) ;;
    let x_new := fsub x q in
    let error := fabs (fsub x_new x) in
    append_iteration_data
      [("iteration", VInt i); ("x", VNum x); ("f(x)", VNum fx);
       ("f'(x)", VNum dfx); ("x_new", VNum x_new); ("error", VNum error)] ;;;
    fx_new <- lift (func x_new) ;;
    if flt (fabs fx_new) tol || flt error tol then
      data <- get_iteration_data ;;
      ret (inl [("root", VNum x_new); ("iterations", VInt i);
                ("final_error", VNum error); ("iteration_data", VList data);
                ("method", VStr "Newton-Raphson Method")])
    else
      ret (inr (x_new, Some error)).

(** The [return] after the loop (lines 238-245); [error] is unbound when no pass
    has run. *)
Definition newton_raphson_after (max_iter : Z) (vars : point_vars) : M dict :=
  let '(x, last) := vars in
  match last with
  | None => raise (UnboundLocalError "error")
  | Some error =>
      data <- get_iteration_data ;;
      ret [("root", VNum x); ("iterations", VInt max_iter);
           ("final_error", VNum error); ("iteration_data", VList data);
           ("method", VStr "Newton-Raphson Method");
           ("warning", VStr "Maximum iterations reached")]
  end.

(** [newton_raphson_method] ([ZOF_CLI.py], lines 193-245). *)
Definition newton_raphson_method (func_str : string) (x0 tol : num)
    (max_iter : Z) : M dict :=
  fe <- lift (parse_function func_str) ;;
  let func := fst fe in
  let expr := snd fe in
  reset_iteration_data ;;;
  derivative_expr <- lift (diff expr) ;;
  derivative <- lift (lambdify derivative_expr) ;;
  for_range (newton_raphson_body func derivative tol)
    (newton_raphson_after max_iter) (Z.to_nat max_iter) 1%Z (x0, None).

(** One pass of the loop of [fixed_point_iteration] ([ZOF_CLI.py],
    lines 258-282).
    The divergence test comes after the convergence test. *)
Definition fixed_point_body (func : num -> result num) (tol : num) (i : Z)
    (vars : point_vars) : M (dict + point_vars) :=
  let '(x, _) := vars in
  x_new <- lift (func x) ;;
  let error := fabs (fsub x_new x) in
  append_iteration_data
    [("iteration", VInt i); ("x", VNum x); ("g(x)", VNum x_new);
     ("error", VNum error)] ;;;
  if flt error tol then
    data <- get_iteration_data ;;
    ret (inl [("root", VNum x_new); ("iterations", VInt i);
              ("final_error", VNum error); ("iteration_data", VList data);
              ("method", VStr "Fixed Point Iteration")])
  else if fgt (fabs x_new) lit_1e10 then
    ret (inl [("error", VStr "Method diverging, |x| > 10^10")])
  else
    ret (inr (x_new, Some error)).

(** The [return] after the loop (lines 284-291); [error] is unbound when no pass
    has run. *)
Definition fixed_point_after (max_iter : Z) (vars : point_vars) : M dict :=
  let '(x, last) := vars in
  match last with
  | None => raise (UnboundLocalError "error")
  | Some error =>
      data <- get_iteration_data ;;
      ret [("root", VNum x); ("iterations", VInt max_iter);
           ("final_error", VNum error); ("iteration_data", VList data);
           ("method", VStr "Fixed Point Iteration");
           ("warning", VStr "Maximum iterations reached")]
  end.

(** [fixed_point_iteration] ([ZOF_CLI.py], lines 247-291). *)
Definition fixed_point_iteration (func_str : string) (x0 tol : num)
    (max_iter : Z) : M dict :=
  fe <- lift (parse_function func_str) ;;
  let func := fst fe in
  reset_iteration_data ;;;
  for_range (fixed_point_body func tol) (fixed_point_after max_iter)
    (Z.to_nat max_iter) 1%Z (x0, None).

(** One pass of the loop of [modified_secant_method] ([ZOF_CLI.py],
    lines 303-332). *)
Definition modified_secant_body (func : num -> result num) (delta tol : num)
    (i : Z) (vars : point_vars) : M (dict + point_vars) :=
  let '(x, _) := vars in
  fx <- lift (func x) ;;
  fx_delta <- lift (if fne x zero then func (fadd x (fmul delta x))
                    else func (fadd x delta)) ;;
  let denominator := fsub fx_delta fx in
  if flt (fabs denominator) lit_1e_12 then
    ret (inl [("error",
               VStr "Division by zero: f(x + δx) - f(x) too small")])
  else
    q <- lift (truediv (fmul fx (if fne x zero then fmul delta x else delta))
                       denominator) ;;
    let x_new := fsub x q in
    let error := fabs (fsub x_new x) in
    append_iteration_data
      [("iteration", VInt i); ("x", VNum x); ("f(x)", VNum fx);
       ("f(x+δx)", VNum fx_delta); ("x_new", VNum x_new);
       ("error", VNum error)] ;;;
    fx_new <- lift (func x_new) ;;
    if flt (fabs fx_new) tol || flt error tol then
      data <- get_iteration_data ;;
      ret (inl [("root", VNum x_new); ("iterations", VInt i);
                ("final_error", VNum error); ("iteration_data", VList data);
                ("method", VStr "Modified Secant Method")])
    else
      ret (inr (x_new, Some error)).

(** The [return] after the loop (lines 334-341); [error] is unbound when no pass
    has run. *)
Definition modified_secant_after (max_iter : Z) (vars : point_vars) : M dict :=
  let '(x, last) := vars in
  match last with
  | None => raise (UnboundLocalError "error")
  | Some error =>
      data <- get_iteration_data ;;
      ret [("root", VNum x); ("iterations", VInt max_iter);
           ("final_error", VNum error); ("iteration_data", VList data);
           ("method", VStr "Modified Secant Method");
           ("warning", VStr "Maximum iterations reached")]
  end.

(** [modified_secant_method] ([ZOF_CLI.py], lines 293-341). *)
Definition modified_secant_method (func_str : string) (x0 delta tol : num)
    (max_iter : Z) : M dict :=
  fe <- lift (parse_function func_str) ;;
  let func := fst fe in
  reset_iteration_data ;;;
  for_range (modified_secant_body func delta tol)
    (modified_secant_after max_iter) (Z.to_nat max_iter) 1%Z (x0, None).
End Solver.
End CLI.

(** ** [app.py]: class [ZOFSolver]

    The same six methods; the dicts hold [round(v, 10)] for every float and
    [f"{error:.6e}"] for the errors. *)

Module Web.
Section Solver.
Context {A : Arith} {S : Sympy} {B : Builtins}.

(** [parse_function] ([app.py], lines 21-28): any exception of [sympify] or
    [lambdify] becomes a [ValueError]. *)
Definition parse_function (func_str : string)
  : result ((num -> result num) * Expr) :=
  match sympify func_str with
  | Raise e =>
      Raise (ValueError
               (String.append "Error parsing function: " (str_exn e)))
  | Ok expr =>
      match lambdify expr with
      | Raise e =>
          Raise (ValueError
               (String.append "Error parsing function: " (str_exn e)))
      | Ok func => Ok (func, expr)
      end
  end.

(** Loop variables [a, b, fa, fb] and, once a pass has run, [c, error]. *)
Definition bracket_vars : Type :=
  (num * num * num * num * option (num * num))%type.

(** One pass of the loop of [bisection_method] ([app.py], lines 42-70).
    The divisor in [(a + b) / 2] and [abs(b - a) / 2] is the literal [2]:
    these quotients cannot raise. *)
Definition bisection_body (func : num -> result num) (tol : num) (i : Z)
    (vars : bracket_vars) : M (dict + bracket_vars) :=
  let '(a, b, fa, fb, _) := vars in
  let c := fdiv (fadd a b) two in
  fc <- lift (func c) ;;
  let error := fdiv (fabs (fsub b a)) two in
  append_iteration_data
    [("iteration", VInt i); ("a", VNum (round a 10));
     ("b", VNum (round b 10)); ("c", VNum (round c 10));
     ("f(c)", VNum (round fc 10)); ("error", VStr (format error ".6e"))] ;;;
  if flt (fabs fc) tol || flt error tol then
    data <- get_iteration_data ;;
    ret (inl [("root", VNum (round c 10)); ("iterations", VInt i);
              ("final_error", VStr (format error ".6e"));
              ("iteration_data", VList data);
              ("method", VStr "Bisection Method")])
  else if flt (fmul fa fc) zero then
    ret (inr (a, c, fa, fc, Some (c, error)))
  else
    ret (inr (c, b, fc, fb, Some (c, error))).

(** The [return] after the loop (lines 72-79); [c] is unbound when no pass
    has run. *)
Definition bisection_after (max_iter : Z) (vars : bracket_vars) : M dict :=
  let '(_, _, _, _, last) := vars in
  match last with
  | None => raise (UnboundLocalError "c")
  | Some (c, error) =>
      data <- get_iteration_data ;;
      ret [("root", VNum (round c 10)); ("iterations", VInt max_iter);
           ("final_error", VStr (format error ".6e"));
           ("iteration_data", VList data);
           ("method", VStr "Bisection Method");
           ("warning", VStr "Maximum iterations reached")]
  end.

(** [bisection_method] ([app.py], lines 30-79). *)
Definition bisection_method (func_str : string) (a b tol : num)
    (max_iter : Z) : M dict :=
  fe <- lift (parse_function func_str) ;;
  let func := fst fe in
  reset_iteration_data ;;;
  fa <- lift (func a) ;;
  fb <- lift (func b) ;;
  if fgt (fmul fa fb) zero then
    ret [("error", VStr "Function must have opposite signs at endpoints")]
  else
    for_range (bisection_body func tol) (bisection_after max_iter)
      (Z.to_nat max_iter) 1%Z (a, b, fa, fb, None).

(** Loop variables [a, b, fa, fb, c_old] and, once a pass has run,
    [c, error]. *)
Definition falsi_vars : Type :=
  (num * num * num * num * num * option (num * num))%type.

(** One pass of the loop of [regula_falsi_method] ([app.py], lines 95-129).
    The quotient is Python's [/], which raises on a zero divisor. *)
Definition regula_falsi_body (func : num -> result num) (tol : num) (i : Z)
    (vars : falsi_vars) : M (dict + falsi_vars) :=
  let '(a, b, fa, fb, c_old, _) := vars in
  q <- lift (truediv (fmul fb (fsub b a)) (fsub fb fa)) ;;
  let c := fsub b q in
  fc <- lift (func c) ;;
  let error := if (1 <? i)%Z then fabs (fsub c c_old) else fabs (fsub b a) in
  append_iteration_data
    [("iteration", VInt i); ("a", VNum (round a 10));
     ("b", VNum (round b 10)); ("c", VNum (round c 10));
     ("f(c)", VNum (round fc 10)); ("error", VStr (format error ".6e"))] ;;;
  if flt (fabs fc) tol || flt error tol then
    data <- get_iteration_data ;;
    ret (inl [("root", VNum (round c 10)); ("iterations", VInt i);
              ("final_error", VStr (format error ".6e"));
              ("iteration_data", VList data);
              ("method", VStr "Regula Falsi Method")])
  else if flt (fmul fa fc) zero then
    ret (inr (a, c, fa, fc, c, Some (c, error)))
  else
    ret (inr (c, b, fc, fb, c, Some (c, error))).

(** The [return] after the loop (lines 131-138); [c] is unbound when no pass
    has run. *)
Definition regula_falsi_after (max_iter : Z) (vars : falsi_vars) : M dict :=
  let '(_, _, _, _, _, last) := vars in
  match last with
  | None => raise (UnboundLocalError "c")
  | Some (c, error) =>
      data <- get_iteration_data ;;
      ret [("root", VNum (round c 10)); ("iterations", VInt max_iter);
           ("final_error", VStr (format error ".6e"));
           ("iteration_data", VList data);
           ("method", VStr "Regula Falsi Method");
           ("warning", VStr "Maximum iterations reached")]
  end.

(** [regula_falsi_method] ([app.py], lines 81-138). *)
Definition regula_falsi_method (func_str : string) (a b tol : num)
    (max_iter : Z) : M dict :=
  fe <- lift (parse_function func_str) ;;
  let func := fst fe in
  reset_iteration_data ;;;
  fa <- lift (func a) ;;
  fb <- lift (func b) ;;
  if fgt (fmul fa fb) zero then
    ret [("error", VStr "Function must have opposite signs at endpoints")]
  else
    for_range (regula_falsi_body func tol) (regula_falsi_after max_iter)
      (Z.to_nat max_iter) 1%Z (a, b, fa, fb, a, None).

(** Loop variables [x0, x1, f0, f1] and, once a pass has run, [x2, error]. *)
Definition secant_vars : Type :=
  (num * num * num * num * option (num * num))%type.

(** One pass of the loop of [secant_method] ([app.py], lines 149-176). *)
Definition secant_body (func : num -> result num) (tol : num) (i : Z)
    (vars : secant_vars) : M (dict + secant_vars) :=
  let '(x0, x1, f0, f1, _) := vars in
  if flt (fabs (fsub f1 f0)) lit_1e_12 then
    ret (inl [("error", VStr "Division by zero: f(x1) - f(x0) too small")])
  else
    q <- lift (truediv (fmul f1 (fsub x1 x0)) (fsub f1 f0)) ;;
    let x2 := fsub x1 q in
    f2 <- lift (func x2) ;;
    let error := fabs (fsub x2 x1) in
    append_iteration_data
      [("iteration", VInt i); ("x0", VNum (round x0 10));
       ("x1", VNum (round x1 10));
       ("x2", VNum (round x2 10)); ("f(x2)", VNum (round f2 10));
       ("error", VStr (format error ".6e"))] ;;;
    if flt (fabs f2) tol || flt error tol then
      data <- get_iteration_data ;;
      ret (inl [("root", VNum (round x2 10)); ("iterations", VInt i);
                ("final_error", VStr (format error ".6e"));
                ("iteration_data", VList data);
                ("method", VStr "Secant Method")])
    else
      ret (inr (x1, x2, f1, f2, Some (x2, error))).

(** The [return] after the loop (lines 178-185); [x2] is unbound when no pass
    has run. *)
Definition secant_after (max_iter : Z) (vars : secant_vars) : M dict :=
  let '(_, _, _, _, last) := vars in
  match last with
  | None => raise (UnboundLocalError "x2")
  | Some (x2, error) =>
      data <- get_iteration_data ;;
      ret [("root", VNum (round x2 10)); ("iterations", VInt max_iter);
           ("final_error", VStr (format error ".6e"));
           ("iteration_data", VList data);
           ("method", VStr "Secant Method");
           ("warning", VStr "Maximum iterations reached")]
  end.

(** [secant_method] ([app.py], lines 140-185). *)
Definition secant_method (func_str : string) (x0 x1 tol : num)
    (max_iter : Z) : M dict :=
  fe <- lift (parse_function func_str) ;;
  let func := fst fe in
  reset_iteration_data ;;;
  f0 <- lift (func x0) ;;
  f1 <- lift (func x1) ;;
  for_range (secant_body func tol) (secant_after max_iter)
    (Z.to_nat max_iter) 1%Z (x0, x1, f0, f1, None).

(** Loop variable [x] and, once a pass has run, [error]. *)
Definition point_vars : Type := (num * option num)%type.

(** One pass of the loop of [newton_raphson_method] ([app.py],
    lines 198-226).
    [func(x_new)] is evaluated after the record is appended. *)
Definition newton_raphson_body (func derivative : num -> result num)
    (tol : num) (i : Z) (vars : point_vars) : M (dict + point_vars) :=
  let '(x, _) := vars in
  fx <- lift (func x) ;;
  dfx <- lift (derivative x) ;;
  if flt (fabs dfx) lit_1e_12 then
    ret (inl [("error", VStr "Derivative too small, division by zero")])
  else
    q <- lift (truediv fx dfx) ;;
    let x_new := fsub x q in
    let error := fabs (fsub x_new x) in
    append_iteration_data
      [("iteration", VInt i); ("x", VNum (round x 10));
       ("f(x)", VNum (round fx 10));
       ("f'(x)", VNum (round dfx 10)); ("x_new", VNum (round x_new 10));
       ("error", VStr (format error ".6e"))] ;;;
    fx_new <- lift (func x_new) ;;
    if flt (fabs fx_new) tol || flt error tol then
      data <- get_iteration_data ;;
      ret (inl [("root", VNum (round x_new 10)); ("iterations", VInt i);
                ("final_error", VStr (format error ".6e"));
                ("iteration_data", VList data);
                ("method", VStr "Newton-Raphson Method")])
    else
      ret (inr (x_new, Some error)).

(** The [return] after the loop (lines 228-235); [error] is unbound when no pass
    has run. *)
Definition newton_raphson_after (max_iter : Z) (vars : point_vars) : M dict :=
  let '(x, last) := vars in
  match last with
  | None => raise (UnboundLocalError "error")
  | Some error =>
      data <- get_iteration_data ;;
      ret [("root", VNum (round x 10)); ("iterations", VInt max_iter);
           ("final_error", VStr (format error ".6e"));
           ("iteration_data", VList data);
           ("method", VStr "Newton-Raphson Method");
           ("warning", VStr "Maximum iterations reached")]
  end.

(** [newton_raphson_method] ([app.py], lines 187-235). *)
Definition newton_raphson_method (func_str : string) (x0 tol : num)
    (max_iter : Z) : M dict :=
  fe <- lift (parse_function func_str) ;;
  let func := fst fe in
  let expr := snd fe in
  reset_iteration_data ;;;
  derivative_expr <- lift (diff expr) ;;
  derivative <- lift (lambdify derivative_expr) ;;
  for_range (newton_raphson_body func derivative tol)
    (newton_raphson_after max_iter) (Z.to_nat max_iter) 1%Z (x0, None).

(** One pass of the loop of [fixed_point_iteration] ([app.py],
    lines 245-268).
    The divergence test comes after the convergence test. *)
Definition fixed_point_body (func : num -> result num) (tol : num) (i : Z)
    (vars : point_vars) : M (dict + point_vars) :=
  let '(x, _) := vars in
  x_new <- lift (func x) ;;
  let error := fabs (fsub x_new x) in
  append_iteration_data
    [("iteration", VInt i); ("x", VNum (round x 10));
     ("g(x)", VNum (round x_new 10));
     ("error", VStr (format error ".6e"))] ;;;
  if flt error tol then
    data <- get_iteration_data ;;
    ret (inl [("root", VNum (round x_new 10)); ("iterations", VInt i);
              ("final_error", VStr (format error ".6e"));
              ("iteration_data", VList data);
              ("method", VStr "Fixed Point Iteration")])
  else if fgt (fabs x_new) lit_1e10 then
    ret (inl [("error", VStr "Method diverging, |x| > 10^10")])
  else
    ret (inr (x_new, Some error)).

(** The [return] after the loop (lines 270-277); [error] is unbound when no pass
    has run. *)
Definition fixed_point_after (max_iter : Z) (vars : point_vars) : M dict :=
  let '(x, last) := vars in
  match last with
  | None => raise (UnboundLocalError "error")
  | Some error =>
      data <- get_iteration_data ;;
      ret [("root", VNum (round x 10)); ("iterations", VInt max_iter);
           ("final_error", VStr (format error ".6e"));
           ("iteration_data", VList data);
           ("method", VStr "Fixed Point Iteration");
           ("warning", VStr "Maximum iterations reached")]
  end.

(** [fixed_point_iteration] ([app.py], lines 237-277). *)
Definition fixed_point_iteration (func_str : string) (x0 tol : num)
    (max_iter : Z) : M dict :=
  fe <- lift (parse_function func_str) ;;
  let func := fst fe in
  reset_iteration_data ;;;
  for_range (fixed_point_body func tol) (fixed_point_after max_iter)
    (Z.to_nat max_iter) 1%Z (x0, None).

(** One pass of the loop of [modified_secant_method] ([app.py],
    lines 287-316). *)
Definition modified_secant_body (func : num -> result num) (delta tol : num)
    (i : Z) (vars : point_vars) : M (dict + point_vars) :=
  let '(x, _) := vars in
  fx <- lift (func x) ;;
  fx_delta <- lift (if fne x zero then func (fadd x (fmul delta x))
                    else func (fadd x delta)) ;;
  let denominator := fsub fx_delta fx in
  if flt (fabs denominator) lit_1e_12 then
    ret (inl [("error",
               VStr "Division by zero: f(x + δx) - f(x) too small")])
  else
    q <- lift (truediv (fmul fx (if fne x zero then fmul delta x else delta))
                       denominator) ;;
    let x_new := fsub x q in
    let error := fabs (fsub x_new x) in
    append_iteration_data
      [("iteration", VInt i); ("x", VNum (round x 10));
       ("f(x)", VNum (round fx 10));
       ("f(x+δx)", VNum (round fx_delta 10)); ("x_new", VNum (round x_new 10));
       ("error", VStr (format error ".6e"))] ;;;
    fx_new <- lift (func x_new) ;;
    if flt (fabs fx_new) tol || flt error tol then
      data <- get_iteration_data ;;
      ret (inl [("root", VNum (round x_new 10)); ("iterations", VInt i);
                ("final_error", VStr (format error ".6e"));
                ("iteration_data", VList data);
                ("method", VStr "Modified Secant Method")])
    else
      ret (inr (x_new, Some error)).

(** The [return] after the loop (lines 318-325); [error] is unbound when no pass
    has run. *)
Definition modified_secant_after (max_iter : Z) (vars : point_vars) : M dict :=
  let '(x, last) := vars in
  match last with
  | None => raise (UnboundLocalError "error")
  | Some error =>
      data <- get_iteration_data ;;
      ret [("root", VNum (round x 10)); ("iterations", VInt max_iter);
           ("final_error", VStr (format error ".6e"));
           ("iteration_data", VList data);
           ("method", VStr "Modified Secant Method");
           ("warning", VStr "Maximum iterations reached")]
  end.

(** [modified_secant_method] ([app.py], lines 279-325). *)
Definition modified_secant_method (func_str : string) (x0 delta tol : num)
    (max_iter : Z) : M dict :=
  fe <- lift (parse_function func_str) ;;
  let func := fst fe in
  reset_iteration_data ;;;
  for_range (modified_secant_body func delta tol)
    (modified_secant_after max_iter) (Z.to_nat max_iter) 1%Z (x0, None).
End Solver.
End Web.

(** ** Invocations and what a caller observes *)

(** One invocation of one of the six methods, as [main] (command line) and
    [solve] (web) dispatch them. *)
Inductive Call {A : Arith} : Type :=
| Bisection (func_str : string) (a b tol : num) (max_iter : Z)
| RegulaFalsi (func_str : string) (a b tol : num) (max_iter : Z)
| Secant (func_str : string) (x0 x1 tol : num) (max_iter : Z)
| NewtonRaphson (func_str : string) (x0 tol : num) (max_iter : Z)
| FixedPoint (func_str : string) (x0 tol : num) (max_iter : Z)
| ModifiedSecant (func_str : string) (x0 delta tol : num) (max_iter : Z).

Definition cli_invoke {A : Arith} {S : Sympy} (c : Call) : M dict :=
  match c with
  | Bisection f a b tol n => CLI.bisection_method f a b tol n
  | RegulaFalsi f a b tol n => CLI.regula_falsi_method f a b tol n
  | Secant f x0 x1 tol n => CLI.secant_method f x0 x1 tol n
  | NewtonRaphson f x0 tol n => CLI.newton_raphson_method f x0 tol n
  | FixedPoint f x0 tol n => CLI.fixed_point_iteration f x0 tol n
  | ModifiedSecant f x0 delta tol n => CLI.modified_secant_method f x0 delta tol n
  end.

Definition web_invoke {A : Arith} {S : Sympy} {B : Builtins} (c : Call)
  : M dict :=
  match c with
  | Bisection f a b tol n => Web.bisection_method f a b tol n
  | RegulaFalsi f a b tol n => Web.regula_falsi_method f a b tol n
  | Secant f x0 x1 tol n => Web.secant_method f x0 x1 tol n
  | NewtonRaphson f x0 tol n => Web.newton_raphson_method f x0 tol n
  | FixedPoint f x0 tol n => Web.fixed_point_iteration f x0 tol n
  | ModifiedSecant f x0 delta tol n => Web.modified_secant_method f x0 delta tol n
  end.

(** The key of the new estimate in a method's iteration records. *)
Definition estimate_key {A : Arith} (c : Call) : string :=
  match c with
  | Bisection _ _ _ _ _ | RegulaFalsi _ _ _ _ _ => "c"
  | Secant _ _ _ _ _ => "x2"
  | NewtonRaphson _ _ _ _ | ModifiedSecant _ _ _ _ _ => "x_new"
  | FixedPoint _ _ _ _ => "g(x)"
  end.

Section Observation.
Context {A : Arith}.

(** A value with its references followed. *)
Inductive svalue : Type :=
| SInt (z : Z)
| SNum (x : num)
| SStr (s : string)
| SRecords (l : list dict).

Definition snapshot_value (st : Store) (v : value) : svalue :=
  match v with
  | VInt z => SInt z
  | VNum x => SNum x
  | VStr s => SStr s
  | VList l => SRecords (deref st l)
  end.

(** The dict a method returned, as its caller reads it in store [st]. *)
Definition snapshot (st : Store) (d : dict) : list (string * svalue) :=
  map (fun kv => (fst kv, snapshot_value st (snd kv))) d.

(** The observable outcome of a run: the exception, or the returned dict
    read in the final store. *)
Definition observe (r : result dict * Store) : result (list (string * svalue)) :=
  match r with
  | (Ok d, st) => Ok (snapshot st d)
  | (Raise e, _) => Raise e
  end.

(** [self.iteration_data] refers to an existing list object. *)
Definition valid (st : Store) : Prop :=
  (self_iteration_data st < List.length (lists st))%nat.

(** The trace a caller reads from the solver object. *)
Definition trace (st : Store) : list dict := deref st (self_iteration_data st).
End Observation.

(** The output formatting of the web copy, applied to what the
    command-line copy returns: error fields in scientific notation, every
    other float rounded to 10 decimals. *)
Section WebFormat.
Context {A : Arith} {B : Builtins}.

Definition is_error_key (k : string) : bool :=
  String.eqb k "error" || String.eqb k "final_error".

Definition web_value (k : string) (v : value) : value :=
  match v with
  | VNum x => if is_error_key k then VStr (format x ".6e")
              else VNum (round x 10)
  | _ => v
  end.

Definition web_record (d : dict) : dict :=
  map (fun kv => (fst kv, web_value (fst kv) (snd kv))) d.

Definition web_svalue (k : string) (v : svalue) : svalue :=
  match v with
  | SNum x => if is_error_key k then SStr (format x ".6e")
              else SNum (round x 10)
  | SRecords l => SRecords (map web_record l)
  | _ => v
  end.

Definition web_format (o : list (string * svalue)) : list (string * svalue) :=
  map (fun kv => (fst kv, web_svalue (fst kv) (snd kv))) o.

Definition web_outcome (r : result (list (string * svalue)))
  : result (list (string * svalue)) :=
  match r with
  | Ok o => Ok (web_format o)
  | Raise e => Raise e
  end.
End WebFormat.

(** ** A small instance of the sympy interface

    Integer literals, names, [+ - * / **] (integer exponents), unary minus
    and parentheses, evaluated in binary64 the way the generated Python
    code evaluates them.  It stands in for sympy where a statement is run on
    a concrete text; the general statements hold for any instance. *)

Module MiniSympy.

Inductive expr : Type :=
| Symbol (name : string)
| Integer (n : Z)
| Add (e1 e2 : expr)
| Sub (e1 e2 : expr)
| Mul (e1 e2 : expr)
| Div (e1 e2 : expr)
| Pow (e : expr) (n : nat)
| Neg (e : expr).

Inductive token : Type :=
| TNum (n : Z) | TName (s : string)
| TPlus | TMinus | TStar | TSlash | TPow | TLParen | TRParen.

Definition is_digit (c : ascii) : bool :=
  let n := nat_of_ascii c in (48 <=? n)%nat && (n <=? 57)%nat.
Definition is_alpha (c : ascii) : bool :=
  let n := nat_of_ascii c in
  ((65 <=? n)%nat && (n <=? 90)%nat) || ((97 <=? n)%nat && (n <=? 122)%nat)
  || (n =? 95)%nat.
Definition digit_val (c : ascii) : Z := Z.of_nat (nat_of_ascii c - 48).

(** [pending]: the number or name being read. *)
Inductive pending : Type :=
| PNone | PNum (n : Z) | PName (s : string).

Definition flush (p : pending) (acc : list token) : list token :=
  match p with
  | PNone => acc
  | PNum n => TNum n :: acc
  | PName s => TName s :: acc
  end.

(** Tokens are accumulated in reverse. *)
Fixpoint tokenize (s : string) (p : pending) (acc : list token)
  : option (list token) :=
  match s with
  | EmptyString => Some (rev (flush p acc))
  | String c s' =>
      if is_digit c then
        match p with
        | PNum n => tokenize s' (PNum (10 * n + digit_val c)) acc
        | PName nm => tokenize s' (PName (String.append nm (String c ""))) acc
        | PNone => tokenize s' (PNum (digit_val c)) acc
        end
      else if is_alpha c then
        match p with
        | PName nm => tokenize s' (PName (String.append nm (String c ""))) acc
        | PNum _ => None
        | PNone => tokenize s' (PName (String c "")) acc
        end
      else
        let acc := flush p acc in
        match c with
        | " "%char => tokenize s' PNone acc
        | "+"%char => tokenize s' PNone (TPlus :: acc)
        | "-"%char => tokenize s' PNone (TMinus :: acc)
        | "/"%char => tokenize s' PNone (TSlash :: acc)
        | "("%char => tokenize s' PNone (TLParen :: acc)
        | ")"%char => tokenize s' PNone (TRParen :: acc)
        | "*"%char =>
            match s' with
            | String "*"%char s'' => tokenize s'' PNone (TPow :: acc)
            | _ => tokenize s' PNone (TStar :: acc)
            end
        | _ => None
        end
  end.

Definition parser : Type := list token -> option (expr * list token).

(** [sub (op sub)*], left associative. *)
Fixpoint binops (sub : parser) (op : token -> option (expr -> expr -> expr))
    (n : nat) (acc : expr) (ts : list token) : option (expr * list token) :=
  match n, ts with
  | S n', t :: r =>
      match op t with
      | Some f =>
          match sub r with
          | Some (e, r') => binops sub op n' (f acc e) r'
          | None => None
          end
      | None => Some (acc, ts)
      end
  | _, _ => Some (acc, ts)
  end.

(** sympy computes with integer constants when it builds the expression. *)
Definition fold2 (f : Z -> Z -> Z) (mk : expr -> expr -> expr)
    (e1 e2 : expr) : expr :=
  match e1, e2 with
  | Integer m, Integer n => Integer (f m n)
  | _, _ => mk e1 e2
  end.
Definition fold_pow (e : expr) (n : nat) : expr :=
  match e with
  | Integer m => Integer (m ^ Z.of_nat n)
  | _ => Pow e n
  end.
Definition fold_neg (e : expr) : expr :=
  match e with
  | Integer m => Integer (- m)
  | _ => Neg e
  end.

Definition add_op (t : token) : option (expr -> expr -> expr) :=
  match t with
  | TPlus => Some (fold2 Z.add Add)
  | TMinus => Some (fold2 Z.sub Sub)
  | _ => None
  end.
Definition mul_op (t : token) : option (expr -> expr -> expr) :=
  match t with
  | TStar => Some (fold2 Z.mul Mul)
  | TSlash => Some Div
  | _ => None
  end.

(** [('-' | '+')* power] *)
Fixpoint parse_factor (power : parser) (ts : list token)
  : option (expr * list token) :=
  match ts with
  | TMinus :: r =>
      match parse_factor power r with
      | Some (e, r') => Some (fold_neg e, r')
      | None => None
      end
  | TPlus :: r => parse_factor power r
  | _ => power ts
  end.

Fixpoint parse_expr (fuel : nat) (ts : list token)
  : option (expr * list token) :=
  match fuel with
  | O => None
  | S fuel' =>
      let atom : parser := fun ts =>
        match ts with
        | TNum n :: r => Some (Integer n, r)
        | TName s :: r => Some (Symbol s, r)
        | TLParen :: r =>
            match parse_expr fuel' r with
            | Some (e, TRParen :: r') => Some (e, r')
            | _ => None
            end
        | _ => None
        end in
      let power : parser := fun ts =>
        match atom ts with
        | Some (e, TPow :: TNum n :: r) => Some (fold_pow e (Z.to_nat n), r)
        | Some (e, TPow :: _) => None
        | other => other
        end in
      let factor : parser := parse_factor power in
      let term : parser := fun ts =>
        match factor ts with
        | Some (e, r) => binops factor mul_op (List.length r) e r
        | None => None
        end in
      match term ts with
      | Some (e, r) => binops term add_op (List.length r) e r
      | None => None
      end
  end.

Definition parse (s : string) : result expr :=
  match tokenize s PNone [] with
  | None => Raise (SympifyError (String.append "could not parse " s))
  | Some ts =>
      match parse_expr (Datatypes.S (List.length ts)) ts with
      | Some (e, []) => Ok e
      | _ => Raise (SympifyError (String.append "could not parse " s))
      end
  end.

(** [x ** n] on a float: the product, or [OverflowError] when it is not
    finite although [x] is. *)
Fixpoint product (x : float) (n : nat) : float :=
  match n with
  | O => 1%float
  | S O => x
  | S n' => PrimFloat.mul x (product x n')
  end.

Definition float_pow (x : float) (n : nat) : result float :=
  let y := product x n in
  if PrimFloat.is_finite x && negb (PrimFloat.is_finite y)
  then Raise (OverflowError "(34, 'Numerical result out of range')")
  else Ok y.

(** [float(n)] for an [int]: the nearest float, or [OverflowError]. *)
Definition int_to_float (n : Z) : result float :=
  let y := SF2Prim (binary_normalize prec emax n 0 false) in
  if PrimFloat.is_infinity y
  then Raise (OverflowError "int too large to convert to float")
  else Ok y.

Definition lift2 (f : float -> float -> result float)
    (r1 r2 : result float) : result float :=
  match r1 with
  | Raise e => Raise e
  | Ok v1 => match r2 with
             | Raise e => Raise e
             | Ok v2 => f v1 v2
             end
  end.

(** The generated function [lambda x: e]. *)
Fixpoint eval (e : expr) (x : float) : result float :=
  match e with
  | Symbol s =>
      if String.eqb s "x" then Ok x
      else Raise (OtherException "NameError"
                    (String.append "name '" (String.append s "' is not defined")))
  | Integer n => int_to_float n
  | Add e1 e2 => lift2 (fun a b => Ok (PrimFloat.add a b)) (eval e1 x) (eval e2 x)
  | Sub e1 e2 => lift2 (fun a b => Ok (PrimFloat.sub a b)) (eval e1 x) (eval e2 x)
  | Mul e1 e2 => lift2 (fun a b => Ok (PrimFloat.mul a b)) (eval e1 x) (eval e2 x)
  | Div e1 e2 => lift2 (fun a b => truediv (A := binary64) a b) (eval e1 x) (eval e2 x)
  | Pow e1 n =>
      match eval e1 x with
      | Raise e => Raise e
      | Ok v => float_pow v n
      end
  | Neg e1 =>
      match eval e1 x with
      | Raise e => Raise e
      | Ok v => Ok (PrimFloat.opp v)
      end
  end.

Definition mk_mul (e1 e2 : expr) : expr :=
  match e1, e2 with
  | Integer 0, _ | _, Integer 0 => Integer 0
  | Integer 1, e | e, Integer 1 => e
  | _, _ => Mul e1 e2
  end.
Definition mk_add (e1 e2 : expr) : expr :=
  match e1, e2 with
  | Integer 0, e | e, Integer 0 => e
  | _, _ => Add e1 e2
  end.
Definition mk_sub (e1 e2 : expr) : expr :=
  match e2 with
  | Integer 0 => e1
  | _ => Sub e1 e2
  end.
Definition mk_pow (e : expr) (n : nat) : expr :=
  match n with
  | O => Integer 1
  | S O => e
  | _ => Pow e n
  end.

(** [diff(e, x)] *)
Fixpoint derive (e : expr) : expr :=
  match e with
  | Symbol s => if String.eqb s "x" then Integer 1 else Integer 0
  | Integer _ => Integer 0
  | Add e1 e2 => mk_add (derive e1) (derive e2)
  | Sub e1 e2 => mk_sub (derive e1) (derive e2)
  | Mul e1 e2 => mk_add (mk_mul (derive e1) e2) (mk_mul e1 (derive e2))
  | Div e1 e2 =>
      Div (mk_sub (mk_mul (derive e1) e2) (mk_mul e1 (derive e2))) (Pow e2 2)
  | Pow e1 n =>
      mk_mul (mk_mul (Integer (Z.of_nat n)) (mk_pow e1 (Nat.pred n))) (derive e1)
  | Neg e1 => Neg (derive e1)
  end.

#[export] Instance mini : Sympy (A := binary64) := {|
  Expr := expr;
  sympify := parse;
  lambdify := fun e => Ok (eval e);
  diff := fun e => Ok (derive e)
|}.
End MiniSympy.

(** An instance of the interface for a function given directly, with its
    derivative: every text denotes that function. *)
Definition sympy_of {A : Arith} (f f' : num -> result num) : Sympy := {|
  Expr := bool;
  sympify := fun _ => Ok false;
  lambdify := fun e => Ok (if e then f' else f);
  diff := fun _ => Ok true
|}.

(** ** Notions used in the statements *)

Section Notions.
Context {A : Arith}.

(** [k] passes of a loop, none of which returns or raises, lead from one
    state of the loop to another. *)
Inductive reaches {V} (body : Z -> V -> M (dict + V))
  : nat -> Z -> V -> Store -> Z -> V -> Store -> Prop :=
| reaches_here i v st : reaches body O i v st i v st
| reaches_pass k i v st v' st' j w s :
    body i v st = (Ok (inr v'), st') ->
    reaches body k (i + 1)%Z v' st' j w s ->
    reaches body (S k) i v st j w s.

(** Store [st'] differs from [st] at most in the list [self.iteration_data]
    refers to. *)
Definition frame (st st' : Store) : Prop :=
  self_iteration_data st' = self_iteration_data st /\
  List.length (lists st') = List.length (lists st) /\
  forall l, l <> self_iteration_data st -> deref st' l = deref st l.

(** Every list a dict refers to is the list at [l]. *)
Definition refs_only (l : loc) (d : dict) : Prop :=
  forall k l', In (k, VList l') d -> l' = l.

(** The returned dict [d], read in store [st], agrees with its own trace:
    as many records as [iterations], and the last record carries
    [final_error] and, under [key], [root]. *)
Definition outcome_consistent (key : string) (st : Store) (d : dict) : Prop :=
  exists l recs rec e r,
    lookup "iteration_data" d = Some (VList l) /\
    deref st l = (recs ++ [rec])%list /\
    lookup "iterations" d = Some (VInt (Z.of_nat (List.length (deref st l)))) /\
    lookup "final_error" d = Some e /\
    lookup "error" rec = Some e /\
    lookup "root" d = Some r /\
    lookup key rec = Some r.

(** The loop variables a method reports after its loop: the last estimate
    and the last error, once a pass has run. *)
Definition bracket_estimate (v : num * num * num * num * option (num * num))
  : option (num * num) := snd v.
Definition falsi_estimate
    (v : num * num * num * num * num * option (num * num))
  : option (num * num) := snd v.
Definition point_estimate (v : num * option num) : option (num * num) :=
  match snd v with
  | Some e => Some (fst v, e)
  | None => None
  end.

(** Before pass [i], with [n] passes left of [max_iter]: the trace has
    [i - 1] records and its last record carries the reported estimate and
    error, stored as [show_est] and [show_err] write them. *)
Definition consistent (show_est show_err : num -> value) (key : string)
    (max_iter : Z) (n : nat) (i : Z) (est : option (num * num)) (st : Store)
  : Prop :=
  valid st /\
  Z.of_nat (List.length (trace st)) = (i - 1)%Z /\
  (i - 1 + Z.of_nat n)%Z = Z.of_nat (Z.to_nat max_iter) /\
  match est with
  | None => trace st = []
  | Some (c, e) =>
      exists recs rec, trace st = (recs ++ [rec])%list /\
        lookup key rec = Some (show_est c) /\
        lookup "error" rec = Some (show_err e)
  end.

(** What a run promises about a dict it returns without an [error] key. *)
Definition consistent_run (key : string) (r : result dict * Store) : Prop :=
  forall d, fst r = Ok d -> lookup "error" d = None ->
            outcome_consistent key (snd r) d.

(** The failure dicts the statements name. *)
Definition precondition_failure : dict :=
  [("error", VStr "Function must have opposite signs at endpoints")].
Definition derivative_failure : dict :=
  [("error", VStr "Derivative too small, division by zero")].
Definition divergence_failure : dict :=
  [("error", VStr "Method diverging, |x| > 10^10")].

(** A function that never raises [ZeroDivisionError]. *)
Definition no_zero_division (f : num -> result num) : Prop :=
  forall x m, f x <> Raise (ZeroDivisionError m).
End Notions.

(** The function text of an invocation. *)
Definition func_str_of {A : Arith} (c : Call) : string :=
  match c with
  | Bisection f _ _ _ _ | RegulaFalsi f _ _ _ _ | Secant f _ _ _ _
  | NewtonRaphson f _ _ _ | FixedPoint f _ _ _ | ModifiedSecant f _ _ _ _ => f
  end.

(** Two loops pass by pass: related stores give related results, or the
    same loop variables and related stores again. *)
Section Relational.
Context {A : Arith}.
Variable Rs : Store -> Store -> Prop.
Variable Qo : result dict * Store -> result dict * Store -> Prop.

Definition pass_rel {V} (body1 body2 : Z -> V -> M (dict + V)) : Prop :=
  forall i v st1 st2, Rs st1 st2 ->
    match body1 i v st1, body2 i v st2 with
    | (Ok (inl d1), s1), (Ok (inl d2), s2) => Qo (Ok d1, s1) (Ok d2, s2)
    | (Ok (inr w1), s1), (Ok (inr w2), s2) => w1 = w2 /\ Rs s1 s2
    | (Raise e1, s1), (Raise e2, s2) => Qo (Raise e1, s1) (Raise e2, s2)
    | _, _ => False
    end.

Definition after_rel {V} (after1 after2 : V -> M dict) : Prop :=
  forall v st1 st2, Rs st1 st2 -> Qo (after1 v st1) (after2 v st2).
End Relational.

(** The command-line copy and the web copy side by side: the web store holds
    the formatted records of the command-line store. *)
Section Side.
Context {A : Arith} {B : Builtins}.

Definition sim_store (st1 st2 : Store) : Prop :=
  valid st1 /\ valid st2 /\ trace st2 = map web_record (trace st1).

Definition sim_out (r1 r2 : result dict * Store) : Prop :=
  observe r2 = web_outcome (observe r1).
End Side.

(** Two runs of the same copy. *)
Section Twice.
Context {A : Arith}.

Definition same_store (st1 st2 : Store) : Prop :=
  valid st1 /\ valid st2 /\ trace st2 = trace st1.

Definition same_out (r1 r2 : result dict * Store) : Prop :=
  observe r2 = observe r1.

(** A pass (or the code after the loop) touches only the current trace, and
    a dict it returns refers only to it. *)
Definition keeps_frame {T} (m : M T) (refs : loc -> T -> Prop) : Prop :=
  forall st, valid st ->
    valid (snd (m st)) /\ frame st (snd (m st)) /\
    match fst (m st) with
    | Ok x => refs (self_iteration_data st) x
    | Raise _ => True
    end.

Definition pass_refs {V} (l : loc) (r : dict + V) : Prop :=
  match r with
  | inl d => refs_only l d
  | inr _ => True
  end.

(** A method leaves the lists that existed before the call as they were, and
    the dict it returns refers to a list of the final store. *)
Definition leaves_alone (m : M dict) : Prop :=
  forall st,
    (forall l, (l < List.length (lists st))%nat ->
               deref (snd (m st)) l = deref st l) /\
    (List.length (lists st) <= List.length (lists (snd (m st))))%nat /\
    (forall d k l, fst (m st) = Ok d -> In (k, VList l) d ->
                   (l < List.length (lists (snd (m st))))%nat).
End Twice.

(** [k] passes computed: the state of the loop after them, when none of
    them returns or raises. *)
Fixpoint run_passes {A : Arith} {V} (body : Z -> V -> M (dict + V))
    (k : nat) (i : Z) (v : V) (st : Store) : option (Z * V * Store) :=
  match k with
  | O => Some (i, v, st)
  | S k' =>
      match body i v st with
      | (Ok (inr v'), st') => run_passes body k' (i + 1)%Z v' st'
      | _ => None
      end
  end.

(** A run that returns no failure dict. *)
Definition no_error_key {A : Arith} (r : result dict * Store) : Prop :=
  forall d, fst r = Ok d -> has_key "error" d = false.

(** What the sign check at the start of a bracketing method does, given the
    run of the method, the run of its loop and the two endpoint values. *)
Definition sign_check_spec {A : Arith} (run loop_run : result dict * Store)
    (st : Store) (fa fb : num) : Prop :=
  (fgt (fmul fa fb) zero = true -> run = (Ok precondition_failure, fresh st)) /\
  (fgt (fmul fa fb) zero = false -> run = loop_run) /\
  (fst run = Ok precondition_failure <-> fgt (fmul fa fb) zero = true).

(** In exact arithmetic: a record of a bracketing method lies within
    [[a, b]], and so do all records of a run and the root it returns. *)
Definition record_within (a b : R) (rec : dict (A := exact)) : Prop :=
  exists ai bi ci : R,
    lookup "a" rec = Some (VNum (A := exact) ai) /\
    lookup "b" rec = Some (VNum (A := exact) bi) /\
    lookup "c" rec = Some (VNum (A := exact) ci) /\
    (a <= ai <= ci)%R /\ (ci <= bi <= b)%R.

Definition within_bracket (a b : R)
    (r : result (dict (A := exact)) * Store (A := exact)) : Prop :=
  (forall rec : dict (A := exact),
     In rec (trace (snd r)) -> record_within a b rec) /\
  (forall d : dict (A := exact), fst r = Ok d ->
     exists root : R, lookup "root" d = Some (VNum (A := exact) root) /\
                      (a <= root <= b)%R).

(** The invariant of both loops: the records so far and the current bracket
    lie within [[a, b]]. *)
Definition bracket_inv (a b : R) (a' b' : R) (last : option (R * R))
    (st : Store (A := exact)) : Prop :=
  valid st /\
  (forall rec : dict (A := exact),
     In rec (trace st) -> record_within a b rec) /\
  (a <= a' <= b')%R /\ (b' <= b)%R /\
  match last with
  | Some (c, _) => (a <= c <= b)%R
  | None => True
  end.

(** Regula Falsi keeps, besides the bracket, the sign condition that puts
    the new point between the endpoints. *)
Definition falsi_inv (func : R -> result R) (a b : R)
    (v : CLI.falsi_vars (A := exact)) (st : Store (A := exact)) : Prop :=
  let '(a', b', fa, fb, _, last) := v in
  bracket_inv a b a' b' last st /\
  (fa * fb <= 0)%R /\ fb <> 0%R /\ func a' = Ok fa.

(** The record a pass of Fixed Point Iteration appends. *)
Definition fixed_point_record {A : Arith} (i : Z) (x x_new : num) : dict :=
  [("iteration", VInt i); ("x", VNum x); ("g(x)", VNum x_new);
   ("error", VNum (fabs (fsub x_new x)))].

(** The dict a converging pass of Fixed Point Iteration returns. *)
Definition fixed_point_converged {A : Arith} (i : Z) (x x_new : num)
    (data : loc) : dict :=
  [("root", VNum x_new); ("iterations", VInt i);
   ("final_error", VNum (fabs (fsub x_new x)));
   ("iteration_data", VList data); ("method", VStr "Fixed Point Iteration")].

(** ** Concrete runs *)

(** The line [x - 1], given directly, in exact arithmetic. *)
Definition line_sympy : Sympy (A := exact) :=
  sympy_of (A := exact) (fun x : R => Ok (x - 1)%R) (fun _ : R => Ok 1%R).

(** A freshly constructed solver in an empty store. *)
Definition solver0 {A : Arith} : Store :=
  init {| lists := []; self_iteration_data := O |}.

(** [x**2 - 4] on [[0, 3]], three passes. *)
Definition sample_bisection : Call (A := binary64) :=
  Bisection "x**2 - 4" 0%float 3%float 1e-6%float 3.

(** [x**2 - 4] on [[-2, 2]]: both endpoints are roots. *)
Definition sample_falsi : Call (A := binary64) :=
  RegulaFalsi "x**2 - 4" (-2)%float 2%float 1e-6%float 100.

(** [x**2 - 4] on [[2, 3]]: the left endpoint is a root. *)
Definition sample_root_endpoint : Call (A := binary64) :=
  Bisection "x**2 - 4" 2%float 3%float 1e-6%float 100.

(** [x**2 - 4] from [x0 = 0], where the derivative [2*x] vanishes. *)
Definition sample_newton : Call (A := binary64) :=
  NewtonRaphson "x**2 - 4" 0%float 1e-6%float 100.

(** [g(x) = 2*x] from [x0 = 1]. *)
Definition sample_doubling : Call (A := binary64) :=
  FixedPoint "2*x" 1%float 1e-6%float 100.

(** [g(x) = x] from [x0 = 2e10]: a fixed point beyond the divergence
    threshold. *)
Definition sample_far_fixed_point : Call (A := binary64) :=
  FixedPoint "x" 2e10%float 1e-6%float 100.

(** The loop of [sample_doubling] after 33 passes. *)
Definition doubling_after_33 :=
  Eval vm_compute in
    run_passes
      (CLI.fixed_point_body (A := binary64)
         (MiniSympy.eval (MiniSympy.Mul (MiniSympy.Integer 2)
                            (MiniSympy.Symbol "x")))
         1e-6%float)
      33 1 (1%float, None) (fresh solver0).

Definition doubling_store : Store (A := binary64) :=
  match doubling_after_33 with
  | Some (_, _, st) => st
  | None => solver0
  end.

(** [x - 10**308] on [[9e307, 1.7e308]]: the sum of the endpoints
    overflows. *)
Definition sample_overflow : Call (A := binary64) :=
  Bisection "x - 10**308" 9e307%float 1.7e308%float 1e-6%float 3.

(** [x - (1 + 2**-52)] on [[1, 4.2]]: the root is the float next to the left
    endpoint. *)
Definition sample_rounding : Call (A := binary64) :=
  RegulaFalsi "x - 4503599627370497/4503599627370496" 1%float 4.2%float
    1e-6%float 100.

(** A text that ends in an operator. *)
Definition sample_dangling : Call (A := binary64) :=
  Bisection "x**2 -" 0%float 3%float 1e-6%float 100.

(** The dict of the sample run. *)
Definition sample_bisection_dict : dict (A := binary64) :=
  Eval vm_compute in
    match fst (cli_invoke (S := MiniSympy.mini) sample_bisection solver0) with
    | Ok d => d
    | Raise _ => []
    end.

Arguments push : simpl never.
Arguments fresh : simpl never.
Arguments deref : simpl never.
Arguments trace : simpl never.

(** ** Further notions: the shape of traces and outcomes *)

(** [max_iter] of an invocation. *)
Definition max_iter_of {A : Arith} (c : Call) : Z :=
  match c with
  | Bisection _ _ _ _ n | RegulaFalsi _ _ _ _ n | Secant _ _ _ _ n
  | NewtonRaphson _ _ _ n | FixedPoint _ _ _ n | ModifiedSecant _ _ _ _ n => n
  end.

(** The value of the [method] key of a method's dicts. *)
Definition method_name {A : Arith} (c : Call) : string :=
  match c with
  | Bisection _ _ _ _ _ => "Bisection Method"
  | RegulaFalsi _ _ _ _ _ => "Regula Falsi Method"
  | Secant _ _ _ _ _ => "Secant Method"
  | NewtonRaphson _ _ _ _ => "Newton-Raphson Method"
  | FixedPoint _ _ _ _ => "Fixed Point Iteration"
  | ModifiedSecant _ _ _ _ _ => "Modified Secant Method"
  end.

(** The keys of a method's iteration records, in order. *)
Definition record_keys {A : Arith} (c : Call) : list string :=
  match c with
  | Bisection _ _ _ _ _ | RegulaFalsi _ _ _ _ _ =>
      ["iteration"; "a"; "b"; "c"; "f(c)"; "error"]
  | Secant _ _ _ _ _ => ["iteration"; "x0"; "x1"; "x2"; "f(x2)"; "error"]
  | NewtonRaphson _ _ _ _ =>
      ["iteration"; "x"; "f(x)"; "f'(x)"; "x_new"; "error"]
  | FixedPoint _ _ _ _ => ["iteration"; "x"; "g(x)"; "error"]
  | ModifiedSecant _ _ _ _ _ =>
      ["iteration"; "x"; "f(x)"; "f(x+δx)"; "x_new"; "error"]
  end.

(** The tolerance of an invocation. *)
Definition tol_of {A : Arith} (c : Call) : num :=
  match c with
  | Bisection _ _ _ t _ | RegulaFalsi _ _ _ t _ | Secant _ _ _ t _
  | NewtonRaphson _ _ t _ | FixedPoint _ _ t _ | ModifiedSecant _ _ _ t _ => t
  end.

(** For the methods whose records hold what the convergence test reads: the
    key of the tested function value, if one is tested.  Newton-Raphson and
    Modified Secant test [func(x_new)], which no record holds. *)
Definition tested_key {A : Arith} (c : Call) : option (option string) :=
  match c with
  | Bisection _ _ _ _ _ | RegulaFalsi _ _ _ _ _ => Some (Some "f(c)")
  | Secant _ _ _ _ _ => Some (Some "f(x2)")
  | FixedPoint _ _ _ _ => Some None
  | NewtonRaphson _ _ _ _ | ModifiedSecant _ _ _ _ _ => None
  end.



(** The local variable the [return] after the loop reads first among those
    that only a pass of the loop binds. *)
Definition unbound_variable {A : Arith} (c : Call) : string :=
  match c with
  | Bisection _ _ _ _ _ | RegulaFalsi _ _ _ _ _ => "c"
  | Secant _ _ _ _ _ => "x2"
  | NewtonRaphson _ _ _ _ | FixedPoint _ _ _ _ | ModifiedSecant _ _ _ _ _ =>
      "error"
  end.

Section Shapes.
Context {A : Arith}.

(** The records of a trace are numbered 1, 2, 3, ... *)
Definition numbered (l : list dict) : Prop :=
  forall k rec, nth_error l k = Some rec ->
    lookup "iteration" rec = Some (VInt (Z.of_nat k + 1)).

(** What holds of the trace whenever a method stops. *)
Definition trace_shape (keys : list string) (max_iter : Z) (st : Store)
  : Prop :=
  numbered (trace st) /\
  (List.length (trace st) <= Z.to_nat max_iter)%nat /\
  forall rec, In rec (trace st) -> map fst rec = keys.

(** Before pass [i], with [n] passes left. *)
Definition trace_ok (keys : list string) (max_iter : Z) (n : nat) (i : Z)
    (st : Store) : Prop :=
  valid st /\
  Z.of_nat (List.length (trace st)) = (i - 1)%Z /\
  (i - 1 + Z.of_nat n)%Z = Z.of_nat (Z.to_nat max_iter) /\
  numbered (trace st) /\
  forall rec, In rec (trace st) -> map fst rec = keys.

(** The dicts a method returns: a failure with its message alone, or a root
    with its five keys, and the warning after them when the passes ran
    out. *)
Definition success_dict (name : string) (r e : num) (i : Z) (l : loc)
  : dict :=
  [("root", VNum r); ("iterations", VInt i); ("final_error", VNum e);
   ("iteration_data", VList l); ("method", VStr name)].

Definition outcome_shape (name : string) (d : dict) : Prop :=
  (exists msg, d = [("error", VStr msg)]) \/
  (exists r e i l,
     d = success_dict name r e i l \/
     d = (success_dict name r e i l
          ++ [("warning", VStr "Maximum iterations reached")])%list).

Definition shaped (name : string) (r : result dict * Store) : Prop :=
  forall d, fst r = Ok d -> outcome_shape name d.

(** The convergence test of a pass, read from the record of the pass:
    [abs(f) < tol or error < tol] where the record holds the function value
    under [fkey], [error < tol] where no function value is tested. *)
Definition meets_tolerance (fkey : option string) (tol : num) (rec : dict)
  : bool :=
  match lookup "error" rec with
  | Some (VNum e) =>
      match fkey with
      | Some k =>
          match lookup k rec with
          | Some (VNum f) => flt (fabs f) tol || flt e tol
          | _ => false
          end
      | None => flt e tol
      end
  | _ => false
  end.

(** No record so far met the tolerance; a pass has run if the loop
    variables say so. *)
Definition hit_inv (fkey : option string) (tol : num)
    (est : option (num * num)) (st : Store) : Prop :=
  valid st /\
  (forall r, In r (trace st) -> meets_tolerance fkey tol r = false) /\
  (est <> None -> trace st <> []).

(** The last record of the returned trace is the first to meet the
    tolerance, or none does and the dict carries the warning. *)
Definition first_hit (fkey : option string) (tol : num)
    (r : result dict * Store) : Prop :=
  forall d, fst r = Ok d -> has_key "error" d = false ->
    exists l recs rec,
      lookup "iteration_data" d = Some (VList l) /\
      deref (snd r) l = (recs ++ [rec])%list /\
      (forall r', In r' recs -> meets_tolerance fkey tol r' = false) /\
      meets_tolerance fkey tol rec = negb (has_key "warning" d).

(** The exception comes out of a call of the function. *)
Definition raised_by (f : num -> result num) (e : exn) : Prop :=
  exists x, f x = Raise e.




(** A function that returns on every float. *)
Definition total (f : num -> result num) : Prop :=
  forall x, exists y, f x = Ok y.
End Shapes.

(** ** Further concrete runs *)

(** The secant method on [x - 4] with no pass allowed. *)
Definition sample_no_pass : Call (A := binary64) :=
  Secant "x - 4" 0%float 1%float 1e-6%float 0.

(** ** The trace as a history *)

Section History.
Context {A : Arith}.

Definition has_num (k : string) (rec : dict) (x : num) : Prop :=
  lookup k rec = Some (VNum x).

(** The first record satisfies [head] and every record is linked to the
    next. *)
Definition chained (head : dict -> Prop) (link : dict -> dict -> Prop)
    (l : list dict) : Prop :=
  (forall r, nth_error l 0 = Some r -> head r) /\
  (forall k r1 r2, nth_error l k = Some r1 ->
     nth_error l (Datatypes.S k) = Some r2 -> link r1 r2).

(** The trace is chained and the record of the next pass, which [fits] the
    loop variables, continues it. *)
Definition chain_inv {V} (head : dict -> Prop) (link : dict -> dict -> Prop)
    (fits : V -> dict -> Prop) (v : V) (st : Store) : Prop :=
  valid st /\ chained head link (trace st) /\
  forall rec, fits v rec ->
    (trace st = [] -> head rec) /\
    (forall l r, trace st = (l ++ [r])%list -> link r rec).

(** The record of a pass holds the loop variables the pass began with. *)
Definition bracket_fits (v : CLI.bracket_vars) (rec : dict) : Prop :=
  let '(a, b, _, _, _) := v in has_num "a" rec a /\ has_num "b" rec b.
Definition falsi_fits (v : CLI.falsi_vars) (rec : dict) : Prop :=
  let '(a, b, _, _, _, _) := v in has_num "a" rec a /\ has_num "b" rec b.
Definition secant_fits (v : CLI.secant_vars) (rec : dict) : Prop :=
  let '(x0, x1, _, _, _) := v in has_num "x0" rec x0 /\ has_num "x1" rec x1.
Definition point_fits (v : CLI.point_vars) (rec : dict) : Prop :=
  has_num "x" rec (fst v).

(** The bracket of the next record is the left or the right half of this
    one, split at [c]. *)
Definition bracket_link (r1 r2 : dict) : Prop :=
  exists a b c, has_num "a" r1 a /\ has_num "b" r1 b /\ has_num "c" r1 c /\
    ((has_num "a" r2 a /\ has_num "b" r2 c) \/
     (has_num "a" r2 c /\ has_num "b" r2 b)).

(** The next record of Secant starts from the last two points of this one. *)
Definition secant_link (r1 r2 : dict) : Prop :=
  exists x1 x2, has_num "x1" r1 x1 /\ has_num "x2" r1 x2 /\
    has_num "x0" r2 x1 /\ has_num "x1" r2 x2.

(** The next record starts from the new point of this one, held under
    [key]. *)
Definition point_link (key : string) (r1 r2 : dict) : Prop :=
  exists x, has_num key r1 x /\ has_num "x" r2 x.

(** The first record of an invocation holds its arguments. *)
Definition starts_at (c : Call) (rec : dict) : Prop :=
  match c with
  | Bisection _ a b _ _ | RegulaFalsi _ a b _ _ =>
      has_num "a" rec a /\ has_num "b" rec b
  | Secant _ x0 x1 _ _ => has_num "x0" rec x0 /\ has_num "x1" rec x1
  | NewtonRaphson _ x0 _ _ | FixedPoint _ x0 _ _
  | ModifiedSecant _ x0 _ _ _ => has_num "x" rec x0
  end.

(** How a record of an invocation continues the one before. *)
Definition continues (c : Call) : dict -> dict -> Prop :=
  match c with
  | Bisection _ _ _ _ _ | RegulaFalsi _ _ _ _ _ => bracket_link
  | Secant _ _ _ _ _ => secant_link
  | FixedPoint _ _ _ _ => point_link "g(x)"
  | NewtonRaphson _ _ _ _ | ModifiedSecant _ _ _ _ _ => point_link "x_new"
  end.
End History.

(** In exact arithmetic, before pass [k + 1] of Bisection: the bracket has
    been halved [k] times, [left] passes are left of [fuel0], and pass [n]
    is still ahead. *)
Definition halving_inv (a b : R) (n fuel0 left : nat) (i : Z)
    (v : CLI.bracket_vars (A := exact)) : Prop :=
  let '(a', b', _, _, _) := v in
  exists k : nat,
    i = (Z.of_nat k + 1)%Z /\ (k + left = fuel0)%nat /\ (k < n)%nat /\
    (Rabs (b' - a') * 2 ^ k = Rabs (b - a))%R.

(** The method returns a root, without a warning, from one of its first [n]
    passes. *)
Definition converged_by (n : nat)
    (r : result (dict (A := exact)) * Store (A := exact)) : Prop :=
  exists (d : dict (A := exact)) (k : Z),
    fst r = Ok d /\ has_key "warning" d = false /\
    has_key "error" d = false /\
    lookup "iterations" d = Some (VInt (A := exact) k) /\
    (1 <= k <= Z.of_nat n)%Z.

(** Regula Falsi in exact arithmetic: the function values at the endpoints
    do not have the same sign, the right one is not zero, and the left one
    is the value of the function. *)
Definition sign_inv (func : R -> result R)
    (v : CLI.falsi_vars (A := exact)) : Prop :=
  let '(a', _, fa, fb, _, _) := v in
  (fa * fb <= 0)%R /\ fb <> 0%R /\ func a' = Ok fa.

(** A [ZeroDivisionError] out of a run is one the function raised. *)
Definition division_by_function (func : R -> result R)
    (r : result (dict (A := exact)) * Store (A := exact)) : Prop :=
  forall m, fst r = Raise (ZeroDivisionError m) ->
    raised_by (A := exact) func (ZeroDivisionError m).

(** ** [ZOF_CLI.py]: [display_results] *)

From Stdlib Require DecimalString.

(** What [display_results] needs of Python beyond [format]: [str(l)] of a
    list object, [repr(k)] of a key, which is the text of a [KeyError], and
    [float(n)], which an [int] goes through under a float format. *)
Class Text {A : Arith} : Type := {
  str_list : Store -> loc -> string;
  repr_str : string -> string;
  float_of_int : Z -> result num
}.

Module Display.
Section Display.
Context {A : Arith} {B : Builtins} {T : Text}.

(** The lines printed so far, one per call of [print], and how the code
    ended. *)
Definition Out (X : Type) : Type := (list string * result X)%type.

Definition print (s : string) : Out unit := ([s], Ok tt).
Definition done {X} (x : X) : Out X := ([], Ok x).
Definition throw {X} (e : exn) : Out X := ([], Raise e).
Definition attempt {X} (r : result X) : Out X := ([], r).
Definition seq {X Y} (m : Out X) (k : X -> Out Y) : Out Y :=
  match m with
  | (out, Ok x) => let '(out', r) := k x in ((out ++ out')%list, r)
  | (out, Raise e) => (out, Raise e)
  end.

(** The text of [\n]. *)
Definition newline : string := String (ascii_of_nat 10) EmptyString.

(** [s * n] *)
Fixpoint str_mul (s : string) (n : nat) : string :=
  match n with
  | O => ""
  | Datatypes.S n' => String.append s (str_mul s n')
  end.

(** [len(s)]: Python counts code points; the strings here hold the bytes
    of the UTF-8 text, so the continuation bytes [10xxxxxx] are not
    counted. *)
Definition continuation (c : ascii) : bool :=
  let n := nat_of_ascii c in (128 <=? n)%nat && (n <? 192)%nat.

Fixpoint len (s : string) : nat :=
  match s with
  | EmptyString => O
  | String c s' => ((if continuation c then 0 else 1) + len s')%nat
  end.

(** [f"{s:>12}"] *)
Definition rjust (width : nat) (s : string) : string :=
  String.append (str_mul " " (width - len s)) s.

(** [sep.join(l)] *)
Fixpoint join (sep : string) (l : list string) : string :=
  match l with
  | [] => ""
  | [s] => s
  | s :: l' => String.append s (String.append sep (join sep l'))
  end.

(** [str(n)] for an [int] *)
Definition str_int (z : Z) : string :=
  DecimalString.NilZero.string_of_int (Z.to_int z).

(** [str(v)], which is also [f"{v}"] *)
Definition str (st : Store) (v : value) : string :=
  match v with
  | VInt z => str_int z
  | VNum x => format x ""
  | VStr s => s
  | VList l => str_list st l
  end.

(** [bool(v)] *)
Definition truthy (st : Store) (v : value) : bool :=
  match v with
  | VInt z => negb (z =? 0)%Z
  | VNum x => fne x zero
  | VStr s => negb (String.eqb s "")
  | VList l => match deref st l with [] => false | _ :: _ => true end
  end.

(** [f"{v:.10f}"] and [f"{v:.6e}"]: [code] is the presentation type of
    [spec]. *)
Definition format_float (code spec : string) (v : value) : result string :=
  match v with
  | VNum x => Ok (format x spec)
  | VInt z =>
      match float_of_int z with
      | Ok x => Ok (format x spec)
      | Raise e => Raise e
      end
  | VStr _ =>
      Raise (ValueError
               (String.append "Unknown format code '"
                  (String.append code "' for object of type 'str'")))
  | VList _ =>
      Raise (OtherException "TypeError"
               "unsupported format string passed to list.__format__")
  end.

(** [result[key]] *)
Definition getitem (key : string) (d : dict) : result value :=
  match lookup key d with
  | Some v => Ok v
  | None => Raise (OtherException "KeyError" (repr_str key))
  end.

(** One cell of a row (lines 370-376). *)
Definition cell (st : Store) (data : dict) (key : string) : result string :=
  match getitem key data with
  | Raise e => Raise e
  | Ok (VInt z) => Ok (rjust 12 (str_int z))
  | Ok (VNum x) => Ok (format x ">12.6e")
  | Ok v => Ok (rjust 12 (str st v))
  end.

(** The cells of a row, left to right, up to the first that raises. *)
Fixpoint cells (st : Store) (data : dict) (headers : list string)
  : result (list string) :=
  match headers with
  | [] => Ok []
  | key :: headers' =>
      match cell st data key with
      | Raise e => Raise e
      | Ok s =>
          match cells st data headers' with
          | Raise e => Raise e
          | Ok l => Ok (s :: l)
          end
      end
  end.

(** The loop over the records (lines 367-377). *)
Fixpoint rows (st : Store) (headers : list string) (l : list dict)
  : Out unit :=
  match l with
  | [] => done tt
  | data :: l' =>
      seq (attempt (cells st data headers)) (fun values =>
      seq (print (join " | " values)) (fun _ =>
      rows st headers l'))
  end.

(** The table (lines 358-377), printed when [result.get('iteration_data')]
    is true. *)
Definition table (st : Store) (result : dict) : Out unit :=
  match lookup "iteration_data" result with
  | None => done tt
  | Some v =>
      if truthy st v then
        match v with
        | VList l =>
            match deref st l with
            | [] => done tt
            | first_iter :: _ =>
                let headers := map fst first_iter in
                seq (print (join " | " (map (rjust 12) headers))) (fun _ =>
                seq (print (str_mul "-" 70)) (fun _ =>
                rows st headers (deref st l)))
            end
        | VStr _ =>
            throw (OtherException "AttributeError"
                    "'str' object has no attribute 'keys'")
        | VInt _ =>
            throw (OtherException "TypeError"
                    "'int' object is not subscriptable")
        | VNum _ =>
            throw (OtherException "TypeError"
                    "'float' object is not subscriptable")
        end
      else done tt
  end.

(** [display_results] ([ZOF_CLI.py], lines 344-388), on a dict read in store
    [st]. *)
Definition display_results (st : Store) (result : dict) : Out unit :=
  seq (print (String.append newline (str_mul "=" 70))) (fun _ =>
  seq (print (String.append "Method: "
                (match lookup "method" result with
                 | Some v => str st v
                 | None => "Unknown"
                 end))) (fun _ =>
  seq (print (str_mul "=" 70)) (fun _ =>
  if has_key "error" result then
    seq (attempt (getitem "error" result)) (fun e =>
    print (String.append newline (String.append "Error: " (str st e))))
  else
    seq (print (String.append newline "Iteration Details:")) (fun _ =>
    seq (print (str_mul "-" 70)) (fun _ =>
    seq (table st result) (fun _ =>
    seq (print (str_mul "-" 70)) (fun _ =>
    seq (attempt (getitem "root" result)) (fun root =>
    seq (attempt (format_float "f" ".10f" root)) (fun s =>
    seq (print (String.append newline
                  (String.append "Final Root: " s))) (fun _ =>
    seq (attempt (getitem "final_error" result)) (fun final_error =>
    seq (attempt (format_float "e" ".6e" final_error)) (fun s =>
    seq (print (String.append "Final Error: " s)) (fun _ =>
    seq (attempt (getitem "iterations" result)) (fun iterations =>
    seq (print (String.append "Iterations: " (str st iterations))) (fun _ =>
    seq (if has_key "warning" result then
           seq (attempt (getitem "warning" result)) (fun w =>
           print (String.append newline
                    (String.append "Warning: " (str st w))))
         else done tt) (fun _ =>
    print (String.append (str_mul "=" 70) newline))))))))))))))))).
End Display.
End Display.

Section Displayed.
Context {A : Arith}.

(** What [display_results] relies on in a dict a method returns and the
    store it is read in: a failure, or a root whose [iteration_data] is the
    solver's list, every record of which has the keys of the method. *)
Definition ready (name : string) (keys : list string)
    (r : result dict * Store) : Prop :=
  forall d, fst r = Ok d ->
    (exists msg, d = [("error", VStr msg)]) \/
    ((exists x e i,
        d = success_dict name x e i (self_iteration_data (snd r)) \/
        d = (success_dict name x e i (self_iteration_data (snd r))
             ++ [("warning", VStr "Maximum iterations reached")])%list) /\
     forall rec, In rec (trace (snd r)) -> map fst rec = keys).

Definition keyed (keys : list string) (st : Store) : Prop :=
  valid st /\ forall rec, In rec (trace st) -> map fst rec = keys.
End Displayed.


(** [x - 4] on [[5, 6]]: the same sign at both endpoints. *)
Definition sample_same_sign : Call (A := binary64) :=
  Bisection "x - 4" 5%float 6%float 1e-6%float 10.

(** Stand-ins for the builtins in the sample runs; the statements hold for
    every [Builtins] and [Text]. *)
Definition sample_builtins : Builtins (A := binary64) :=
  {| round := fun x _ => x; format := fun _ spec => spec |}.
Definition sample_text : Text (A := binary64) :=
  {| str_list := fun _ _ => "[...]";
     repr_str := fun k => String.append "'" (String.append k "'");
     float_of_int := MiniSympy.int_to_float |}.

(** ** Zeros of a continuous function, in exact arithmetic *)

(** [f] has a zero in [[lo, hi]]. *)
Definition has_zero (f : R -> R) (lo hi : R) : Prop :=
  exists z : R, (lo <= z <= hi)%R /\ f z = 0%R.

(** The bracket of a record holds a zero of [f]. *)
Definition record_has_zero (f : R -> R) (rec : dict (A := exact)) : Prop :=
  exists ai bi : R,
    lookup "a" rec = Some (VNum (A := exact) ai) /\
    lookup "b" rec = Some (VNum (A := exact) bi) /\
    has_zero f ai bi.

(** The estimate [c] is within [e] of a zero of [f]. *)
Definition within_of_zero (f : R -> R) (c e : R) : Prop :=
  exists z : R, f z = 0%R /\ (Rabs (c - z) <= e)%R.

(** Bisection, before a pass: the endpoints are in order, the function
    values are those of [f] and do not have the same sign, the left one is
    not zero, and the last estimate is within its error of a zero. *)
Definition zero_inv (f : R -> R) (v : CLI.bracket_vars (A := exact))
    (st : Store (A := exact)) : Prop :=
  let '(a', b', fa, fb, last) := v in
  valid st /\
  (forall rec : dict (A := exact),
     In rec (trace st) -> record_has_zero f rec) /\
  (a' <= b')%R /\ fa = f a' /\ fb = f b' /\ (fa * fb <= 0)%R /\ fa <> 0%R /\
  match last with
  | Some (c, e) => within_of_zero f c e
  | None => True
  end.

(** Regula Falsi, before a pass: as for Bisection, with the right value not
    zero. *)
Definition falsi_zero_inv (f : R -> R) (v : CLI.falsi_vars (A := exact))
    (st : Store (A := exact)) : Prop :=
  let '(a', b', fa, fb, _, _) := v in
  valid st /\
  (forall rec : dict (A := exact),
     In rec (trace st) -> record_has_zero f rec) /\
  (a' <= b')%R /\ fa = f a' /\ fb = f b' /\ (fa * fb <= 0)%R /\ fb <> 0%R.

(** Every recorded bracket holds a zero of [f]. *)
Definition brackets_zero (f : R -> R)
    (r : result (dict (A := exact)) * Store (A := exact)) : Prop :=
  forall rec : dict (A := exact),
    In rec (trace (snd r)) -> record_has_zero f rec.

(** Every recorded bracket holds a zero of [f], and a returned root is
    within the returned error of a zero. *)
Definition near_zero (f : R -> R)
    (r : result (dict (A := exact)) * Store (A := exact)) : Prop :=
  brackets_zero f r /\
  forall d : dict (A := exact), fst r = Ok d -> has_key "error" d = false ->
    exists root e : R,
      lookup "root" d = Some (VNum (A := exact) root) /\
      lookup "final_error" d = Some (VNum (A := exact) e) /\
      within_of_zero f root e.

(** Fixed Point Iteration on a contraction [g] with factor [q], before pass
    [k + 1]: the step at the current point is at most [q ^ k] times the
    first step, and pass [n] is still ahead. *)
Definition contraction_inv (g : R -> R) (q x0 : R) (n fuel0 left : nat)
    (i : Z) (v : CLI.point_vars (A := exact)) : Prop :=
  let '(x, _) := v in
  exists k : nat,
    i = (Z.of_nat k + 1)%Z /\ (k + left = fuel0)%nat /\ (k < n)%nat /\
    (Rabs (g x - x) <= q ^ k * Rabs (g x0 - x0))%R.

(** The constant [1], given directly, in exact arithmetic. *)
Definition constant_sympy : Sympy (A := exact) :=
  sympy_of (A := exact) (fun _ : R => Ok 1%R) (fun _ : R => Ok 0%R).

(** ** [ZOF_CLI.py]: [main] *)

(** What [main] needs of Python beyond the solver and the display:
    [s.strip()], [s.lower()], [float(s)] and [int(s)] of a line of input,
    the literals [1e-6] and [0.01], and whether the class of an exception
    that is given by name derives from [ValueError]. *)
Class Console {A : Arith} : Type := {
  strip : string -> string;
  lower : string -> string;
  float_of_str : string -> result num;
  int_of_str : string -> result Z;
  lit_1e_6 : num;
  lit_0_01 : num;
  derives_value_error : string -> bool
}.

Module Main.
Section Main.
Context {A : Arith} {S : Sympy} {B : Builtins} {T : Text} {K : Console}.

(** What the terminal shows: a line written by [print], or the prompt of
    an [input]. *)
Inductive event : Type :=
| Printed (line : string)
| Asked (prompt : string).

(** The solver object of the running [main], the lines still to be typed,
    and what the terminal has shown. *)
Record World : Type := {
  solver : Store;
  stdin : list string;
  stdout : list event
}.

Definition IO (X : Type) : Type := World -> result X * World.

Definition io_ret {X} (x : X) : IO X := fun w => (Ok x, w).
Definition io_raise {X} (e : exn) : IO X := fun w => (Raise e, w).
Definition io_lift {X} (r : result X) : IO X := fun w => (r, w).
Definition io_bind {X Y} (m : IO X) (k : X -> IO Y) : IO Y :=
  fun w => match m w with
           | (Ok x, w') => k x w'
           | (Raise e, w') => (Raise e, w')
           end.

Notation "x <~ m ;; k" := (io_bind m (fun x => k))
  (at level 61, m at next level, right associativity).
Notation "m ;;~ k" := (io_bind m (fun _ => k))
  (at level 61, right associativity).

(** [print(s)] *)
Definition print (s : string) : IO unit :=
  fun w => (Ok tt, {| solver := solver w; stdin := stdin w;
                      stdout := (stdout w ++ [Printed s])%list |}).

(** [input(prompt)]: the next line, or [EOFError] at the end of the input. *)
Definition eof_error : exn :=
  OtherException "EOFError" "EOF when reading a line".

Definition input (prompt : string) : IO string :=
  fun w =>
    let shown := (stdout w ++ [Asked prompt])%list in
    match stdin w with
    | [] => (Raise eof_error,
             {| solver := solver w; stdin := []; stdout := shown |})
    | line :: rest =>
        (Ok line, {| solver := solver w; stdin := rest; stdout := shown |})
    end.

(** [solver = ZOFSolver()] *)
Definition new_solver : IO unit :=
  fun w => (Ok tt, {| solver := init (solver w); stdin := stdin w;
                      stdout := stdout w |}).

(** A call of a method of [solver]. *)
Definition call {X} (m : M X) : IO X :=
  fun w => let '(r, st) := m (solver w) in
           (r, {| solver := st; stdin := stdin w; stdout := stdout w |}).

(** [display_results(result)] *)
Definition display (result : dict) : IO unit :=
  fun w => let '(lines, r) := Display.display_results (solver w) result in
           (r, {| solver := solver w; stdin := stdin w;
                  stdout := (stdout w ++ map Printed lines)%list |}).

(** [try: body / except ...: handler] *)
Definition catch (body : IO unit) (handler : exn -> IO unit) : IO unit :=
  fun w => match body w with
           | (Ok x, w') => (Ok x, w')
           | (Raise e, w') => handler e w'
           end.

Definition methods : list (string * string) :=
  [("1", "Bisection Method"); ("2", "Regula Falsi Method");
   ("3", "Secant Method"); ("4", "Newton-Raphson Method");
   ("5", "Fixed Point Iteration"); ("6", "Modified Secant Method")].

(** [methods[choice]], if [choice in methods] *)
Fixpoint method_of (choice : string) (l : list (string * string))
  : option string :=
  match l with
  | [] => None
  | (key, method) :: l' =>
      if String.eqb choice key then Some method else method_of choice l'
  end.

Fixpoint print_all (l : list string) : IO unit :=
  match l with
  | [] => io_ret tt
  | s :: l' => print s ;;~ print_all l'
  end.

(** [float(input(prompt))] *)
Definition read_float (prompt : string) : IO num :=
  s <~ input prompt ;; io_lift (float_of_str s).

(** [float(input(prompt) or default)] *)
Definition read_float_or (prompt : string) (default : num) : IO num :=
  s <~ input prompt ;;
  if String.eqb s "" then io_ret default else io_lift (float_of_str s).

(** [int(input(prompt) or default)] *)
Definition read_int_or (prompt : string) (default : Z) : IO Z :=
  s <~ input prompt ;;
  if String.eqb s "" then io_ret default else io_lift (int_of_str s).

Definition read_tol : IO num :=
  read_float_or "Enter tolerance (default 1e-6): " lit_1e_6.
Definition read_max_iter : IO Z :=
  read_int_or "Enter max iterations (default 100): " 100.

(** The branches of the [try] block (lines 423-465): the inputs of the
    chosen method, then its call.  With no branch taken, [result] is
    unbound when [display_results(result)] reads it. *)
Definition run_choice (choice func_str : string) : IO dict :=
  if String.eqb choice "1" then
    a <~ read_float "Enter left endpoint (a): " ;;
    b <~ read_float "Enter right endpoint (b): " ;;
    tol <~ read_tol ;;
    max_iter <~ read_max_iter ;;
    call (CLI.bisection_method func_str a b tol max_iter)
  else if String.eqb choice "2" then
    a <~ read_float "Enter left endpoint (a): " ;;
    b <~ read_float "Enter right endpoint (b): " ;;
    tol <~ read_tol ;;
    max_iter <~ read_max_iter ;;
    call (CLI.regula_falsi_method func_str a b tol max_iter)
  else if String.eqb choice "3" then
    x0 <~ read_float "Enter first initial guess (x0): " ;;
    x1 <~ read_float "Enter second initial guess (x1): " ;;
    tol <~ read_tol ;;
    max_iter <~ read_max_iter ;;
    call (CLI.secant_method func_str x0 x1 tol max_iter)
  else if String.eqb choice "4" then
    x0 <~ read_float "Enter initial guess (x0): " ;;
    tol <~ read_tol ;;
    max_iter <~ read_max_iter ;;
    call (CLI.newton_raphson_method func_str x0 tol max_iter)
  else if String.eqb choice "5" then
    print (String.append Display.newline
             "Note: Enter function in form g(x) where x = g(x)") ;;~
    print "Example: For x^2 - 4 = 0, use sqrt(4) or (x+4/x)/2" ;;~
    s <~ input "Enter function g(x): " ;;
    let func_str := strip s in
    x0 <~ read_float "Enter initial guess (x0): " ;;
    tol <~ read_tol ;;
    max_iter <~ read_max_iter ;;
    call (CLI.fixed_point_iteration func_str x0 tol max_iter)
  else if String.eqb choice "6" then
    x0 <~ read_float "Enter initial guess (x0): " ;;
    delta <~ read_float_or "Enter perturbation δ (default 0.01): "
               lit_0_01 ;;
    tol <~ read_tol ;;
    max_iter <~ read_max_iter ;;
    call (CLI.modified_secant_method func_str x0 delta tol max_iter)
  else io_raise (UnboundLocalError "result").

(** The [try] block: the chosen method, then the display of its result. *)
Definition attempt (choice func_str : string) : IO unit :=
  result <~ run_choice choice func_str ;;
  display result.

(** [isinstance(e, ValueError)]; sympy's [SympifyError] derives from
    [ValueError]. *)
Definition is_value_error (e : exn) : bool :=
  match e with
  | ValueError _ | SympifyError _ => true
  | OtherException cls _ => derives_value_error cls
  | _ => false
  end.

(** The two [except] clauses (lines 467-470). *)
Definition report (e : exn) : IO unit :=
  if is_value_error e then
    print (String.append Display.newline
             (String.append "Error: " (str_exn e)))
  else
    print (String.append Display.newline
             (String.append "Unexpected error: " (str_exn e))).

(** One round of [main] (lines 391-476), up to the question whether to go
    on: [true] when the answer is [y], and [main()] is called again. *)
Definition round : IO bool :=
  new_solver ;;~
  print (String.append Display.newline (Display.str_mul "=" 70)) ;;~
  print (String.append (Display.str_mul " " 15)
           "ZERO OF FUNCTIONS (ZOF) SOLVER") ;;~
  print (Display.str_mul "=" 70) ;;~
  print (String.append Display.newline "Available Methods:") ;;~
  print_all (map (fun km => String.append "  "
                    (String.append (fst km)
                       (String.append ". " (snd km)))) methods) ;;~
  s <~ input (String.append Display.newline "Select method (1-6): ") ;;
  let choice := strip s in
  match method_of choice methods with
  | None => print "Invalid choice!" ;;~ io_ret false
  | Some method =>
      print (String.append Display.newline
               (String.append "You selected: " method)) ;;~
      print (String.append Display.newline
               "Note: Enter functions using Python syntax") ;;~
      print "Examples: x**2 - 4, sin(x) - x/2, exp(x) - 3*x" ;;~
      s <~ input (String.append Display.newline "Enter function f(x): ") ;;
      let func_str := strip s in
      catch (attempt choice func_str) report ;;~
      s <~ input (String.append Display.newline
                    "Would you like to solve another equation? (y/n): ") ;;
      let again := lower (strip s) in
      io_ret (String.eqb again "y")
  end.

End Main.
End Main.


Section MainNotions.
Context {A : Arith} {K : Console}.

(** Reading an argument failed with [e]: the input ended, or a line that
    was typed did not convert. *)
Definition reading_failed (w : Main.World) (e : exn) : Prop :=
  e = Main.eof_error \/
  exists s, In s (Main.stdin w) /\
            (float_of_str s = Raise e \/ int_of_str s = Raise e).

(** The choices whose method runs on the text asked for first. *)
Definition first_text_choices : list string := ["1"; "2"; "3"; "4"; "6"].
End MainNotions.

(** A stand-in for the console in the sample runs: lines are taken as
    typed, and every number typed reads as 1. *)
Definition sample_console : Console (A := binary64) :=
  {| strip := fun s => s;
     lower := fun s => s;
     float_of_str := fun _ => Ok 1%float;
     int_of_str := fun _ => Ok 1%Z;
     lit_1e_6 := 1e-6%float;
     lit_0_01 := 0.01%float;
     derives_value_error := fun _ => false |}.

(** ** [app.py]: [solve] *)

Section Json.
Context {A : Arith}.

#[local] Set Warnings "-register-all".

(** A JSON value as Python reads it: [null] is [None], a number without
    fraction or exponent is an [int], any other a [float]. *)
Inductive json : Type :=
| JNull
| JBool (b : bool)
| JInt (z : Z)
| JNum (x : num)
| JStr (s : string)
| JArray (l : list json)
| JObject (fields : list (string * json)).

(** [type(v).__name__] *)
Definition type_name (v : json) : string :=
  match v with
  | JNull => "NoneType"
  | JBool _ => "bool"
  | JInt _ => "int"
  | JNum _ => "float"
  | JStr _ => "str"
  | JArray _ => "list"
  | JObject _ => "dict"
  end.

(** The value of a key of an object; of a key that is written twice the
    last value counts. *)
Fixpoint field (key : string) (fields : list (string * json))
  : option json :=
  match fields with
  | [] => None
  | (k, v) :: rest =>
      match field key rest with
      | Some v' => Some v'
      | None => if String.eqb key k then Some v else None
      end
  end.

(** [data.get(key, default)]; [data.get(key)] has the default [None]. *)
Definition get (data : json) (key : string) (default : json) : result json :=
  match data with
  | JObject fields =>
      Ok (match field key fields with
          | Some v => v
          | None => default
          end)
  | _ =>
      Raise (OtherException "AttributeError"
               (String.append "'"
                  (String.append (type_name data)
                     "' object has no attribute 'get'")))
  end.

(** [v == s] for a string literal [s] *)
Definition is_str (v : json) (s : string) : bool :=
  match v with
  | JStr s' => String.eqb s' s
  | _ => false
  end.
End Json.

(** What [solve] needs of Python and sympy beyond the solver: [int(x)] of a
    float, and [sympify(v)] of a value that is not a string. *)
Class Flask {A : Arith} {S : Sympy} : Type := {
  int_of_float : num -> result Z;
  sympify_json : json -> result Expr
}.

Module Server.
Section Server.
Context {A : Arith} {S : Sympy} {B : Builtins} {T : Text} {K : Console}
  {F : Flask}.

(** [float(v)] *)
Definition py_float (v : json) : result num :=
  match v with
  | JNum x => Ok x
  | JInt z => float_of_int z
  | JBool b => float_of_int (if b then 1 else 0)
  | JStr s => float_of_str s
  | _ =>
      Raise (OtherException "TypeError"
               (String.append
                  "float() argument must be a string or a real number, not '"
                  (String.append (type_name v) "'")))
  end.

(** [int(v)] *)
Definition py_int (v : json) : result Z :=
  match v with
  | JInt z => Ok z
  | JBool b => Ok (if b then 1 else 0)%Z
  | JNum x => int_of_float x
  | JStr s => int_of_str s
  | _ =>
      Raise (OtherException "TypeError"
               (String.append "int() argument must be a string, "
                  (String.append "a bytes-like object or a real number, not '"
                     (String.append (type_name v) "'"))))
  end.

(** [float(data.get(key))] and [float(data.get(key, default))] *)
Definition get_float (data : json) (key : string) (default : json)
  : result num :=
  match get data key default with
  | Ok v => py_float v
  | Raise e => Raise e
  end.

Definition get_int (data : json) (key : string) (default : json)
  : result Z :=
  match get data key default with
  | Ok v => py_int v
  | Raise e => Raise e
  end.

(** The sympy a method sees when [func_str] is the value [v]: on a string
    it sympifies the text, on any other value it sympifies [v]. *)
Definition sympy_at (v : json) : Sympy :=
  {| Expr := Expr;
     sympify := fun s => match v with
                         | JStr _ => sympify s
                         | _ => sympify_json v
                         end;
     lambdify := lambdify;
     diff := diff |}.

Definition text_of (v : json) : string :=
  match v with
  | JStr s => s
  | _ => ""
  end.

(** A method of the shared [solver], called with [func_str = v]. *)
Definition call (v : json) (c : string -> Call) : M dict :=
  web_invoke (S := sympy_at v) (c (text_of v)).

(** The [try] block of [solve] ([app.py], lines 342-379), up to the dict
    that is handed to [jsonify]. *)
Definition answer (data : json) : M dict :=
  method <- lift (get data "method" JNull) ;;
  func_str <- lift (get data "function" JNull) ;;
  tol <- lift (get_float data "tolerance" (JNum lit_1e_6)) ;;
  max_iter <- lift (get_int data "max_iterations" (JInt 100)) ;;
  if is_str method "bisection" then
    a <- lift (get_float data "a" JNull) ;;
    b <- lift (get_float data "b" JNull) ;;
    call func_str (fun f => Bisection f a b tol max_iter)
  else if is_str method "regula_falsi" then
    a <- lift (get_float data "a" JNull) ;;
    b <- lift (get_float data "b" JNull) ;;
    call func_str (fun f => RegulaFalsi f a b tol max_iter)
  else if is_str method "secant" then
    x0 <- lift (get_float data "x0" JNull) ;;
    x1 <- lift (get_float data "x1" JNull) ;;
    call func_str (fun f => Secant f x0 x1 tol max_iter)
  else if is_str method "newton_raphson" then
    x0 <- lift (get_float data "x0" JNull) ;;
    call func_str (fun f => NewtonRaphson f x0 tol max_iter)
  else if is_str method "fixed_point" then
    x0 <- lift (get_float data "x0" JNull) ;;
    call func_str (fun f => FixedPoint f x0 tol max_iter)
  else if is_str method "modified_secant" then
    x0 <- lift (get_float data "x0" JNull) ;;
    delta <- lift (get_float data "delta" (JNum lit_0_01)) ;;
    call func_str (fun f => ModifiedSecant f x0 delta tol max_iter)
  else
    ret [("error", VStr "Invalid method selected")].

(** [solve] ([app.py], lines 338-384): [request] is what [request.json]
    gives, or the exception it raises; the answer is the object that
    [jsonify] writes, the dict with its lists read at that moment.  The
    order in which [jsonify] writes the keys is not part of the model. *)
Definition solve (request : result json) (st : Store)
  : list (string * svalue) * Store :=
  match (data <- lift request ;; answer data) st with
  | (Ok result, st') => (snapshot st' result, st')
  | (Raise e, st') => ([("error", SStr (str_exn e))], st')
  end.
End Server.
End Server.

Section ServerNotions.
Context {A : Arith} {S : Sympy} {T : Text} {K : Console} {F : Flask}.

(** The names [solve] dispatches on. *)
Definition method_names : list string :=
  ["bisection"; "regula_falsi"; "secant"; "newton_raphson"; "fixed_point";
   "modified_secant"].

(** A conversion of a field of the request raised [e]. *)
Definition conversion_failed (data : json) (e : exn) : Prop :=
  exists key default,
    Server.get_float data key default = Raise e \/
    Server.get_int data key default = Raise e.

(** What [solve] answers: an object with the key [error] alone, or the
    five keys of a root, with the error as text, and the warning after them
    when the passes ran out. *)
Definition root_object (name : string) (root : num) (n : Z) (err : string)
    (recs : list dict) : list (string * svalue) :=
  [("root", SNum root); ("iterations", SInt n); ("final_error", SStr err);
   ("iteration_data", SRecords recs); ("method", SStr name)].

Definition response_shape (o : list (string * svalue)) : Prop :=
  (exists msg, o = [("error", SStr msg)]) \/
  (exists name root n err recs,
     o = root_object name root n err recs \/
     o = (root_object name root n err recs
          ++ [("warning", SStr "Maximum iterations reached")])%list).
End ServerNotions.

(** Stand-ins for the sample runs. *)
Definition sample_flask : Flask (A := binary64) (S := MiniSympy.mini) :=
  {| int_of_float := fun _ => Ok 1%Z;
     sympify_json := fun _ => Raise (SympifyError "not a text") |}.

Section LateTest.
Context {A : Arith}.

(** Newton-Raphson and Modified Secant test the function at the new point,
    after the record is written: on record [rec] the test
    [abs(func(x_new)) < tol or error < tol] gives [b]. *)
Definition tested_at (func : num -> result num) (tol : num) (b : bool)
    (rec : dict) : Prop :=
  exists xn e v,
    has_num "x_new" rec xn /\ has_num "error" rec e /\ func xn = Ok v /\
    flt (fabs v) tol || flt e tol = b.

Definition late_inv (func : num -> result num) (tol : num)
    (v : CLI.point_vars) (st : Store) : Prop :=
  valid st /\
  (forall r, In r (trace st) -> tested_at func tol false r) /\
  (snd v <> None -> trace st <> []).

Definition first_late_hit (func : num -> result num) (tol : num)
    (r : result dict * Store) : Prop :=
  forall d, fst r = Ok d -> has_key "error" d = false ->
    exists l recs rec,
      lookup "iteration_data" d = Some (VList l) /\
      deref (snd r) l = (recs ++ [rec])%list /\
      (forall r', In r' recs -> tested_at func tol false r') /\
      tested_at func tol (negb (has_key "warning" d)) rec.

(** The methods that test after the record is written. *)
Definition tests_late (c : Call) : bool :=
  match c with
  | NewtonRaphson _ _ _ _ | ModifiedSecant _ _ _ _ _ => true
  | _ => false
  end.
End LateTest.

(** Newton-Raphson on [x**2 - 4] from [x0 = 3]. *)
Definition sample_newton_from_3 : Call (A := binary64) :=
  NewtonRaphson "x**2 - 4" 3%float 1e-6%float 100.

Section FalsiStep.
Context {A : Arith}.

(** The error Regula Falsi records: the width of the bracket on the first
    pass, the distance from the last false position on the others. *)
Definition step_head (a b : num) (rec : dict) : Prop :=
  has_num "error" rec (fabs (fsub b a)).

Definition step_link (r1 r2 : dict) : Prop :=
  exists c1 c2,
    has_num "c" r1 c1 /\ has_num "c" r2 c2 /\
    has_num "error" r2 (fabs (fsub c2 c1)).

(** Before pass [i]: the trace so far is chained, it is empty exactly on
    the first pass, where the bracket is the one the method was called
    with, and [c_old] is the false position of its last record. *)
Definition step_inv (a b : num) (i : Z) (v : CLI.falsi_vars) (st : Store)
  : Prop :=
  let '(a', b', _, _, c_old, _) := v in
  valid st /\ (1 <= i)%Z /\
  chained (step_head a b) step_link (trace st) /\
  (trace st = [] -> i = 1%Z /\ a' = a /\ b' = b) /\
  (forall l r, trace st = (l ++ [r])%list ->
     (1 < i)%Z /\ has_num "c" r c_old).
End FalsiStep.

(** * Properties *)

(** ** The small sympy instance on a few texts *)

Example sympify_square :
  MiniSympy.parse "x**2 - 4"
  = Ok (MiniSympy.Sub (MiniSympy.Pow (MiniSympy.Symbol "x") 2) (MiniSympy.Integer 4)).
Proof. reflexivity. Qed.

Example derive_square :
  MiniSympy.derive (MiniSympy.Sub (MiniSympy.Pow (MiniSympy.Symbol "x") 2)
                      (MiniSympy.Integer 4))
  = MiniSympy.Mul (MiniSympy.Integer 2) (MiniSympy.Symbol "x").
Proof. reflexivity. Qed.

Example sympify_dangling :
  MiniSympy.parse "x**2 -" = Raise (SympifyError "could not parse x**2 -").
Proof. reflexivity. Qed.

(** ** The store *)

Section StoreFacts.
Context {A : Arith}.

Lemma update_length {T} (l : list T) n f :
  List.length (update l n f) = List.length l.
Proof.
  revert n; induction l as [|x l IH]; intros [|n]; simpl; auto.
Qed.

Lemma nth_update_same {T} (l : list T) n f d :
  (n < List.length l)%nat -> nth n (update l n f) d = f (nth n l d).
Proof.
  revert n; induction l as [|x l IH]; intros [|n] H; simpl in *; try lia; auto.
  apply IH; lia.
Qed.

Lemma nth_update_other {T} (l : list T) n m f d :
  n <> m -> nth m (update l n f) d = nth m l d.
Proof.
  revert n m; induction l as [|x l IH]; intros [|n] [|m] H; simpl; auto.
  congruence.
Qed.

Lemma push_self rec st :
  self_iteration_data (push rec st) = self_iteration_data st.
Proof. reflexivity. Qed.

Lemma push_length rec st :
  List.length (lists (push rec st)) = List.length (lists st).
Proof. apply update_length. Qed.

Lemma push_valid rec st : valid st -> valid (push rec st).
Proof. unfold valid; rewrite push_self, push_length; auto. Qed.

Lemma push_trace rec st :
  valid st -> trace (push rec st) = (trace st ++ [rec])%list.
Proof.
  intros H; unfold trace, deref; rewrite push_self.
  unfold push; simpl. now rewrite nth_update_same.
Qed.

Lemma push_other rec st l :
  l <> self_iteration_data st -> deref (push rec st) l = deref st l.
Proof.
  intros H; unfold deref, push; simpl.
  apply nth_update_other; congruence.
Qed.

Lemma fresh_valid st : valid (fresh st).
Proof. unfold valid; simpl. rewrite length_app; simpl; lia. Qed.

Lemma fresh_trace st : trace (fresh st) = [].
Proof.
  unfold trace, deref; simpl.
  rewrite app_nth2 by lia. now rewrite Nat.sub_diag.
Qed.

Lemma fresh_other st l :
  (l < List.length (lists st))%nat -> deref (fresh st) l = deref st l.
Proof. intros H; unfold deref; simpl. now apply app_nth1. Qed.

Lemma fresh_length st :
  List.length (lists (fresh st)) = S (List.length (lists st)).
Proof. simpl. rewrite length_app; simpl; lia. Qed.
End StoreFacts.

(** ** Loops *)

Section Loops.
Context {A : Arith}.

(** An invariant of the loop variables and the store, indexed by the passes
    left, gives a property of every way the loop ends. *)
Lemma for_range_rule {V} (body : Z -> V -> M (dict + V)) (after : V -> M dict)
    (I : nat -> Z -> V -> Store -> Prop) (Q : result dict * Store -> Prop) :
  (forall n i v st, I (S n) i v st ->
     match body i v st with
     | (Ok (inl d), st') => Q (Ok d, st')
     | (Ok (inr v'), st') => I n (i + 1)%Z v' st'
     | (Raise e, st') => Q (Raise e, st')
     end) ->
  (forall i v st, I O i v st -> Q (after v st)) ->
  forall fuel i v st, I fuel i v st -> Q (for_range body after fuel i v st).
Proof.
  intros Hbody Hafter; induction fuel as [|n IH]; intros i v st HI; simpl.
  - now apply (Hafter i).
  - unfold bind. specialize (Hbody _ _ _ _ HI).
    destruct (body i v st) as [[[d|v']|e] st']; auto.
Qed.

(** Two loops run side by side. *)
Lemma for_range_rel {V} (Rs : Store -> Store -> Prop)
    (Qo : result dict * Store -> result dict * Store -> Prop)
    (body1 body2 : Z -> V -> M (dict + V)) (after1 after2 : V -> M dict) :
  pass_rel Rs Qo body1 body2 -> after_rel Rs Qo after1 after2 ->
  forall fuel i v st1 st2, Rs st1 st2 ->
    Qo (for_range body1 after1 fuel i v st1) (for_range body2 after2 fuel i v st2).
Proof.
  intros Hbody Hafter; induction fuel as [|n IH]; intros i v st1 st2 HR; simpl.
  - now apply Hafter.
  - unfold bind. specialize (Hbody i v _ _ HR).
    destruct (body1 i v st1) as [[[d1|w1]|e1] s1];
      destruct (body2 i v st2) as [[[d2|w2]|e2] s2]; try contradiction; auto.
    destruct Hbody as [<- HR']. now apply IH.
Qed.

Lemma for_range_reaches {V} (body : Z -> V -> M (dict + V)) after
    k i v st j w s :
  reaches body k i v st j w s ->
  forall n, for_range body after (k + n) i v st = for_range body after n j w s.
Proof.
  induction 1 as [|k i v st v' st' j w s Hb _ IH]; intros n; simpl; auto.
  unfold bind; rewrite Hb. apply IH.
Qed.
End Loops.

Ltac run_monad :=
  unfold bind, lift, ret, raise, get_iteration_data, append_iteration_data,
    reset_iteration_data; simpl.

Ltac split_match :=
  match goal with
  | |- context [match ?x with _ => _ end] =>
      lazymatch x with
      | context [match _ with _ => _ end] => fail
      | _ => destruct x eqn:?
      end
  end.

Lemma run_passes_reaches {A : Arith} {V} (body : Z -> V -> M (dict + V))
    k i v st j w s :
  run_passes body k i v st = Some (j, w, s) -> reaches body k i v st j w s.
Proof.
  revert i v st; induction k as [|k IH]; intros i v st; simpl.
  - intros [= -> -> ->]. constructor.
  - destruct (body i v st) as [[[d|v']|e] st'] eqn:Hb; try discriminate.
    intros H. econstructor; eauto.
Qed.

Lemma reaches_index {A : Arith} {V} (body : Z -> V -> M (dict + V))
    k i v st j w s :
  reaches body k i v st j w s -> j = (i + Z.of_nat k)%Z.
Proof. induction 1; lia. Qed.

(** A pass that returns ends the loop with what it returns, however many
    passes are left. *)
Lemma for_range_returns {A : Arith} {V} (body : Z -> V -> M (dict + V)) after
    k fuel i0 v0 st0 i v st d st' :
  reaches body k i0 v0 st0 i v st -> (k < fuel)%nat ->
  body i v st = (Ok (inl d), st') ->
  for_range body after fuel i0 v0 st0 = (Ok d, st').
Proof.
  intros Hr Hk Hb.
  replace fuel with (k + S (fuel - S k))%nat by lia.
  rewrite (for_range_reaches _ Hr). simpl. unfold bind. now rewrite Hb.
Qed.

Create HintDb zof_bodies discriminated.
#[export] Hint Unfold
  CLI.bisection_body CLI.regula_falsi_body CLI.secant_body
  CLI.newton_raphson_body CLI.fixed_point_body CLI.modified_secant_body
  CLI.bisection_after CLI.regula_falsi_after CLI.secant_after
  CLI.newton_raphson_after CLI.fixed_point_after CLI.modified_secant_after
  Web.bisection_body Web.regula_falsi_body Web.secant_body
  Web.newton_raphson_body Web.fixed_point_body Web.modified_secant_body
  Web.bisection_after Web.regula_falsi_after Web.secant_after
  Web.newton_raphson_after Web.fixed_point_after Web.modified_secant_after
  : zof_bodies.

Create HintDb zof_methods discriminated.
Create HintDb zof_sim discriminated.
Create HintDb zof_same discriminated.
Create HintDb zof_frame discriminated.
#[export] Hint Unfold
  CLI.bisection_method CLI.regula_falsi_method CLI.secant_method
  CLI.newton_raphson_method CLI.fixed_point_iteration
  CLI.modified_secant_method
  Web.bisection_method Web.regula_falsi_method Web.secant_method
  Web.newton_raphson_method Web.fixed_point_iteration
  Web.modified_secant_method CLI.parse_function Web.parse_function
  : zof_methods.

(** Case analysis of one pass (or of the code after the loop). *)
Ltac open_body :=
  autounfold with zof_bodies; run_monad; repeat (split_match; simpl).

Ltac split_vars v :=
  repeat match type of v with
         | prod _ _ => let l := fresh "last" in destruct v as [v l]
         end.

(** ** The web copy and the command-line copy, side by side *)

Section WebSim.
Context {A : Arith} {S : Sympy} {B : Builtins}.

Lemma sim_push st1 st2 rec :
  sim_store st1 st2 -> sim_store (push rec st1) (push (web_record rec) st2).
Proof.
  intros (H1 & H2 & H); repeat split; auto using push_valid.
  rewrite !push_trace, map_app, H by assumption. reflexivity.
Qed.

Lemma sim_trace st1 st2 :
  sim_store st1 st2 ->
  deref st2 (self_iteration_data st2)
  = map web_record (deref st1 (self_iteration_data st1)).
Proof. intros (_ & _ & H); exact H. Qed.

Lemma sim_fresh st1 st2 : sim_store (fresh st1) (fresh st2).
Proof.
  repeat split; auto using fresh_valid. now rewrite !fresh_trace.
Qed.

Lemma sim_push_deref st1 st2 rec rec' :
  sim_store st1 st2 -> rec' = web_record rec ->
  deref (push rec' st2) (self_iteration_data st2)
  = map web_record (deref (push rec st1) (self_iteration_data st1)).
Proof. intros H ->. exact (sim_trace (sim_push rec H)). Qed.

Ltac close_sim H :=
  lazymatch goal with
  | |- _ = _ /\ sim_store _ _ =>
      split; [reflexivity | first [exact (sim_push _ H) | exact H]]
  | |- sim_out (_, ?s1) (_, ?s2) =>
      unfold sim_out, observe, snapshot; simpl;
      try lazymatch s2 with
          | push ?r2 ?st2 =>
              lazymatch s1 with
              | push ?r1 ?st1 => rewrite (@sim_push_deref st1 st2 r1 r2 H eq_refl)
              end
          | _ => rewrite (sim_trace H)
          end;
      reflexivity
  | |- _ => try contradiction; try discriminate
  end.

Ltac sim_pass :=
  let i := fresh "i" in let v := fresh "v" in
  let st1 := fresh "st1" in let st2 := fresh "st2" in let H := fresh "H" in
  first [intros i v st1 st2 H | intros v st1 st2 H];
  split_vars v; open_body; close_sim H.

Lemma bisection_pass_sim func tol :
  pass_rel sim_store sim_out
    (CLI.bisection_body func tol) (Web.bisection_body func tol).
Proof. sim_pass. Qed.

Lemma bisection_after_sim n :
  after_rel sim_store sim_out (CLI.bisection_after n) (Web.bisection_after n).
Proof. sim_pass. Qed.

Lemma regula_falsi_pass_sim func tol :
  pass_rel sim_store sim_out
    (CLI.regula_falsi_body func tol) (Web.regula_falsi_body func tol).
Proof. sim_pass. Qed.

Lemma regula_falsi_after_sim n :
  after_rel sim_store sim_out
    (CLI.regula_falsi_after n) (Web.regula_falsi_after n).
Proof. sim_pass. Qed.

Lemma secant_pass_sim func tol :
  pass_rel sim_store sim_out (CLI.secant_body func tol) (Web.secant_body func tol).
Proof. sim_pass. Qed.

Lemma secant_after_sim n :
  after_rel sim_store sim_out (CLI.secant_after n) (Web.secant_after n).
Proof. sim_pass. Qed.

Lemma newton_raphson_pass_sim func derivative tol :
  pass_rel sim_store sim_out
    (CLI.newton_raphson_body func derivative tol)
    (Web.newton_raphson_body func derivative tol).
Proof. sim_pass. Qed.

Lemma newton_raphson_after_sim n :
  after_rel sim_store sim_out
    (CLI.newton_raphson_after n) (Web.newton_raphson_after n).
Proof. sim_pass. Qed.

Lemma fixed_point_pass_sim func tol :
  pass_rel sim_store sim_out
    (CLI.fixed_point_body func tol) (Web.fixed_point_body func tol).
Proof. sim_pass. Qed.

Lemma fixed_point_after_sim n :
  after_rel sim_store sim_out
    (CLI.fixed_point_after n) (Web.fixed_point_after n).
Proof. sim_pass. Qed.

Lemma modified_secant_pass_sim func delta tol :
  pass_rel sim_store sim_out
    (CLI.modified_secant_body func delta tol)
    (Web.modified_secant_body func delta tol).
Proof. sim_pass. Qed.

Lemma modified_secant_after_sim n :
  after_rel sim_store sim_out
    (CLI.modified_secant_after n) (Web.modified_secant_after n).
Proof. sim_pass. Qed.

#[local] Hint Resolve bisection_pass_sim bisection_after_sim
  regula_falsi_pass_sim regula_falsi_after_sim secant_pass_sim
  secant_after_sim newton_raphson_pass_sim newton_raphson_after_sim
  fixed_point_pass_sim fixed_point_after_sim modified_secant_pass_sim
  modified_secant_after_sim sim_fresh : zof_sim.

(** Whatever the two solver objects went through before, the web copy
    returns the formatted outcome of the command-line copy. *)
Lemma invoke_sim (c : Call) (st1 st2 : Store) :
  sim_out (cli_invoke c st1) (web_invoke c st2).
Proof.
  destruct c; unfold cli_invoke, web_invoke; autounfold with zof_methods;
    run_monad;
    repeat (split_match; simpl); try reflexivity;
    apply for_range_rel with (Rs := sim_store); auto with zof_sim.
Qed.
End WebSim.

(** ** Two runs of the command-line copy *)

Section SameRun.
Context {A : Arith} {S : Sympy}.

Lemma same_push st1 st2 rec :
  same_store st1 st2 -> same_store (push rec st1) (push rec st2).
Proof.
  intros (H1 & H2 & H); repeat split; auto using push_valid.
  rewrite !push_trace, H by assumption. reflexivity.
Qed.

Lemma same_trace st1 st2 :
  same_store st1 st2 ->
  deref st2 (self_iteration_data st2) = deref st1 (self_iteration_data st1).
Proof. intros (_ & _ & H); exact H. Qed.

Lemma same_fresh st1 st2 : same_store (fresh st1) (fresh st2).
Proof.
  repeat split; auto using fresh_valid. now rewrite !fresh_trace.
Qed.

Lemma same_push_deref st1 st2 rec :
  same_store st1 st2 ->
  deref (push rec st2) (self_iteration_data st2)
  = deref (push rec st1) (self_iteration_data st1).
Proof. intros H. exact (same_trace (same_push rec H)). Qed.

Ltac close_same H :=
  lazymatch goal with
  | |- _ = _ /\ same_store _ _ =>
      split; [reflexivity | first [exact (same_push _ H) | exact H]]
  | |- same_out (_, ?s1) (_, ?s2) =>
      unfold same_out, observe, snapshot; simpl;
      try lazymatch s2 with
          | push ?r ?st2 =>
              lazymatch s1 with
              | push _ ?st1 => rewrite (@same_push_deref st1 st2 r H)
              end
          | _ => rewrite (same_trace H)
          end;
      reflexivity
  | |- _ => try contradiction; try discriminate
  end.

Ltac same_pass :=
  let i := fresh "i" in let v := fresh "v" in
  let st1 := fresh "st1" in let st2 := fresh "st2" in let H := fresh "H" in
  first [intros i v st1 st2 H | intros v st1 st2 H];
  split_vars v; open_body; close_same H.

Lemma bisection_pass_same func tol :
  pass_rel same_store same_out
    (CLI.bisection_body func tol) (CLI.bisection_body func tol).
Proof. same_pass. Qed.

Lemma bisection_after_same n :
  after_rel same_store same_out (CLI.bisection_after n) (CLI.bisection_after n).
Proof. same_pass. Qed.

Lemma regula_falsi_pass_same func tol :
  pass_rel same_store same_out
    (CLI.regula_falsi_body func tol) (CLI.regula_falsi_body func tol).
Proof. same_pass. Qed.

Lemma regula_falsi_after_same n :
  after_rel same_store same_out
    (CLI.regula_falsi_after n) (CLI.regula_falsi_after n).
Proof. same_pass. Qed.

Lemma secant_pass_same func tol :
  pass_rel same_store same_out (CLI.secant_body func tol) (CLI.secant_body func tol).
Proof. same_pass. Qed.

Lemma secant_after_same n :
  after_rel same_store same_out (CLI.secant_after n) (CLI.secant_after n).
Proof. same_pass. Qed.

Lemma newton_raphson_pass_same func derivative tol :
  pass_rel same_store same_out
    (CLI.newton_raphson_body func derivative tol)
    (CLI.newton_raphson_body func derivative tol).
Proof. same_pass. Qed.

Lemma newton_raphson_after_same n :
  after_rel same_store same_out
    (CLI.newton_raphson_after n) (CLI.newton_raphson_after n).
Proof. same_pass. Qed.

Lemma fixed_point_pass_same func tol :
  pass_rel same_store same_out
    (CLI.fixed_point_body func tol) (CLI.fixed_point_body func tol).
Proof. same_pass. Qed.

Lemma fixed_point_after_same n :
  after_rel same_store same_out
    (CLI.fixed_point_after n) (CLI.fixed_point_after n).
Proof. same_pass. Qed.

Lemma modified_secant_pass_same func delta tol :
  pass_rel same_store same_out
    (CLI.modified_secant_body func delta tol)
    (CLI.modified_secant_body func delta tol).
Proof. same_pass. Qed.

Lemma modified_secant_after_same n :
  after_rel same_store same_out
    (CLI.modified_secant_after n) (CLI.modified_secant_after n).
Proof. same_pass. Qed.

#[local] Hint Resolve bisection_pass_same bisection_after_same
  regula_falsi_pass_same regula_falsi_after_same secant_pass_same
  secant_after_same newton_raphson_pass_same newton_raphson_after_same
  fixed_point_pass_same fixed_point_after_same modified_secant_pass_same
  modified_secant_after_same same_fresh : zof_same.

(** The outcome of an invocation does not depend on the store it starts
    from. *)
Lemma cli_invoke_same (c : Call) (st1 st2 : Store) :
  observe (cli_invoke c st2) = observe (cli_invoke c st1).
Proof.
  change (same_out (cli_invoke c st1) (cli_invoke c st2)).
  destruct c; unfold cli_invoke; autounfold with zof_methods; run_monad;
    repeat (split_match; simpl); try reflexivity;
    apply for_range_rel with (Rs := same_store); auto with zof_same.
Qed.
End SameRun.

(** ** What an invocation leaves untouched *)

Section Frames.
Context {A : Arith} {S : Sympy} {B : Builtins}.

Lemma frame_push rec st : frame st (push rec st).
Proof.
  repeat split; [apply push_length | intros; now apply push_other].
Qed.

Lemma frame_trans st1 st2 st3 : frame st1 st2 -> frame st2 st3 -> frame st1 st3.
Proof.
  intros (Hs & Hl & Hd) (Hs' & Hl' & Hd'); repeat split; try congruence.
  intros l Hne. rewrite Hd' by congruence. now apply Hd.
Qed.

Ltac close_frame Hv :=
  repeat split;
  try first [ exact Hv | apply (push_valid _ Hv) | apply push_length
            | exact I ];
  try (intros; now apply push_other);
  try (unfold refs_only; simpl; intuition congruence).

Ltac frame_pass :=
  let st := fresh "st" in let Hv := fresh "Hv" in
  intros st Hv; unfold pass_refs; open_body; close_frame Hv.

Lemma for_range_frame {V} (body : Z -> V -> M (dict + V)) after :
  (forall i v, keeps_frame (body i v) pass_refs) ->
  (forall v, keeps_frame (after v) refs_only) ->
  forall fuel i v, keeps_frame (for_range body after fuel i v) refs_only.
Proof.
  intros Hb Ha; induction fuel as [|n IH]; intros i v st Hv; simpl.
  - now apply Ha.
  - unfold bind. destruct (Hb i v st Hv) as (Hv' & Hf & Hr).
    destruct (body i v st) as [[[d|v']|e] st']; simpl in *; auto.
    destruct (IH (i + 1)%Z v' st' Hv') as (Hv'' & Hf' & Hr').
    assert (Hs := proj1 Hf). rewrite Hs in Hr'.
    repeat split; auto; try apply (frame_trans Hf Hf').
Qed.

Lemma bisection_pass_frame func tol i v :
  keeps_frame (CLI.bisection_body func tol i v) pass_refs.
Proof. frame_pass. Qed.
Lemma bisection_after_frame n v :
  keeps_frame (CLI.bisection_after n v) refs_only.
Proof. frame_pass. Qed.
Lemma regula_falsi_pass_frame func tol i v :
  keeps_frame (CLI.regula_falsi_body func tol i v) pass_refs.
Proof. frame_pass. Qed.
Lemma regula_falsi_after_frame n v :
  keeps_frame (CLI.regula_falsi_after n v) refs_only.
Proof. frame_pass. Qed.
Lemma secant_pass_frame func tol i v :
  keeps_frame (CLI.secant_body func tol i v) pass_refs.
Proof. frame_pass. Qed.
Lemma secant_after_frame n v :
  keeps_frame (CLI.secant_after n v) refs_only.
Proof. frame_pass. Qed.
Lemma newton_raphson_pass_frame func derivative tol i v :
  keeps_frame (CLI.newton_raphson_body func derivative tol i v) pass_refs.
Proof. frame_pass. Qed.
Lemma newton_raphson_after_frame n v :
  keeps_frame (CLI.newton_raphson_after n v) refs_only.
Proof. frame_pass. Qed.
Lemma fixed_point_pass_frame func tol i v :
  keeps_frame (CLI.fixed_point_body func tol i v) pass_refs.
Proof. frame_pass. Qed.
Lemma fixed_point_after_frame n v :
  keeps_frame (CLI.fixed_point_after n v) refs_only.
Proof. frame_pass. Qed.
Lemma modified_secant_pass_frame func delta tol i v :
  keeps_frame (CLI.modified_secant_body func delta tol i v) pass_refs.
Proof. frame_pass. Qed.
Lemma modified_secant_after_frame n v :
  keeps_frame (CLI.modified_secant_after n v) refs_only.
Proof. frame_pass. Qed.

Lemma web_bisection_pass_frame func tol i v :
  keeps_frame (Web.bisection_body func tol i v) pass_refs.
Proof. frame_pass. Qed.
Lemma web_bisection_after_frame n v :
  keeps_frame (Web.bisection_after n v) refs_only.
Proof. frame_pass. Qed.
Lemma web_regula_falsi_pass_frame func tol i v :
  keeps_frame (Web.regula_falsi_body func tol i v) pass_refs.
Proof. frame_pass. Qed.
Lemma web_regula_falsi_after_frame n v :
  keeps_frame (Web.regula_falsi_after n v) refs_only.
Proof. frame_pass. Qed.
Lemma web_secant_pass_frame func tol i v :
  keeps_frame (Web.secant_body func tol i v) pass_refs.
Proof. frame_pass. Qed.
Lemma web_secant_after_frame n v :
  keeps_frame (Web.secant_after n v) refs_only.
Proof. frame_pass. Qed.
Lemma web_newton_raphson_pass_frame func derivative tol i v :
  keeps_frame (Web.newton_raphson_body func derivative tol i v) pass_refs.
Proof. frame_pass. Qed.
Lemma web_newton_raphson_after_frame n v :
  keeps_frame (Web.newton_raphson_after n v) refs_only.
Proof. frame_pass. Qed.
Lemma web_fixed_point_pass_frame func tol i v :
  keeps_frame (Web.fixed_point_body func tol i v) pass_refs.
Proof. frame_pass. Qed.
Lemma web_fixed_point_after_frame n v :
  keeps_frame (Web.fixed_point_after n v) refs_only.
Proof. frame_pass. Qed.
Lemma web_modified_secant_pass_frame func delta tol i v :
  keeps_frame (Web.modified_secant_body func delta tol i v) pass_refs.
Proof. frame_pass. Qed.
Lemma web_modified_secant_after_frame n v :
  keeps_frame (Web.modified_secant_after n v) refs_only.
Proof. frame_pass. Qed.

#[local] Hint Resolve bisection_pass_frame bisection_after_frame
  regula_falsi_pass_frame regula_falsi_after_frame secant_pass_frame
  secant_after_frame newton_raphson_pass_frame newton_raphson_after_frame
  fixed_point_pass_frame fixed_point_after_frame modified_secant_pass_frame
  modified_secant_after_frame
  web_bisection_pass_frame web_bisection_after_frame
  web_regula_falsi_pass_frame web_regula_falsi_after_frame
  web_secant_pass_frame web_secant_after_frame
  web_newton_raphson_pass_frame web_newton_raphson_after_frame
  web_fixed_point_pass_frame web_fixed_point_after_frame
  web_modified_secant_pass_frame web_modified_secant_after_frame : zof_frame.

(** After [self.iteration_data = []], code that keeps the frame leaves the
    older lists alone. *)
Lemma alone_after_reset (m : M dict) st :
  keeps_frame m refs_only ->
  (forall l, (l < List.length (lists st))%nat ->
             deref (snd (m (fresh st))) l = deref st l) /\
  (List.length (lists st) <= List.length (lists (snd (m (fresh st)))))%nat /\
  (forall d k l, fst (m (fresh st)) = Ok d -> In (k, VList l) d ->
                 (l < List.length (lists (snd (m (fresh st)))))%nat).
Proof.
  intros Hm. destruct (Hm (fresh st) (fresh_valid st)) as (Hv & (Hs & Hl & Hd) & Hr).
  rewrite Hl, fresh_length. repeat split; try lia.
  - intros l Hlt. rewrite Hd by (simpl; lia). now apply fresh_other.
  - intros d k l Hok Hin. rewrite Hok in Hr. rewrite (Hr k l Hin). simpl. lia.
Qed.

Lemma alone_raise e st :
  (forall l, (l < List.length (lists st))%nat -> deref st l = deref st l) /\
  (List.length (lists st) <= List.length (lists st))%nat /\
  (forall (d : dict) k l, @Raise dict e = Ok d -> In (k, VList l) d ->
                 (l < List.length (lists st))%nat).
Proof. repeat split; auto; discriminate. Qed.

Lemma alone_fresh (r : result dict) st :
  (forall d k l, r = Ok d -> ~ In (k, VList l) d) ->
  (forall l, (l < List.length (lists st))%nat ->
             deref (fresh st) l = deref st l) /\
  (List.length (lists st) <= List.length (lists (fresh st)))%nat /\
  (forall d k l, r = Ok d -> In (k, VList l) d ->
                 (l < List.length (lists (fresh st)))%nat).
Proof.
  intros Hr; repeat split.
  - intros; now apply fresh_other.
  - rewrite fresh_length; lia.
  - intros d k l Hok Hin. destruct (Hr d k l Hok Hin).
Qed.

Ltac close_alone :=
  first [ apply alone_raise
        | apply alone_fresh; intros ? ? ? [= <-]; simpl; intuition congruence
        | apply alone_fresh; discriminate
        | apply (alone_after_reset (m := for_range _ _ _ _ _));
          apply for_range_frame; auto with zof_frame ].

Lemma cli_invoke_alone (c : Call) : leaves_alone (cli_invoke c).
Proof.
  intros st; destruct c; unfold cli_invoke; autounfold with zof_methods;
    run_monad; repeat (split_match; simpl); close_alone.
Qed.

Lemma web_invoke_alone (c : Call) : leaves_alone (web_invoke c).
Proof.
  intros st; destruct c; unfold web_invoke; autounfold with zof_methods;
    run_monad; repeat (split_match; simpl); close_alone.
Qed.

Lemma snapshot_alone (st st' : Store) (d : dict) :
  (forall k l, In (k, VList l) d -> deref st' l = deref st l) ->
  snapshot st' d = snapshot st d.
Proof.
  intros H; unfold snapshot. apply map_ext_in. intros [k v] Hin; simpl.
  destruct v; simpl; auto. f_equal. f_equal. eauto.
Qed.
End Frames.

(** ** The trace and the reported outcome *)

Section Consistency.
Context {A : Arith}.
Variables show_est show_err : num -> value.

Lemma for_range_consistent {V} key max_iter (est : V -> option (num * num))
    (body : Z -> V -> M (dict + V)) (after : V -> M dict) :
  (forall n i v st, consistent show_est show_err key max_iter (Datatypes.S n) i (est v) st ->
     match body i v st with
     | (Ok (inl d), st') => consistent_run key (Ok d, st')
     | (Ok (inr v'), st') => consistent show_est show_err key max_iter n (i + 1) (est v') st'
     | (Raise e, st') => True
     end) ->
  (forall i v st, consistent show_est show_err key max_iter O i (est v) st ->
     consistent_run key (after v st)) ->
  forall fuel i v st, consistent show_est show_err key max_iter fuel i (est v) st ->
    consistent_run key (for_range body after fuel i v st).
Proof.
  intros Hb Ha. apply for_range_rule with
    (I := fun n i v st => consistent show_est show_err key max_iter n i (est v) st); auto.
  intros n i v st HI. specialize (Hb n i v st HI).
  destruct (body i v st) as [[[d|v']|e] st']; auto.
  intros d; discriminate.
Qed.

Lemma consistent_start key max_iter st :
  consistent show_est show_err key max_iter (Z.to_nat max_iter) 1 None (fresh st).
Proof.
  repeat split; auto using fresh_valid, fresh_trace; try lia.
  all: try now rewrite fresh_trace.
Qed.

Lemma consistent_push key max_iter n i est st rec c e :
  consistent show_est show_err key max_iter (Datatypes.S n) i est st ->
  lookup key rec = Some (show_est c) -> lookup "error" rec = Some (show_err e) ->
  consistent show_est show_err key max_iter n (i + 1) (Some (c, e)) (push rec st).
Proof.
  intros (Hv & Hn & Hi & _) Hk He; repeat split; auto using push_valid.
  - rewrite push_trace, length_app by assumption. simpl. lia.
  - lia.
  - exists (trace st), rec. rewrite push_trace by assumption. auto.
Qed.

Lemma consistent_return key max_iter n i est st rec c e d :
  consistent show_est show_err key max_iter (Datatypes.S n) i est st ->
  lookup key rec = Some (show_est c) -> lookup "error" rec = Some (show_err e) ->
  lookup "iteration_data" d = Some (VList (self_iteration_data st)) ->
  lookup "iterations" d = Some (VInt i) ->
  lookup "final_error" d = Some (show_err e) ->
  lookup "root" d = Some (show_est c) ->
  consistent_run key (Ok d, push rec st).
Proof.
  intros (Hv & Hn & Hi & _) Hk He Hd Hit Hfe Hr d' [= <-] _. simpl.
  exists (self_iteration_data st), (trace st), rec, (show_err e), (show_est c).
  change (deref (push rec st) (self_iteration_data st)) with (trace (push rec st)).
  rewrite push_trace by assumption. repeat split; auto.
  rewrite Hit, length_app. simpl. do 2 f_equal. lia.
Qed.

Lemma consistent_after key max_iter i st c e d :
  consistent show_est show_err key max_iter O i (Some (c, e)) st ->
  lookup "iteration_data" d = Some (VList (self_iteration_data st)) ->
  lookup "iterations" d = Some (VInt max_iter) ->
  lookup "final_error" d = Some (show_err e) ->
  lookup "root" d = Some (show_est c) ->
  consistent_run key (Ok d, st).
Proof.
  intros (Hv & Hn & Hi & recs & rec & Ht & Hk & He) Hd Hit Hfe Hr d' [= <-] _.
  simpl. exists (self_iteration_data st), recs, rec, (show_err e), (show_est c).
  change (deref st (self_iteration_data st)) with (trace st).
  repeat split; auto. rewrite Hit. do 2 f_equal.
  rewrite Ht, length_app in *. simpl in *. lia.
Qed.

Lemma consistent_failure key st msg :
  consistent_run key (Ok [("error", VStr msg)], st).
Proof. intros d' [= <-]; discriminate. Qed.

Lemma consistent_raise key e st : consistent_run key (@Raise dict e, st).
Proof. intros d; discriminate. Qed.

End Consistency.

Ltac close_consistent H :=
  lazymatch goal with
  | |- True => exact I
  | |- consistent_run _ (Raise _, _) => apply consistent_raise
  | |- consistent_run _ (Ok [("error", _)], _) => intros ? [= <-]; discriminate
  | |- consistent_run _ (Ok _, push _ _) =>
      eapply consistent_return; [exact H | reflexivity ..]
  | |- consistent_run _ (Ok _, _) =>
      eapply consistent_after; [exact H | reflexivity ..]
  | |- consistent _ _ _ _ _ _ _ (push _ _) =>
      eapply consistent_push; [exact H | reflexivity ..]
  end.

Ltac consistent_cases H :=
  unfold bracket_estimate, falsi_estimate, point_estimate in *;
  open_body; simpl in H; close_consistent H.

Ltac consistent_pass E :=
  intros;
  match goal with
  | H0 : consistent ?se ?sr _ ?m _ _ _ _ |- _ =>
      apply for_range_consistent
        with (show_est := se) (show_err := sr) (max_iter := m) (est := E);
      [ | | exact H0 ]
  end;
  [ let H := fresh "Hpass" in intros ? ? ? ? H; consistent_cases H
  | let H := fresh "Hpass" in intros ? ? ? H; consistent_cases H ].

Section CliConsistency.
Context {A : Arith} {S : Sympy}.

Lemma bisection_consistent func tol max_iter fuel i v st :
  consistent VNum VNum "c" max_iter fuel i (bracket_estimate v) st ->
  consistent_run "c"
    (for_range (CLI.bisection_body func tol) (CLI.bisection_after max_iter)
       fuel i v st).
Proof. consistent_pass (@bracket_estimate A). Qed.

Lemma regula_falsi_consistent func tol max_iter fuel i v st :
  consistent VNum VNum "c" max_iter fuel i (falsi_estimate v) st ->
  consistent_run "c"
    (for_range (CLI.regula_falsi_body func tol)
       (CLI.regula_falsi_after max_iter) fuel i v st).
Proof. consistent_pass (@falsi_estimate A). Qed.

Lemma secant_consistent func tol max_iter fuel i v st :
  consistent VNum VNum "x2" max_iter fuel i (bracket_estimate v) st ->
  consistent_run "x2"
    (for_range (CLI.secant_body func tol) (CLI.secant_after max_iter)
       fuel i v st).
Proof. consistent_pass (@bracket_estimate A). Qed.

Lemma newton_raphson_consistent func derivative tol max_iter fuel i v st :
  consistent VNum VNum "x_new" max_iter fuel i (point_estimate v) st ->
  consistent_run "x_new"
    (for_range (CLI.newton_raphson_body func derivative tol)
       (CLI.newton_raphson_after max_iter) fuel i v st).
Proof. consistent_pass (@point_estimate A). Qed.

Lemma fixed_point_consistent func tol max_iter fuel i v st :
  consistent VNum VNum "g(x)" max_iter fuel i (point_estimate v) st ->
  consistent_run "g(x)"
    (for_range (CLI.fixed_point_body func tol) (CLI.fixed_point_after max_iter)
       fuel i v st).
Proof. consistent_pass (@point_estimate A). Qed.

Lemma modified_secant_consistent func delta tol max_iter fuel i v st :
  consistent VNum VNum "x_new" max_iter fuel i (point_estimate v) st ->
  consistent_run "x_new"
    (for_range (CLI.modified_secant_body func delta tol)
       (CLI.modified_secant_after max_iter) fuel i v st).
Proof. consistent_pass (@point_estimate A). Qed.

Lemma cli_invoke_consistent (c : Call) (st : Store) :
  consistent_run (estimate_key c) (cli_invoke c st).
Proof.
  destruct c; unfold cli_invoke, estimate_key; autounfold with zof_methods;
    run_monad; repeat (split_match; simpl);
    try apply consistent_raise; try apply consistent_failure;
    first [ apply bisection_consistent | apply regula_falsi_consistent
          | apply secant_consistent | apply newton_raphson_consistent
          | apply fixed_point_consistent | apply modified_secant_consistent ];
    apply consistent_start.
Qed.
End CliConsistency.

Section WebConsistency.
Context {A : Arith} {S : Sympy} {B : Builtins}.

Lemma web_bisection_consistent func tol max_iter fuel i v st :
  consistent (fun c => VNum (round c 10))
    (fun e => VStr (format e ".6e")) "c" max_iter fuel i (bracket_estimate v) st ->
  consistent_run "c"
    (for_range (Web.bisection_body func tol) (Web.bisection_after max_iter)
       fuel i v st).
Proof. consistent_pass (@bracket_estimate A). Qed.

Lemma web_regula_falsi_consistent func tol max_iter fuel i v st :
  consistent (fun c => VNum (round c 10))
    (fun e => VStr (format e ".6e")) "c" max_iter fuel i (falsi_estimate v) st ->
  consistent_run "c"
    (for_range (Web.regula_falsi_body func tol)
       (Web.regula_falsi_after max_iter) fuel i v st).
Proof. consistent_pass (@falsi_estimate A). Qed.

Lemma web_secant_consistent func tol max_iter fuel i v st :
  consistent (fun c => VNum (round c 10))
    (fun e => VStr (format e ".6e")) "x2" max_iter fuel i (bracket_estimate v) st ->
  consistent_run "x2"
    (for_range (Web.secant_body func tol) (Web.secant_after max_iter)
       fuel i v st).
Proof. consistent_pass (@bracket_estimate A). Qed.

Lemma web_newton_raphson_consistent func derivative tol max_iter fuel i v st :
  consistent (fun c => VNum (round c 10))
    (fun e => VStr (format e ".6e")) "x_new" max_iter fuel i (point_estimate v) st ->
  consistent_run "x_new"
    (for_range (Web.newton_raphson_body func derivative tol)
       (Web.newton_raphson_after max_iter) fuel i v st).
Proof. consistent_pass (@point_estimate A). Qed.

Lemma web_fixed_point_consistent func tol max_iter fuel i v st :
  consistent (fun c => VNum (round c 10))
    (fun e => VStr (format e ".6e")) "g(x)" max_iter fuel i (point_estimate v) st ->
  consistent_run "g(x)"
    (for_range (Web.fixed_point_body func tol) (Web.fixed_point_after max_iter)
       fuel i v st).
Proof. consistent_pass (@point_estimate A). Qed.

Lemma web_modified_secant_consistent func delta tol max_iter fuel i v st :
  consistent (fun c => VNum (round c 10))
    (fun e => VStr (format e ".6e")) "x_new" max_iter fuel i (point_estimate v) st ->
  consistent_run "x_new"
    (for_range (Web.modified_secant_body func delta tol)
       (Web.modified_secant_after max_iter) fuel i v st).
Proof. consistent_pass (@point_estimate A). Qed.

Lemma web_invoke_consistent (c : Call) (st : Store) :
  consistent_run (estimate_key c) (web_invoke c st).
Proof.
  destruct c; unfold web_invoke, estimate_key; autounfold with zof_methods;
    run_monad; repeat (split_match; simpl);
    try apply consistent_raise; try apply consistent_failure;
    first [ apply web_bisection_consistent | apply web_regula_falsi_consistent
          | apply web_secant_consistent | apply web_newton_raphson_consistent
          | apply web_fixed_point_consistent | apply web_modified_secant_consistent ];
    apply consistent_start.
Qed.
End WebConsistency.

(** ** Zero in binary64 *)

Section Binary64Facts.

Lemma Prim2SF_zero : Prim2SF 0%float = S754_zero false.
Proof. reflexivity. Qed.

Lemma float_zero_cases (d : float) :
  PrimFloat.eqb d 0%float = true ->
  Prim2SF d = S754_zero false \/ Prim2SF d = S754_zero true.
Proof.
  rewrite FloatAxioms.eqb_spec, Prim2SF_zero.
  destruct (Prim2SF d) as [[|]|[|]| |[|] m e]; simpl; auto; discriminate.
Qed.

(** A zero passes every [abs(d) < 1e-12] guard. *)
Lemma zero_is_tiny (d : float) :
  feqb (Arith := binary64) d zero = true ->
  flt (fabs d) lit_1e_12 = true.
Proof.
  intros H; simpl in *. rewrite ltb_spec, abs_spec.
  destruct (float_zero_cases H) as [-> | ->]; vm_compute; reflexivity.
Qed.

(** A zero is not positive. *)
Lemma zero_not_positive (p : float) :
  feqb (Arith := binary64) p zero = true -> fgt p zero = false.
Proof.
  intros H; unfold fgt; simpl in *. rewrite ltb_spec, Prim2SF_zero.
  destruct (float_zero_cases H) as [-> | ->]; reflexivity.
Qed.

(** The product and the difference of two zeros are zeros. *)
Lemma zero_product (x y : float) :
  feqb (Arith := binary64) x zero = true -> feqb y zero = true ->
  feqb (fmul x y) zero = true.
Proof.
  intros Hx Hy; simpl in *. rewrite FloatAxioms.eqb_spec, mul_spec, Prim2SF_zero.
  destruct (float_zero_cases Hx) as [-> | ->];
    destruct (float_zero_cases Hy) as [-> | ->]; reflexivity.
Qed.

Lemma zero_difference (x y : float) :
  feqb (Arith := binary64) x zero = true -> feqb y zero = true ->
  feqb (fsub y x) zero = true.
Proof.
  intros Hx Hy; simpl in *. rewrite FloatAxioms.eqb_spec, sub_spec, Prim2SF_zero.
  destruct (float_zero_cases Hx) as [-> | ->];
    destruct (float_zero_cases Hy) as [-> | ->]; reflexivity.
Qed.
End Binary64Facts.

(** * The claims *)

(** ** C1: trace and outcome agree *)

(** C1. Whenever one of the six methods returns a dict without an [error]
    key (converged, or maximum iterations reached), the trace the dict
    refers to has exactly [iterations] records, and its last record holds
    [final_error] under [error] and [root] under the method's key for the new
    estimate ([c], [x2], [x_new] or [g(x)]). *)
Theorem trace_matches_outcome {A : Arith} {S : Sympy}
    (c : Call) (st : Store) (d : dict) :
  fst (cli_invoke c st) = Ok d ->
  has_key "error" d = false ->
  outcome_consistent (estimate_key c) (snd (cli_invoke c st)) d.
Proof.
  intros Hd Hk. apply (cli_invoke_consistent c st); auto.
  unfold has_key in Hk. destruct (lookup "error" d); congruence.
Qed.

Lemma trace_matches_outcome_witness :
  outcome_consistent "c"
    (snd (cli_invoke (S := MiniSympy.mini) sample_bisection solver0))
    sample_bisection_dict.
Proof.
  apply (trace_matches_outcome (S := MiniSympy.mini) sample_bisection solver0).
  - vm_compute. reflexivity.
  - reflexivity.
Defined.

(** The same holds for the web copy, whose records hold rounded floats and
    formatted errors. *)
Lemma web_trace_matches_outcome {A : Arith} {S : Sympy} {B : Builtins}
    (c : Call) (st : Store) (d : dict) :
  fst (web_invoke c st) = Ok d ->
  has_key "error" d = false ->
  outcome_consistent (estimate_key c) (snd (web_invoke c st)) d.
Proof.
  intros Hd Hk. apply (web_invoke_consistent c st); auto.
  unfold has_key in Hk. destruct (lookup "error" d); congruence.
Qed.

(** ** C2: a text that cannot be parsed *)

(** C2, as amended. When sympy rejects the function text, each of the six
    methods raises [ValueError] with the message
    [Error parsing function: ...] before it touches the solver object; no
    dict is returned. *)
Theorem parse_failure_is_raised {A : Arith} {S : Sympy}
    (c : Call) (st : Store) (e : exn) :
  sympify (func_str_of c) = Raise e ->
  cli_invoke c st
  = (Raise (ValueError (String.append "Error parsing function: " (str_exn e))),
     st).
Proof.
  intros He; destruct c; simpl in *;
    autounfold with zof_methods; run_monad; rewrite He; auto.
Qed.

Lemma parse_failure_is_raised_witness :
  cli_invoke (S := MiniSympy.mini) sample_dangling solver0
  = (Raise (ValueError "Error parsing function: could not parse x**2 -"),
     solver0).
Proof.
  apply (parse_failure_is_raised (S := MiniSympy.mini) sample_dangling solver0
           (e := SympifyError "could not parse x**2 -")).
  reflexivity.
Defined.

(** The web copy does the same. *)
Lemma web_parse_failure_is_raised {A : Arith} {S : Sympy} {B : Builtins}
    (c : Call) (st : Store) (e : exn) :
  sympify (func_str_of c) = Raise e ->
  web_invoke c st
  = (Raise (ValueError (String.append "Error parsing function: " (str_exn e))),
     st).
Proof.
  intros He; destruct c; simpl in *;
    autounfold with zof_methods; run_monad; rewrite He; auto.
Qed.

(** The claim as stated fails: on a text that ends in an operator the
    bisection method returns no dict at all. *)
Lemma parse_failure_not_returned :
  sympify (Sympy := MiniSympy.mini) (func_str_of sample_dangling)
    = Raise (SympifyError "could not parse x**2 -") /\
  ~ (exists d, fst (cli_invoke (S := MiniSympy.mini) sample_dangling solver0) = Ok d
               /\ has_key "error" d = true).
Proof.
  split; [reflexivity|]. intros (d & Hd & _). vm_compute in Hd. discriminate.
Qed.

(** ** C3: the bracket, in exact arithmetic and in binary64 *)

Section ExactBracket.
#[local] Existing Instance exact | 0.
Context {S : Sympy (A := exact)}.

Lemma Rltb_true x y : Rltb x y = true -> (x < y)%R.
Proof. unfold Rltb; destruct (Rlt_dec x y); auto; discriminate. Qed.

Lemma Rltb_false x y : Rltb x y = false -> (y <= x)%R.
Proof. unfold Rltb; destruct (Rlt_dec x y); [discriminate | lra]. Qed.

Lemma Reqb_false x y : Reqb x y = false -> x <> y.
Proof. unfold Reqb; destruct (Req_dec_T x y); [discriminate | auto]. Qed.

Lemma bracket_push a b st (ai bi ci fc e : R) i :
  valid st ->
  (forall rec, In rec (trace st) -> record_within a b rec) ->
  (a <= ai <= ci)%R -> (ci <= bi <= b)%R ->
  forall rec,
    In rec (trace (push (A := exact)
                     [("iteration", VInt i); ("a", VNum ai); ("b", VNum bi);
                      ("c", VNum ci); ("f(c)", VNum fc); ("error", VNum e)]
                     st)) ->
    record_within a b rec.
Proof.
  intros Hv Hrecs H1 H2 rec. rewrite push_trace by assumption.
  rewrite in_app_iff. intros [Hin | [<- | []]]; auto.
  exists ai, bi, ci; repeat split; auto; lra.
Qed.

Lemma within_raise a b e st :
  (forall rec, In rec (trace st) -> record_within a b rec) ->
  within_bracket a b (Raise e, st).
Proof. intros H; split; [exact H | discriminate]. Qed.

Lemma bisection_within func tol max_iter a b fuel i v st :
  (let '(a', b', _, _, last) := v in bracket_inv a b a' b' last st) ->
  within_bracket a b
    (for_range (CLI.bisection_body func tol) (CLI.bisection_after max_iter)
       fuel i v st).
Proof.
  apply for_range_rule with
    (I := fun (_ : nat) (_ : Z) (v : CLI.bracket_vars (A := exact))
              (st : Store (A := exact)) =>
            let '(a', b', _, _, last) := v in bracket_inv a b a' b' last st).
  - clear. intros _ i [[[[a' b'] fa] fb] last] st (Hv & Hrecs & Ha & Hb & _).
    unfold CLI.bisection_body. run_monad.
    destruct (func ((a' + b') / 2)%R) as [fc|e]; simpl;
      [| now apply within_raise].
    assert (Hc : (a' <= (a' + b') / 2 <= b')%R) by lra.
    assert (Hrecs' := fun rec =>
      @bracket_push a b st a' b' ((a' + b') / 2)%R fc
        (Rabs (b' - a') / 2)%R i Hv Hrecs
        ltac:(lra) ltac:(lra) rec).
    destruct (_ || _); simpl.
    + split; auto. intros d [= <-]. eexists; split; [reflexivity | lra].
    + destruct (Rltb (fa * fc) 0); simpl;
        repeat split; auto using push_valid; lra.
  - clear. intros i [[[[a' b'] fa] fb] [[c e]|]] st (Hv & Hrecs & Ha & Hb & Hl);
      simpl.
    + split; auto. intros d [= <-]. eexists; split; [reflexivity | lra].
    + now apply within_raise.
Qed.

(** The false position lies between the endpoints. *)
Lemma false_position_between (a' b' fa fb : R) :
  (a' <= b')%R -> (fa * fb <= 0)%R -> fb <> 0%R -> (fb - fa)%R <> 0%R ->
  (a' <= b' - fb * (b' - a') / (fb - fa) <= b')%R.
Proof.
  intros Hab Hs Hfb Hd.
  set (q := (fb * (b' - a') / (fb - fa))%R).
  assert (Hq : (q * (fb - fa) = fb * (b' - a'))%R) by (unfold q; field; auto).
  assert (Hq' : ((b' - a' - q) * (fb - fa) = - fa * (b' - a'))%R)
    by (unfold q; field; auto).
  destruct (Rtotal_order fb 0) as [Hneg | [H0 | Hpos]]; [| contradiction |].
  - assert (0 <= fa)%R by nra. assert (fb - fa < 0)%R by lra. split; nra.
  - assert (fa <= 0)%R by nra. assert (0 < fb - fa)%R by lra. split; nra.
Qed.

Lemma false_position_at_root (a' b' fb : R) :
  fb <> 0%R -> (b' - fb * (b' - a') / (fb - 0))%R = a'.
Proof. intros Hfb. field. auto. Qed.

Lemma regula_falsi_within func tol max_iter a b fuel i v st :
  falsi_inv func a b v st ->
  within_bracket a b
    (for_range (CLI.regula_falsi_body func tol)
       (CLI.regula_falsi_after max_iter) fuel i v st).
Proof.
  apply for_range_rule with
    (I := fun (_ : nat) (_ : Z) v st => falsi_inv func a b v st).
  - clear. intros _ i [[[[[a' b'] fa] fb] c_old] last] st
      ((Hv & Hrecs & Ha & Hb & _) & Hs & Hfb & Hfa).
    unfold CLI.regula_falsi_body, truediv. run_monad.
    destruct (Reqb (fb - fa) 0) eqn:Hd; simpl; [now apply within_raise|].
    apply Reqb_false in Hd.
    assert (Hc := @false_position_between a' b' fa fb
                    ltac:(lra) Hs Hfb Hd).
    set (c := (b' - fb * (b' - a') / (fb - fa))%R) in *.
    destruct (func c) as [fc|e] eqn:Hfc; simpl; [| now apply within_raise].
    set (err := if (1 <? i)%Z then Rabs (c - c_old) else Rabs (b' - a')).
    assert (Hrecs' := fun rec =>
      @bracket_push a b st a' b' c fc err i Hv Hrecs
        ltac:(lra) ltac:(lra) rec).
    destruct (_ || _); simpl.
    + split; auto. intros d [= <-]. eexists; split; [reflexivity | lra].
    + destruct (Rltb (fa * fc) 0) eqn:Hsign; simpl.
      * apply Rltb_true in Hsign.
        repeat split; auto using push_valid; try lra.
        intros ->. lra.
      * apply Rltb_false in Hsign.
        repeat split; auto using push_valid; try lra.
        destruct (Req_dec_T fa 0) as [Hz | Hnz].
        -- subst fa. unfold c in Hfc.
           rewrite false_position_at_root in Hfc by assumption.
           assert (fc = 0%R) by congruence. subst fc. lra.
        -- assert (0 < fa * fa)%R by nra.
           assert (0 <= fa * fc)%R by lra.
           assert ((fa * fa) * (fc * fb) <= 0)%R by nra.
           nra.
  - clear. intros i [[[[[a' b'] fa] fb] c_old] [[c e]|]] st
      ((Hv & Hrecs & Ha & Hb & Hl) & _); simpl.
    + split; auto. intros d [= <-]. eexists; split; [reflexivity | lra].
    + now apply within_raise.
Qed.
End ExactBracket.

(** C3, as amended. In exact arithmetic, for [a <= b] and
    [f(a) * f(b) < 0], every record that Bisection or Regula Falsi appends
    has its bracket and its new point within the original bracket,
    [a <= a_i <= c_i <= b_i <= b], and a returned root lies in [[a, b]]. *)
Theorem bracket_contains_iterates {S : Sympy (A := exact)}
    (func_str : string) (func : R -> result R) (expr : Expr)
    (a b tol : R) (max_iter : Z) (st : Store (A := exact)) (fa fb : R) :
  CLI.parse_function (A := exact) func_str = Ok (func, expr) ->
  func a = Ok fa -> func b = Ok fb ->
  (a <= b)%R -> (fa * fb < 0)%R ->
  within_bracket a b
    (CLI.bisection_method (A := exact) func_str a b tol max_iter st) /\
  within_bracket a b
    (CLI.regula_falsi_method (A := exact) func_str a b tol max_iter st).
Proof.
  intros Hp Ha Hb Hab Hs.
  assert (Hgt : fgt (A := exact) (fmul (Arith := exact) fa fb) zero = false).
  { unfold fgt; simpl. unfold Rltb. destruct (Rlt_dec 0 (fa * fb)); auto; lra. }
  assert (Hstart : bracket_inv a b a b None (fresh (A := exact) st)).
  { split; [apply fresh_valid | split]; [| repeat split; lra].
    intros rec. rewrite fresh_trace. intros []. }
  split.
  - unfold CLI.bisection_method, bind, lift, reset_iteration_data.
    rewrite Hp; cbn [fst snd]. rewrite Ha, Hb, Hgt.
    now apply bisection_within.
  - unfold CLI.regula_falsi_method, bind, lift, reset_iteration_data.
    rewrite Hp; cbn [fst snd]. rewrite Ha, Hb, Hgt.
    apply regula_falsi_within.
    split; [exact Hstart | split; [lra | split; [| exact Ha]]].
    intros Hz. rewrite Hz in Hs. lra.
Qed.

Lemma bracket_contains_iterates_witness :
  within_bracket 0 3
    (CLI.bisection_method (A := exact) (S := line_sympy) "x - 1" 0%R 3%R (/ 1000)%R 10
       solver0) /\
  within_bracket 0 3
    (CLI.regula_falsi_method (A := exact) (S := line_sympy) "x - 1" 0%R 3%R (/ 1000)%R 10
       solver0).
Proof.
  apply (@bracket_contains_iterates line_sympy "x - 1"
           (fun x : R => Ok (x - 1)%R) false 0%R 3%R (/ 1000)%R 10 solver0
           (0 - 1)%R (3 - 1)%R);
    try reflexivity; lra.
Defined.

(** The claim as stated fails in binary64.  By rounding: on [[1, 4.2]] with
    [f(x) = x - (1 + 2**-52)], a valid bracket, Regula Falsi converges on its
    first pass to [0.9999999999999996], left of the bracket.  By overflow:
    on [[9e307, 1.7e308]] with [f(x) = x - 10**308] the midpoint is
    [infinity], and so is the root Bisection returns. *)
Lemma bracket_left_in_binary64 :
  (let f := MiniSympy.eval
              (MiniSympy.Sub (MiniSympy.Symbol "x")
                 (MiniSympy.Div (MiniSympy.Integer 4503599627370497)
                    (MiniSympy.Integer 4503599627370496))) in
   PrimFloat.leb 1 4.2 = true /\
   (exists fa fb : float,
      f 1%float = Ok fa /\ f 4.2%float = Ok fb /\
      flt (Arith := binary64) (fmul fa fb) zero = true) /\
   exists d st',
     cli_invoke (S := MiniSympy.mini) sample_rounding solver0 = (Ok d, st') /\
     has_key "warning" d = false /\
     lookup "root" d = Some (VNum 0.9999999999999996%float) /\
     PrimFloat.ltb 0.9999999999999996 1 = true) /\
  (let f := MiniSympy.eval
              (MiniSympy.Sub (MiniSympy.Symbol "x")
                 (MiniSympy.Integer (10 ^ 308))) in
   PrimFloat.leb 9e307 1.7e308 = true /\
   (exists fa fb : float,
      f 9e307%float = Ok fa /\ f 1.7e308%float = Ok fb /\
      flt (Arith := binary64) (fmul fa fb) zero = true) /\
   exists d st',
     cli_invoke (S := MiniSympy.mini) sample_overflow solver0 = (Ok d, st') /\
     lookup "root" d = Some (VNum infinity) /\
     PrimFloat.leb infinity 1.7e308 = false).
Proof.
  split.
  - split; [reflexivity | split].
    + eexists; eexists. split; [vm_compute; reflexivity |].
      split; [vm_compute; reflexivity |]. vm_compute. reflexivity.
    + eexists; eexists. split; [vm_compute; reflexivity |].
      repeat split; reflexivity.
  - split; [reflexivity | split].
    + eexists; eexists. split; [vm_compute; reflexivity |].
      split; [vm_compute; reflexivity |]. vm_compute. reflexivity.
    + eexists; eexists. split; [vm_compute; reflexivity |].
      split; reflexivity.
Qed.

(** ** C4: the sign check *)

Section SignCheck.
Context {A : Arith} {S : Sympy}.

Lemma bisection_loop_no_error func tol max_iter fuel i v st :
  no_error_key
    (for_range (CLI.bisection_body func tol) (CLI.bisection_after max_iter)
       fuel i v st).
Proof.
  apply for_range_rule with (I := fun _ _ _ _ => True); auto.
  - intros _ ? ? ? _. open_body; auto; intros d [= <-]; reflexivity.
  - intros _ ? ? _. open_body; intros d; try discriminate.
    intros [= <-]; reflexivity.
Qed.

Lemma regula_falsi_loop_no_error func tol max_iter fuel i v st :
  no_error_key
    (for_range (CLI.regula_falsi_body func tol)
       (CLI.regula_falsi_after max_iter) fuel i v st).
Proof.
  apply for_range_rule with (I := fun _ _ _ _ => True); auto.
  - intros _ ? ? ? _. open_body; auto; intros d; try discriminate;
      intros [= <-]; reflexivity.
  - intros _ ? ? _. open_body; intros d; try discriminate.
    intros [= <-]; reflexivity.
Qed.

Lemma sign_check_holds (run loop_run : result dict * Store) st fa fb :
  run = (if fgt (fmul fa fb) zero then (Ok precondition_failure, fresh st)
         else loop_run) ->
  no_error_key loop_run ->
  sign_check_spec run loop_run st fa fb.
Proof.
  intros -> Hloop. unfold sign_check_spec.
  destruct (fgt (fmul fa fb) zero); repeat split; auto; try discriminate.
  intros H. apply Hloop in H. discriminate.
Qed.
End SignCheck.

(** C4. Bisection and Regula Falsi return the opposite-sign failure exactly
    when [f(a) * f(b) > 0] holds for the endpoint values computed before the
    loop; otherwise the method runs its loop, which never returns that
    failure.  A product that is zero is not greater than zero, so a bracket
    with a root at an endpoint goes on to the loop. *)
Theorem sign_check_at_start {S : Sympy (A := binary64)}
    (func_str : string) (func : float -> result float) (expr : Expr)
    (a b tol : float) (max_iter : Z) (st : Store) (fa fb : float) :
  CLI.parse_function func_str = Ok (func, expr) ->
  func a = Ok fa -> func b = Ok fb ->
  sign_check_spec
    (CLI.bisection_method func_str a b tol max_iter st)
    (for_range (CLI.bisection_body func tol) (CLI.bisection_after max_iter)
       (Z.to_nat max_iter) 1 (a, b, fa, fb, None) (fresh st))
    st fa fb /\
  sign_check_spec
    (CLI.regula_falsi_method func_str a b tol max_iter st)
    (for_range (CLI.regula_falsi_body func tol)
       (CLI.regula_falsi_after max_iter)
       (Z.to_nat max_iter) 1 (a, b, fa, fb, a, None) (fresh st))
    st fa fb /\
  (feqb (fmul fa fb) zero = true -> fgt (fmul fa fb) zero = false).
Proof.
  intros Hp Ha Hb. split; [|split].
  - apply sign_check_holds; [| apply bisection_loop_no_error].
    unfold CLI.bisection_method, bind, lift, reset_iteration_data, ret.
    rewrite Hp; cbn [fst snd]. rewrite Ha, Hb.
    destruct (fgt _ _); reflexivity.
  - apply sign_check_holds; [| apply regula_falsi_loop_no_error].
    unfold CLI.regula_falsi_method, bind, lift, reset_iteration_data, ret.
    rewrite Hp; cbn [fst snd]. rewrite Ha, Hb.
    destruct (fgt _ _); reflexivity.
  - apply zero_not_positive.
Qed.

Lemma sign_check_at_start_witness :
  sign_check_spec
    (CLI.bisection_method (S := MiniSympy.mini) "x**2 - 4" 2%float 3%float
       1e-6%float 100 solver0)
    (for_range
       (CLI.bisection_body (MiniSympy.eval
          (MiniSympy.Sub (MiniSympy.Pow (MiniSympy.Symbol "x") 2)
             (MiniSympy.Integer 4))) 1e-6%float)
       (CLI.bisection_after 100)
       (Z.to_nat 100) 1 (2%float, 3%float, 0%float, 5%float, None)
       (fresh solver0))
    solver0 0%float 5%float /\
  sign_check_spec
    (CLI.regula_falsi_method (S := MiniSympy.mini) "x**2 - 4" 2%float 3%float
       1e-6%float 100 solver0)
    (for_range
       (CLI.regula_falsi_body (MiniSympy.eval
          (MiniSympy.Sub (MiniSympy.Pow (MiniSympy.Symbol "x") 2)
             (MiniSympy.Integer 4))) 1e-6%float)
       (CLI.regula_falsi_after 100)
       (Z.to_nat 100) 1 (2%float, 3%float, 0%float, 5%float, 2%float, None)
       (fresh solver0))
    solver0 0%float 5%float /\
  (feqb (Arith := binary64) (fmul 0%float 5%float) zero = true ->
   fgt (A := binary64) (fmul 0%float 5%float) zero = false).
Proof.
  apply sign_check_at_start
    with (expr := MiniSympy.Sub (MiniSympy.Pow (MiniSympy.Symbol "x") 2)
                    (MiniSympy.Integer 4));
    reflexivity.
Defined.

(** ** C5: the derivative guard of Newton-Raphson *)

Section NewtonGuard.
Context {A : Arith} {S : Sympy}.

(** The arithmetic fact the guard rests on: past the guard the quotient does
    not raise. *)
Hypothesis guarded_quotient : forall fx dfx : num,
  flt (fabs dfx) lit_1e_12 = false -> truediv fx dfx = Ok (fdiv fx dfx).

Lemma newton_raphson_loop_no_zero_division func derivative tol max_iter
    fuel i v st :
  no_zero_division func -> no_zero_division derivative ->
  forall m,
    fst (for_range (CLI.newton_raphson_body func derivative tol)
           (CLI.newton_raphson_after max_iter) fuel i v st)
    <> Raise (ZeroDivisionError m).
Proof.
  intros Hf Hd m.
  apply for_range_rule with (I := fun _ _ _ _ => True)
    (Q := fun r => fst r <> Raise (ZeroDivisionError m)); auto.
  - intros _ ? [x last] ? _. unfold CLI.newton_raphson_body. run_monad.
    destruct (func x) as [fx|e] eqn:Hfx; simpl;
      [| intros [= ->]; exact (Hf _ _ Hfx)].
    destruct (derivative x) as [dfx|e] eqn:Hdx; simpl;
      [| intros [= ->]; exact (Hd _ _ Hdx)].
    destruct (flt (fabs dfx) lit_1e_12) eqn:Hg; simpl; [congruence|].
    rewrite (guarded_quotient fx _ Hg); simpl.
    destruct (func (fsub x (fdiv fx dfx))) as [fn|e] eqn:Hfn; simpl;
      [| intros [= ->]; exact (Hf _ _ Hfn)].
    destruct (_ || _); simpl; auto; congruence.
  - intros _ [x [e|]] ? _; simpl; congruence.
Qed.

Lemma newton_raphson_guard_pass func derivative tol i x last st fx dfx :
  func x = Ok fx -> derivative x = Ok dfx ->
  flt (fabs dfx) lit_1e_12 = true ->
  CLI.newton_raphson_body func derivative tol i (x, last) st
  = (Ok (inl derivative_failure), st).
Proof.
  intros Hfx Hdx Hg. unfold CLI.newton_raphson_body. run_monad.
  rewrite Hfx; simpl. rewrite Hdx; simpl. now rewrite Hg.
Qed.
End NewtonGuard.

Lemma binary64_guarded_quotient (fx dfx : float) :
  flt (fabs dfx) lit_1e_12 = false -> truediv fx dfx = Ok (fdiv fx dfx).
Proof.
  intros Hg; unfold truediv. destruct (feqb _ _) eqn:Hz; auto.
  rewrite (zero_is_tiny Hz) in Hg; discriminate.
Qed.

(** C5. In Newton-Raphson the quotient [fx / dfx] is computed only when
    [abs(dfx) < 1e-12] is false, and then it does not raise; when the loop
    stands at an iterate whose derivative is below [1e-12] in magnitude, the
    method returns the derivative failure; and the method raises
    [ZeroDivisionError] only if [f] or [f'] itself does. *)
Theorem newton_derivative_guard {S : Sympy (A := binary64)}
    (func_str : string) (func derivative : float -> result float)
    (expr dexpr : Expr) (x0 tol : float) (max_iter : Z) (st : Store) :
  CLI.parse_function func_str = Ok (func, expr) ->
  diff expr = Ok dexpr -> lambdify dexpr = Ok derivative ->
  (forall fx dfx : float,
     flt (fabs dfx) lit_1e_12 = false -> truediv fx dfx = Ok (fdiv fx dfx)) /\
  (forall k i x last st' (fx dfx : float),
     reaches (CLI.newton_raphson_body func derivative tol) k 1
       (x0, None) (fresh st) i (x, last) st' ->
     (k < Z.to_nat max_iter)%nat ->
     func x = Ok fx -> derivative x = Ok dfx ->
     flt (fabs dfx) lit_1e_12 = true ->
     CLI.newton_raphson_method func_str x0 tol max_iter st
     = (Ok derivative_failure, st')) /\
  (no_zero_division func -> no_zero_division derivative ->
   forall m, fst (CLI.newton_raphson_method func_str x0 tol max_iter st)
             <> Raise (ZeroDivisionError m)).
Proof.
  intros Hp Hd Hl.
  assert (Hrun : CLI.newton_raphson_method func_str x0 tol max_iter st
                 = for_range (CLI.newton_raphson_body func derivative tol)
                     (CLI.newton_raphson_after max_iter) (Z.to_nat max_iter)
                     1 (x0, None) (fresh st)).
  { unfold CLI.newton_raphson_method, bind, lift, reset_iteration_data.
    rewrite Hp; cbn [fst snd]. now rewrite Hd, Hl. }
  split; [exact binary64_guarded_quotient | split].
  - intros k i x last st' fx dfx Hr Hk Hfx Hdx Hg. rewrite Hrun.
    apply (for_range_returns _ Hr Hk).
    now apply newton_raphson_guard_pass with (fx := fx) (dfx := dfx).
  - intros Hf Hd' m. rewrite Hrun.
    apply newton_raphson_loop_no_zero_division; auto.
    exact binary64_guarded_quotient.
Qed.

Lemma newton_derivative_guard_witness :
  cli_invoke (S := MiniSympy.mini) sample_newton solver0
  = (Ok derivative_failure, fresh solver0).
Proof.
  refine (proj1 (proj2
    (newton_derivative_guard (S := MiniSympy.mini) "x**2 - 4"
       (func := MiniSympy.eval
          (MiniSympy.Sub (MiniSympy.Pow (MiniSympy.Symbol "x") 2)
             (MiniSympy.Integer 4)))
       (derivative := MiniSympy.eval
          (MiniSympy.Mul (MiniSympy.Integer 2) (MiniSympy.Symbol "x")))
       0%float 1e-6%float 100 solver0 eq_refl eq_refl eq_refl))
    O 1%Z 0%float None (fresh solver0) (-4)%float 0%float _ _ eq_refl eq_refl
    eq_refl).
  - constructor.
  - vm_compute. lia.
Defined.

(** ** C6 and C7: the two tests of a fixed-point pass *)

Section FixedPoint.
Context {A : Arith} {S : Sympy}.

(** One pass, by cases on its two tests. *)
Lemma fixed_point_pass func tol i x last st x_new :
  func x = Ok x_new ->
  CLI.fixed_point_body func tol i (x, last) st
  = (if flt (fabs (fsub x_new x)) tol then
       Ok (inl (fixed_point_converged i x x_new (self_iteration_data st)))
     else if fgt (fabs x_new) lit_1e10 then Ok (inl divergence_failure)
     else Ok (inr (x_new, Some (fabs (fsub x_new x)))),
     push (fixed_point_record i x x_new) st).
Proof.
  intros Hx. unfold CLI.fixed_point_body. run_monad. rewrite Hx; simpl.
  destruct (flt _ tol); [reflexivity|]. now destruct (fgt _ _).
Qed.

(** From pass [j > i] on, the loop returns no dict that reports [i]
    iterations without the warning. *)
Lemma fixed_point_later func tol max_iter i fuel j v st :
  (i < j)%Z ->
  forall d,
    fst (for_range (CLI.fixed_point_body func tol)
           (CLI.fixed_point_after max_iter) fuel j v st) = Ok d ->
    lookup "iterations" d = Some (VInt i) -> has_key "warning" d = true.
Proof.
  intros Hij.
  apply for_range_rule with (I := fun _ j _ _ => (i < j)%Z)
    (Q := fun r => forall d, fst r = Ok d ->
            lookup "iterations" d = Some (VInt i) -> has_key "warning" d = true);
    auto.
  - intros _ j' ? ? Hj. open_body; try lia; intros d; try discriminate;
      intros [= <-]; simpl; intros [= ?]; try lia; discriminate.
  - intros _ ? ? _. open_body; intros d; try discriminate.
    intros [= <-]; reflexivity.
Qed.
End FixedPoint.

(** C6. When the loop of Fixed Point Iteration stands at an iterate [x],
    with passes left, and the new iterate [g(x)] fails the convergence test
    and exceeds [1e10] in magnitude, the method returns the divergence
    failure on that pass (pass [k + 1 <= max_iter]), having appended its
    record; no later pass runs. *)
Theorem fixed_point_divergence {A : Arith} {S : Sympy}
    (func_str : string) (func : num -> result num) (expr : Expr)
    (x0 tol : num) (max_iter : Z) (st : Store)
    (k : nat) (i : Z) (x : num) (last : option num) (st' : Store)
    (x_new : num) :
  CLI.parse_function func_str = Ok (func, expr) ->
  reaches (CLI.fixed_point_body func tol) k 1 (x0, None) (fresh st)
    i (x, last) st' ->
  (k < Z.to_nat max_iter)%nat ->
  func x = Ok x_new ->
  flt (fabs (fsub x_new x)) tol = false ->
  fgt (fabs x_new) lit_1e10 = true ->
  CLI.fixed_point_iteration func_str x0 tol max_iter st
  = (Ok divergence_failure, push (fixed_point_record i x x_new) st') /\
  i = (Z.of_nat k + 1)%Z /\ (i <= max_iter)%Z.
Proof.
  intros Hp Hr Hk Hx Hc Hd. split.
  - unfold CLI.fixed_point_iteration, bind, lift, reset_iteration_data.
    rewrite Hp; cbn [fst snd].
    apply (for_range_returns _ Hr Hk).
    rewrite fixed_point_pass with (1 := Hx), Hc, Hd. reflexivity.
  - apply reaches_index in Hr. lia.
Qed.

Lemma fixed_point_divergence_witness :
  cli_invoke (S := MiniSympy.mini) sample_doubling solver0
  = (Ok divergence_failure,
     push (fixed_point_record 34 8589934592%float 17179869184%float)
       doubling_store) /\
  34%Z = (Z.of_nat 33 + 1)%Z /\ (34 <= 100)%Z.
Proof.
  apply fixed_point_divergence
    with (func := MiniSympy.eval (MiniSympy.Mul (MiniSympy.Integer 2)
                                    (MiniSympy.Symbol "x")))
         (expr := MiniSympy.Mul (MiniSympy.Integer 2) (MiniSympy.Symbol "x"))
         (last := Some 4294967296%float);
    try reflexivity.
  - apply run_passes_reaches. vm_compute. reflexivity.
  - vm_compute. lia.
Defined.

(** C7. A pass of Fixed Point Iteration returns the converged outcome
    exactly when the step [abs(x_new - x)] is below the tolerance: it does
    so whatever the magnitude of [x_new] (the divergence test comes second),
    and when the step is not below the tolerance no dict reporting this pass
    as the last one is returned without the warning.  No function value
    enters the test. *)
Theorem fixed_point_convergence_test {A : Arith} {S : Sympy}
    (func_str : string) (func : num -> result num) (expr : Expr)
    (x0 tol : num) (max_iter : Z) (st : Store)
    (k : nat) (i : Z) (x : num) (last : option num) (st' : Store)
    (x_new : num) :
  CLI.parse_function func_str = Ok (func, expr) ->
  reaches (CLI.fixed_point_body func tol) k 1 (x0, None) (fresh st)
    i (x, last) st' ->
  (k < Z.to_nat max_iter)%nat ->
  func x = Ok x_new ->
  (flt (fabs (fsub x_new x)) tol = true ->
   CLI.fixed_point_iteration func_str x0 tol max_iter st
   = (Ok (fixed_point_converged i x x_new (self_iteration_data st')),
      push (fixed_point_record i x x_new) st')) /\
  (flt (fabs (fsub x_new x)) tol = false ->
   forall d,
     fst (CLI.fixed_point_iteration func_str x0 tol max_iter st) = Ok d ->
     lookup "iterations" d = Some (VInt i) -> has_key "warning" d = true).
Proof.
  intros Hp Hr Hk Hx.
  assert (Hrun : CLI.fixed_point_iteration func_str x0 tol max_iter st
                 = for_range (CLI.fixed_point_body func tol)
                     (CLI.fixed_point_after max_iter) (Z.to_nat max_iter)
                     1 (x0, None) (fresh st)).
  { unfold CLI.fixed_point_iteration, bind, lift, reset_iteration_data.
    now rewrite Hp. }
  rewrite Hrun. split; intros Hc.
  - apply (for_range_returns _ Hr Hk).
    now rewrite fixed_point_pass with (1 := Hx), Hc.
  - replace (Z.to_nat max_iter)
      with (k + Datatypes.S (Z.to_nat max_iter - Datatypes.S k))%nat by lia.
    rewrite (for_range_reaches _ Hr). cbn [for_range]. unfold bind.
    rewrite fixed_point_pass with (1 := Hx), Hc.
    destruct (fgt (fabs x_new) lit_1e10).
    + intros d [= <-]; discriminate.
    + apply fixed_point_later. lia.
Qed.

Lemma fixed_point_convergence_test_witness :
  cli_invoke (S := MiniSympy.mini) sample_far_fixed_point solver0
  = (Ok (fixed_point_converged 1 2e10%float 2e10%float
           (self_iteration_data (fresh (A := binary64) solver0))),
     push (fixed_point_record 1 2e10%float 2e10%float) (fresh solver0)) /\
  fgt (A := binary64) (fabs 2e10%float) lit_1e10 = true.
Proof.
  split; [| reflexivity].
  refine (proj1
    (@fixed_point_convergence_test binary64 MiniSympy.mini "x"
       (MiniSympy.eval (MiniSympy.Symbol "x")) (MiniSympy.Symbol "x")
       2e10%float 1e-6%float 100 solver0 O 1%Z 2e10%float None
       (fresh solver0) 2e10%float eq_refl _ _ eq_refl) eq_refl).
  - constructor.
  - vm_compute. lia.
Defined.

(** The other five methods test a function value as well: a pass whose
    function value is below the tolerance returns a dict with a [root],
    whatever the step. *)
Lemma value_test_in_other_methods {A : Arith} (func derivative : num -> result num)
    (tol delta : num) (i : Z) (st : Store) :
  (forall a b fa fb last fc,
     func (fdiv (fadd a b) two) = Ok fc -> flt (fabs fc) tol = true ->
     exists d, fst (CLI.bisection_body func tol i (a, b, fa, fb, last) st)
               = Ok (inl d) /\ has_key "root" d = true) /\
  (forall a b fa fb c_old last q fc,
     truediv (fmul fb (fsub b a)) (fsub fb fa) = Ok q ->
     func (fsub b q) = Ok fc -> flt (fabs fc) tol = true ->
     exists d, fst (CLI.regula_falsi_body func tol i
                      (a, b, fa, fb, c_old, last) st)
               = Ok (inl d) /\ has_key "root" d = true) /\
  (forall x0 x1 f0 f1 last q f2,
     flt (fabs (fsub f1 f0)) lit_1e_12 = false ->
     truediv (fmul f1 (fsub x1 x0)) (fsub f1 f0) = Ok q ->
     func (fsub x1 q) = Ok f2 -> flt (fabs f2) tol = true ->
     exists d, fst (CLI.secant_body func tol i (x0, x1, f0, f1, last) st)
               = Ok (inl d) /\ has_key "root" d = true) /\
  (forall x last fx dfx q fx_new,
     func x = Ok fx -> derivative x = Ok dfx ->
     flt (fabs dfx) lit_1e_12 = false -> truediv fx dfx = Ok q ->
     func (fsub x q) = Ok fx_new -> flt (fabs fx_new) tol = true ->
     exists d, fst (CLI.newton_raphson_body func derivative tol i (x, last) st)
               = Ok (inl d) /\ has_key "root" d = true) /\
  (forall x last fx fx_delta q fx_new,
     func x = Ok fx ->
     (if fne x zero then func (fadd x (fmul delta x))
      else func (fadd x delta)) = Ok fx_delta ->
     flt (fabs (fsub fx_delta fx)) lit_1e_12 = false ->
     truediv (fmul fx (if fne x zero then fmul delta x else delta))
       (fsub fx_delta fx) = Ok q ->
     func (fsub x q) = Ok fx_new -> flt (fabs fx_new) tol = true ->
     exists d, fst (CLI.modified_secant_body func delta tol i (x, last) st)
               = Ok (inl d) /\ has_key "root" d = true).
Proof.
  repeat split; intros.
  - unfold CLI.bisection_body. run_monad.
    repeat match goal with H : _ = _ |- _ => rewrite H; simpl end.
    eexists; split; reflexivity.
  - unfold CLI.regula_falsi_body. run_monad.
    repeat match goal with H : _ = _ |- _ => rewrite H; simpl end.
    eexists; split; reflexivity.
  - unfold CLI.secant_body. run_monad.
    repeat match goal with H : _ = _ |- _ => rewrite H; simpl end.
    eexists; split; reflexivity.
  - unfold CLI.newton_raphson_body. run_monad.
    repeat match goal with H : _ = _ |- _ => rewrite H; simpl end.
    eexists; split; reflexivity.
  - unfold CLI.modified_secant_body. run_monad.
    repeat match goal with H : _ = _ |- _ => rewrite H; simpl end.
    eexists; split; reflexivity.
Qed.
(** ** C8: invocations do not influence each other *)

(** C8. The outcome a caller observes from an invocation is the same in
    whatever store, and after whatever earlier calls, it runs; and a later
    invocation on the same solver object leaves the dict an earlier one
    returned, trace included, as it was: the method rebinds
    [self.iteration_data] to a new list and appends only to that. *)
Theorem invocations_independent {A : Arith} {S : Sympy} {B : Builtins}
    (c : Call) :
  (forall st1 st2, observe (cli_invoke c st1) = observe (cli_invoke c st2)) /\
  (forall st1 st2, observe (web_invoke c st1) = observe (web_invoke c st2)) /\
  (forall st d c', fst (cli_invoke c st) = Ok d ->
     snapshot (snd (cli_invoke c' (snd (cli_invoke c st)))) d
     = snapshot (snd (cli_invoke c st)) d) /\
  (forall st d c', fst (web_invoke c st) = Ok d ->
     snapshot (snd (web_invoke c' (snd (web_invoke c st)))) d
     = snapshot (snd (web_invoke c st)) d).
Proof.
  repeat split.
  - intros; apply cli_invoke_same.
  - intros st1 st2.
    transitivity (web_outcome (observe (cli_invoke c st1)));
      [| symmetry]; apply invoke_sim.
  - intros st d c' Hd. apply snapshot_alone. intros k l Hin.
    destruct (cli_invoke_alone c st) as (_ & _ & Hl).
    destruct (cli_invoke_alone c' (snd (cli_invoke c st))) as (Hd' & _).
    apply Hd'. eapply Hl; eauto.
  - intros st d c' Hd. apply snapshot_alone. intros k l Hin.
    destruct (web_invoke_alone c st) as (_ & _ & Hl).
    destruct (web_invoke_alone c' (snd (web_invoke c st))) as (Hd' & _).
    apply Hd'. eapply Hl; eauto.
Qed.

(** ** C9: the web copy and the command-line copy *)


(** Formatting keeps the keys, the integers ([iterations], [iteration]) and
    the strings ([method], [error], [warning]) of an outcome, and the number
    of its records. *)
Lemma web_format_keeps {A : Arith} {B : Builtins}
    (o : list (string * svalue)) :
  map fst (web_format o) = map fst o /\
  (forall k z, In (k, SInt z) o <-> In (k, SInt z) (web_format o)) /\
  (forall k s, In (k, SStr s) o -> In (k, SStr s) (web_format o)) /\
  (forall k l, In (k, SRecords l) o ->
     exists l', In (k, SRecords l') (web_format o)
                /\ List.length l' = List.length l).
Proof.
  unfold web_format. split; [| split; [| split]].
  - rewrite map_map. reflexivity.
  - intros k z; split; intros H.
    + apply in_map_iff. exists (k, SInt z). auto.
    + apply in_map_iff in H. destruct H as ([k' v] & Heq & Hin).
      simpl in Heq. destruct v; simpl in Heq;
        try destruct (is_error_key k'); inversion Heq; subst; auto.
  - intros k s H. apply in_map_iff. exists (k, SStr s). auto.
  - intros k l H. exists (map web_record l). split.
    + apply in_map_iff. exists (k, SRecords l). auto.
    + apply length_map.
Qed.

(** ** C10: regula falsi with two root endpoints *)

(** C10. When both endpoint values are zero, the sign check lets the bracket
    through ([0 > 0] is false) and the first pass of Regula Falsi divides by
    [fb - fa = 0]: the method raises [ZeroDivisionError]; it returns no
    dict. *)
Theorem regula_falsi_zero_endpoints_raise {S : Sympy (A := binary64)}
    (func_str : string) (func : float -> result float) (expr : Expr)
    (a b tol : float) (max_iter : Z) (st : Store) (fa fb : float) :
  CLI.parse_function func_str = Ok (func, expr) ->
  func a = Ok fa -> func b = Ok fb ->
  feqb fa zero = true -> feqb fb zero = true ->
  (1 <= max_iter)%Z ->
  CLI.regula_falsi_method func_str a b tol max_iter st
  = (Raise (ZeroDivisionError "float division by zero"), fresh st).
Proof.
  intros Hp Ha Hb Hza Hzb Hn.
  unfold CLI.regula_falsi_method, bind, lift, reset_iteration_data.
  rewrite Hp; cbn [fst snd]. rewrite Ha, Hb.
  rewrite (zero_not_positive (zero_product Hza Hzb)).
  destruct (Z.to_nat max_iter) as [|n] eqn:Hfuel; [lia|].
  cbn [for_range]. unfold bind, CLI.regula_falsi_body, lift, truediv.
  now rewrite (zero_difference Hza Hzb).
Qed.

Lemma regula_falsi_zero_endpoints_raise_witness :
  cli_invoke (S := MiniSympy.mini) sample_falsi solver0
  = (Raise (ZeroDivisionError "float division by zero"), fresh solver0).
Proof.
  apply regula_falsi_zero_endpoints_raise
    with (func := MiniSympy.eval
                    (MiniSympy.Sub (MiniSympy.Pow (MiniSympy.Symbol "x") 2)
                       (MiniSympy.Integer 4)))
         (expr := MiniSympy.Sub (MiniSympy.Pow (MiniSympy.Symbol "x") 2)
                    (MiniSympy.Integer 4))
         (fa := 0%float) (fb := 0%float);
    try reflexivity. lia.
Defined.

(** The web copy has the same division and raises in the same way. *)
Lemma web_regula_falsi_zero_endpoints_raise {S : Sympy (A := binary64)}
    {B : Builtins} (func_str : string) (func : float -> result float)
    (expr : Expr) (a b tol : float) (max_iter : Z) (st : Store)
    (fa fb : float) :
  Web.parse_function func_str = Ok (func, expr) ->
  func a = Ok fa -> func b = Ok fb ->
  feqb fa zero = true -> feqb fb zero = true ->
  (1 <= max_iter)%Z ->
  Web.regula_falsi_method func_str a b tol max_iter st
  = (Raise (ZeroDivisionError "float division by zero"), fresh st).
Proof.
  intros Hp Ha Hb Hza Hzb Hn.
  unfold Web.regula_falsi_method, bind, lift, reset_iteration_data.
  rewrite Hp; cbn [fst snd]. rewrite Ha, Hb.
  rewrite (zero_not_positive (zero_product Hza Hzb)).
  destruct (Z.to_nat max_iter) as [|n] eqn:Hfuel; [lia|].
  cbn [for_range]. unfold bind, Web.regula_falsi_body, lift, truediv.
  now rewrite (zero_difference Hza Hzb).
Qed.

(** * Further properties of the six methods *)

(** ** The shape of the trace *)

Section TraceShape.
Context {A : Arith} {S : Sympy}.

Lemma numbered_nil : numbered (A := A) [].
Proof. intros [|k] rec; discriminate. Qed.

Lemma numbered_snoc (l : list dict) rec :
  numbered l ->
  lookup "iteration" rec = Some (VInt (Z.of_nat (List.length l) + 1)) ->
  numbered (l ++ [rec]).
Proof.
  intros Hl Hrec k r Hk.
  destruct (Nat.lt_ge_cases k (List.length l)) as [Hlt | Hge].
  - rewrite nth_error_app1 in Hk by assumption. now apply Hl.
  - rewrite nth_error_app2 in Hk by assumption.
    destruct (k - List.length l)%nat as [|j] eqn:Hj; simpl in Hk.
    + injection Hk as <-. rewrite Hrec. do 3 f_equal. lia.
    + destruct j; discriminate.
Qed.

Lemma trace_ok_start keys max_iter st :
  trace_ok keys max_iter (Z.to_nat max_iter) 1 (fresh st).
Proof.
  unfold trace_ok. rewrite fresh_trace. simpl.
  repeat split; auto using fresh_valid, numbered_nil; try lia;
    try (intros rec []).
Qed.

Lemma trace_ok_push keys max_iter n i st rec :
  trace_ok keys max_iter (Datatypes.S n) i st ->
  lookup "iteration" rec = Some (VInt i) -> map fst rec = keys ->
  trace_ok keys max_iter n (i + 1) (push rec st).
Proof.
  intros (Hv & Hn & Hi & Hnum & Hk) Hrec Hkeys. unfold trace_ok.
  rewrite push_trace by assumption. rewrite length_app. simpl.
  repeat split; auto using push_valid; try lia.
  - apply numbered_snoc; auto. rewrite Hrec. do 2 f_equal. lia.
  - intros r Hin. apply in_app_iff in Hin. destruct Hin as [Hin | [<- | []]]; auto.
Qed.

Lemma trace_ok_stop keys max_iter n i st :
  trace_ok keys max_iter n i st -> trace_shape keys max_iter st.
Proof. intros (Hv & Hn & Hi & Hnum & Hk). repeat split; auto. lia. Qed.

Lemma trace_ok_push_stop keys max_iter n i st rec :
  trace_ok keys max_iter (Datatypes.S n) i st ->
  lookup "iteration" rec = Some (VInt i) -> map fst rec = keys ->
  trace_shape keys max_iter (push rec st).
Proof. intros H H1 H2. eapply trace_ok_stop, trace_ok_push; eauto. Qed.

Lemma for_range_shape {V} keys max_iter
    (body : Z -> V -> M (dict + V)) (after : V -> M dict) :
  (forall n i v st, trace_ok keys max_iter (Datatypes.S n) i st ->
     match body i v st with
     | (Ok (inr _), st') => trace_ok keys max_iter n (i + 1) st'
     | (_, st') => trace_shape keys max_iter st'
     end) ->
  (forall v st, snd (after v st) = st) ->
  forall fuel i v st, trace_ok keys max_iter fuel i st ->
    trace_shape keys max_iter (snd (for_range body after fuel i v st)).
Proof.
  intros Hb Ha. apply for_range_rule with
    (I := fun n i (_ : V) st => trace_ok keys max_iter n i st)
    (Q := fun r => trace_shape keys max_iter (snd r)).
  - intros n i v st HI. specialize (Hb n i v st HI).
    destruct (body i v st) as [[[d|v']|e] st']; auto.
  - intros i v st HI. rewrite Ha. eapply trace_ok_stop; eauto.
Qed.

Ltac close_shape H :=
  lazymatch goal with
  | |- trace_ok _ _ _ _ (push _ _) =>
      eapply trace_ok_push; [exact H | reflexivity ..]
  | |- trace_shape _ _ (push _ _) =>
      eapply trace_ok_push_stop; [exact H | reflexivity ..]
  | |- trace_shape _ _ _ => eapply trace_ok_stop; exact H
  | |- _ = _ => reflexivity
  end.

Ltac shape_loop :=
  intros; apply for_range_shape; [ | | assumption ];
  [ let H := fresh "Hpass" in intros ? ? ? ? H; open_body; close_shape H
  | intros ? ?; open_body; reflexivity ].

Lemma bisection_shape func tol max_iter fuel i v st keys :
  keys = ["iteration"; "a"; "b"; "c"; "f(c)"; "error"] ->
  trace_ok keys max_iter fuel i st ->
  trace_shape keys max_iter
    (snd (for_range (CLI.bisection_body func tol)
            (CLI.bisection_after max_iter) fuel i v st)).
Proof. intros ->. shape_loop. Qed.

Lemma regula_falsi_shape func tol max_iter fuel i v st keys :
  keys = ["iteration"; "a"; "b"; "c"; "f(c)"; "error"] ->
  trace_ok keys max_iter fuel i st ->
  trace_shape keys max_iter
    (snd (for_range (CLI.regula_falsi_body func tol)
            (CLI.regula_falsi_after max_iter) fuel i v st)).
Proof. intros ->. shape_loop. Qed.

Lemma secant_shape func tol max_iter fuel i v st keys :
  keys = ["iteration"; "x0"; "x1"; "x2"; "f(x2)"; "error"] ->
  trace_ok keys max_iter fuel i st ->
  trace_shape keys max_iter
    (snd (for_range (CLI.secant_body func tol)
            (CLI.secant_after max_iter) fuel i v st)).
Proof. intros ->. shape_loop. Qed.

Lemma newton_raphson_shape func derivative tol max_iter fuel i v st keys :
  keys = ["iteration"; "x"; "f(x)"; "f'(x)"; "x_new"; "error"] ->
  trace_ok keys max_iter fuel i st ->
  trace_shape keys max_iter
    (snd (for_range (CLI.newton_raphson_body func derivative tol)
            (CLI.newton_raphson_after max_iter) fuel i v st)).
Proof. intros ->. shape_loop. Qed.

Lemma fixed_point_shape func tol max_iter fuel i v st keys :
  keys = ["iteration"; "x"; "g(x)"; "error"] ->
  trace_ok keys max_iter fuel i st ->
  trace_shape keys max_iter
    (snd (for_range (CLI.fixed_point_body func tol)
            (CLI.fixed_point_after max_iter) fuel i v st)).
Proof. intros ->. shape_loop. Qed.

Lemma modified_secant_shape func delta tol max_iter fuel i v st keys :
  keys = ["iteration"; "x"; "f(x)"; "f(x+δx)"; "x_new"; "error"] ->
  trace_ok keys max_iter fuel i st ->
  trace_shape keys max_iter
    (snd (for_range (CLI.modified_secant_body func delta tol)
            (CLI.modified_secant_after max_iter) fuel i v st)).
Proof. intros ->. shape_loop. Qed.
End TraceShape.

(** Unfolding a method whose text has been compiled. *)
Ltac enter_method H :=
  unfold cli_invoke, CLI.bisection_method, CLI.regula_falsi_method,
    CLI.secant_method, CLI.newton_raphson_method, CLI.fixed_point_iteration,
    CLI.modified_secant_method, bind, lift, reset_iteration_data, ret;
  rewrite H; cbn [fst snd].

(** X1. Once the function text is compiled, the trace a method leaves
    behind, however the method ends, holds at most [max_iter] records, they
    are numbered 1, 2, 3, ... under [iteration], and every record has the
    keys of the method in the same order. *)
Theorem trace_is_well_formed {A : Arith} {S : Sympy}
    (c : Call) (st : Store) (fe : (num -> result num) * Expr) :
  CLI.parse_function (func_str_of c) = Ok fe ->
  trace_shape (record_keys c) (max_iter_of c) (snd (cli_invoke c st)).
Proof.
  intros Hp; destruct c; simpl in Hp; enter_method Hp; simpl;
    repeat (split_match; simpl);
    first [ eapply trace_ok_stop, trace_ok_start
          | apply bisection_shape | apply regula_falsi_shape
          | apply secant_shape | apply newton_raphson_shape
          | apply fixed_point_shape | apply modified_secant_shape ];
    first [reflexivity | apply trace_ok_start].
Qed.

Lemma trace_is_well_formed_witness :
  trace_shape ["iteration"; "a"; "b"; "c"; "f(c)"; "error"] 3
    (snd (cli_invoke (S := MiniSympy.mini) sample_bisection solver0)).
Proof.
  apply (@trace_is_well_formed binary64 MiniSympy.mini sample_bisection solver0
           (MiniSympy.eval
              (MiniSympy.Sub (MiniSympy.Pow (MiniSympy.Symbol "x") 2)
                 (MiniSympy.Integer 4)),
            MiniSympy.Sub (MiniSympy.Pow (MiniSympy.Symbol "x") 2)
              (MiniSympy.Integer 4))).
  reflexivity.
Defined.

(** ** No passes *)

(** X2. With [max_iter <= 0] the loop body never runs and the [return] after
    the loop reads a variable that was never bound: the only dict a method
    can return is the sign-check failure, and when the function and its
    derivative compile and evaluate, a method that gets past the sign check
    raises [UnboundLocalError]. *)
Theorem no_passes_no_outcome {A : Arith} {S : Sympy}
    (c : Call) (st : Store) (func : num -> result num) (expr : Expr) :
  CLI.parse_function (func_str_of c) = Ok (func, expr) ->
  (max_iter_of c <= 0)%Z ->
  (forall d, fst (cli_invoke c st) = Ok d -> d = precondition_failure) /\
  (forall dexpr derivative,
     total func -> diff expr = Ok dexpr -> lambdify dexpr = Ok derivative ->
     fst (cli_invoke c st) = Ok precondition_failure \/
     fst (cli_invoke c st) = Raise (UnboundLocalError (unbound_variable c))).
Proof.
  intros Hp Hn; split.
  - intros d; destruct c; simpl in Hp, Hn; enter_method Hp;
      replace (Z.to_nat max_iter) with O by lia; simpl;
      repeat (split_match; simpl); try discriminate;
      intros [= <-]; reflexivity.
  - intros dexpr derivative Ht Hd Hl; destruct c; simpl in Hp, Hn;
      enter_method Hp; replace (Z.to_nat max_iter) with O by lia;
      try rewrite Hd; try rewrite Hl; simpl;
      repeat match goal with
             | |- context [func ?x] =>
                 let y := fresh "y" in let Hy := fresh "Hy" in
                 destruct (Ht x) as [y Hy]; rewrite Hy; simpl
             end;
      try (destruct (fgt _ _); simpl); auto.
Qed.

Lemma no_passes_no_outcome_witness :
  (forall d,
     fst (cli_invoke (S := MiniSympy.mini) sample_no_pass solver0) = Ok d ->
     d = precondition_failure) /\
  (forall dexpr derivative,
     total (MiniSympy.eval
              (MiniSympy.Sub (MiniSympy.Symbol "x") (MiniSympy.Integer 4))) ->
     diff (Sympy := MiniSympy.mini)
       (MiniSympy.Sub (MiniSympy.Symbol "x") (MiniSympy.Integer 4))
     = Ok dexpr ->
     lambdify (Sympy := MiniSympy.mini) dexpr = Ok derivative ->
     fst (cli_invoke (S := MiniSympy.mini) sample_no_pass solver0)
     = Ok precondition_failure \/
     fst (cli_invoke (S := MiniSympy.mini) sample_no_pass solver0)
     = Raise (UnboundLocalError "x2")).
Proof.
  apply (@no_passes_no_outcome binary64 MiniSympy.mini
           sample_no_pass solver0
           (MiniSympy.eval
              (MiniSympy.Sub (MiniSympy.Symbol "x") (MiniSympy.Integer 4)))
           (MiniSympy.Sub (MiniSympy.Symbol "x") (MiniSympy.Integer 4))).
  - reflexivity.
  - simpl. lia.
Defined.

(** ** The shape of the returned dict *)

Section OutcomeShape.
Context {A : Arith} {S : Sympy}.

Ltac close_outcome :=
  lazymatch goal with
  | |- True => exact I
  | |- shaped _ (Raise _, _) => intros ? ?; discriminate
  | |- shaped _ (Ok _, _) =>
      let d := fresh "d" in
      intros d [= <-];
      first [ left; eexists; reflexivity
            | right; do 4 eexists; left; reflexivity
            | right; do 4 eexists; right; reflexivity ]
  end.

Ltac outcome_loop :=
  intros; apply for_range_rule with (I := fun _ _ _ _ => True);
  [ intros _ ? ? ? _; open_body; close_outcome
  | intros _ ? ? _; open_body; close_outcome
  | exact I ].

Lemma bisection_outcome func tol max_iter fuel i v st :
  shaped "Bisection Method"
    (for_range (CLI.bisection_body func tol) (CLI.bisection_after max_iter)
       fuel i v st).
Proof. outcome_loop. Qed.

Lemma regula_falsi_outcome func tol max_iter fuel i v st :
  shaped "Regula Falsi Method"
    (for_range (CLI.regula_falsi_body func tol)
       (CLI.regula_falsi_after max_iter) fuel i v st).
Proof. outcome_loop. Qed.

Lemma secant_outcome func tol max_iter fuel i v st :
  shaped "Secant Method"
    (for_range (CLI.secant_body func tol) (CLI.secant_after max_iter)
       fuel i v st).
Proof. outcome_loop. Qed.

Lemma newton_raphson_outcome func derivative tol max_iter fuel i v st :
  shaped "Newton-Raphson Method"
    (for_range (CLI.newton_raphson_body func derivative tol)
       (CLI.newton_raphson_after max_iter) fuel i v st).
Proof. outcome_loop. Qed.

Lemma fixed_point_outcome func tol max_iter fuel i v st :
  shaped "Fixed Point Iteration"
    (for_range (CLI.fixed_point_body func tol) (CLI.fixed_point_after max_iter)
       fuel i v st).
Proof. outcome_loop. Qed.

Lemma modified_secant_outcome func delta tol max_iter fuel i v st :
  shaped "Modified Secant Method"
    (for_range (CLI.modified_secant_body func delta tol)
       (CLI.modified_secant_after max_iter) fuel i v st).
Proof. outcome_loop. Qed.

Lemma cli_invoke_shaped (c : Call) (st : Store) :
  shaped (method_name c) (cli_invoke c st).
Proof.
  destruct c; unfold cli_invoke, method_name; autounfold with zof_methods;
    run_monad; repeat (split_match; simpl);
    first [ close_outcome
          | apply bisection_outcome | apply regula_falsi_outcome
          | apply secant_outcome | apply newton_raphson_outcome
          | apply fixed_point_outcome | apply modified_secant_outcome ].
Qed.
End OutcomeShape.

(** X3. A dict returned by a method has one of three shapes: the key [error]
    alone, with a message; the five keys [root], [iterations],
    [final_error], [iteration_data], [method], in this order, with the
    method's name under [method]; or these five followed by [warning].  A
    failure dict carries no [method] key. *)
Theorem returned_dict_shape {A : Arith} {S : Sympy}
    (c : Call) (st : Store) (d : dict) :
  fst (cli_invoke c st) = Ok d -> outcome_shape (method_name c) d.
Proof. apply cli_invoke_shaped. Qed.

Lemma returned_dict_shape_witness :
  outcome_shape "Bisection Method" sample_bisection_dict.
Proof.
  apply (@returned_dict_shape binary64 MiniSympy.mini sample_bisection solver0).
  vm_compute. reflexivity.
Defined.

(** ** The pass that converges *)

Section FirstHit.
Context {A : Arith} {S : Sympy}.
Variable fkey : option string.
Variable tol : num.

Lemma hit_start st : hit_inv fkey tol None (fresh st).
Proof.
  unfold hit_inv. rewrite fresh_trace.
  split; [apply fresh_valid | split; [intros r [] | congruence]].
Qed.

Lemma hit_push est est' st rec :
  hit_inv fkey tol est st -> meets_tolerance fkey tol rec = false ->
  hit_inv fkey tol est' (push rec st).
Proof.
  intros (Hv & Hall & _) Hrec. unfold hit_inv.
  rewrite push_trace by assumption. repeat split; auto using push_valid.
  - intros r Hin. apply in_app_iff in Hin.
    destruct Hin as [Hin | [<- | []]]; auto.
  - intros _ Hnil. now apply app_eq_nil in Hnil as [_ ?].
Qed.

Lemma hit_return est st rec d :
  hit_inv fkey tol est st -> meets_tolerance fkey tol rec = true ->
  lookup "iteration_data" d = Some (VList (self_iteration_data st)) ->
  has_key "warning" d = false ->
  first_hit fkey tol (Ok d, push rec st).
Proof.
  intros (Hv & Hall & _) Hrec Hd Hw d' [= <-] _. simpl.
  exists (self_iteration_data st), (trace st), rec.
  change (deref (push rec st) (self_iteration_data st))
    with (trace (push rec st)).
  rewrite push_trace, Hrec, Hw by assumption. auto.
Qed.

Lemma hit_after c e st d :
  hit_inv fkey tol (Some (c, e)) st ->
  lookup "iteration_data" d = Some (VList (self_iteration_data st)) ->
  has_key "warning" d = true ->
  first_hit fkey tol (Ok d, st).
Proof.
  intros (Hv & Hall & Hne) Hd Hw d' [= <-] _. simpl.
  destruct (exists_last (Hne ltac:(discriminate))) as (recs & rec & Ht).
  exists (self_iteration_data st), recs, rec.
  change (deref st (self_iteration_data st)) with (trace st).
  rewrite Ht in *. rewrite Hw. repeat split; auto.
  - intros r Hin. apply Hall, in_app_iff. auto.
  - apply Hall, in_app_iff. simpl; auto.
Qed.

Lemma first_hit_failure st msg :
  first_hit fkey tol (Ok [("error", VStr msg)], st).
Proof. intros d [= <-]; discriminate. Qed.

Lemma first_hit_raise e st : first_hit fkey tol (@Raise dict e, st).
Proof. intros d; discriminate. Qed.

Lemma for_range_first_hit {V} (est : V -> option (num * num))
    (body : Z -> V -> M (dict + V)) (after : V -> M dict) :
  (forall i v st, hit_inv fkey tol (est v) st ->
     match body i v st with
     | (Ok (inl d), st') => first_hit fkey tol (Ok d, st')
     | (Ok (inr v'), st') => hit_inv fkey tol (est v') st'
     | (Raise e, st') => True
     end) ->
  (forall v st, hit_inv fkey tol (est v) st ->
     first_hit fkey tol (after v st)) ->
  forall fuel i v st, hit_inv fkey tol (est v) st ->
    first_hit fkey tol (for_range body after fuel i v st).
Proof.
  intros Hb Ha. apply for_range_rule with
    (I := fun (_ : nat) (_ : Z) v st => hit_inv fkey tol (est v) st); auto.
  intros _ i v st HI. specialize (Hb i v st HI).
  destruct (body i v st) as [[[d|v']|e] st']; auto.
  apply first_hit_raise.
Qed.
End FirstHit.

Ltac hit_meets :=
  unfold meets_tolerance; simpl;
  repeat match goal with
         | H : _ = true |- _ => rewrite H
         | H : _ = false |- _ => rewrite H
         end; reflexivity.

Ltac close_hit H :=
  lazymatch goal with
  | |- True => exact I
  | |- first_hit _ _ (Raise _, _) => apply first_hit_raise
  | |- first_hit _ _ (Ok [("error", _)], _) => apply first_hit_failure
  | |- first_hit _ _ (Ok _, push _ _) =>
      eapply hit_return; [exact H | hit_meets | reflexivity ..]
  | |- first_hit _ _ (Ok _, _) =>
      eapply hit_after; [exact H | reflexivity ..]
  | |- hit_inv _ _ _ (push _ _) =>
      eapply hit_push; [exact H | hit_meets]
  end.

Ltac hit_loop E :=
  intros;
  match goal with
  | H0 : hit_inv ?k ?t _ _ |- _ =>
      apply for_range_first_hit with (est := E); [ | | exact H0 ]
  end;
  [ let H := fresh "Hpass" in
    intros ? ? ? H;
    unfold bracket_estimate, falsi_estimate, point_estimate in *;
    open_body; simpl in H; close_hit H
  | let H := fresh "Hpass" in
    intros ? ? H;
    unfold bracket_estimate, falsi_estimate, point_estimate in *;
    open_body; simpl in H; close_hit H ].

Section FirstHitLoops.
Context {A : Arith} {S : Sympy}.

Lemma bisection_first_hit func tol max_iter fuel i v st :
  hit_inv (Some "f(c)") tol (bracket_estimate v) st ->
  first_hit (Some "f(c)") tol
    (for_range (CLI.bisection_body func tol) (CLI.bisection_after max_iter)
       fuel i v st).
Proof. hit_loop (@bracket_estimate A). Qed.

Lemma regula_falsi_first_hit func tol max_iter fuel i v st :
  hit_inv (Some "f(c)") tol (falsi_estimate v) st ->
  first_hit (Some "f(c)") tol
    (for_range (CLI.regula_falsi_body func tol)
       (CLI.regula_falsi_after max_iter) fuel i v st).
Proof. hit_loop (@falsi_estimate A). Qed.

Lemma secant_first_hit func tol max_iter fuel i v st :
  hit_inv (Some "f(x2)") tol (bracket_estimate v) st ->
  first_hit (Some "f(x2)") tol
    (for_range (CLI.secant_body func tol) (CLI.secant_after max_iter)
       fuel i v st).
Proof. hit_loop (@bracket_estimate A). Qed.

Lemma fixed_point_first_hit func tol max_iter fuel i v st :
  hit_inv None tol (point_estimate v) st ->
  first_hit None tol
    (for_range (CLI.fixed_point_body func tol) (CLI.fixed_point_after max_iter)
       fuel i v st).
Proof. hit_loop (@point_estimate A). Qed.
End FirstHitLoops.

(** X4. For Bisection, Regula Falsi, Secant and Fixed Point Iteration, whose
    records hold the values the convergence test reads: in a returned trace
    no record before the last meets the tolerance, and the last one meets it
    exactly when the dict carries no warning.  So a root is reported at the
    first pass that meets the tolerance, and the warning means that none of
    the [max_iter] passes did. *)
Theorem converges_at_first_hit {A : Arith} {S : Sympy}
    (c : Call) (st : Store) (fkey : option string) :
  tested_key c = Some fkey ->
  first_hit fkey (tol_of c) (cli_invoke c st).
Proof.
  intros Hk; destruct c; simpl in Hk; try discriminate;
    injection Hk as <-; unfold cli_invoke, tol_of;
    autounfold with zof_methods; run_monad; repeat (split_match; simpl);
    try apply first_hit_raise; try apply first_hit_failure;
    first [ apply bisection_first_hit | apply regula_falsi_first_hit
          | apply secant_first_hit | apply fixed_point_first_hit ];
    apply hit_start.
Qed.

Lemma converges_at_first_hit_witness :
  first_hit (Some "f(c)") 1e-6%float
    (cli_invoke (S := MiniSympy.mini) sample_bisection solver0).
Proof.
  apply (@converges_at_first_hit binary64 MiniSympy.mini sample_bisection
           solver0 (Some "f(c)")).
  reflexivity.
Defined.

(** ** Where exceptions come from *)

Section Raises.
Context {A : Arith} {S : Sympy}.

(** The arithmetic fact the guards of Secant and Modified Secant rest on. *)
Hypothesis tiny_zero : forall y : num,
  feqb y zero = true -> flt (fabs y) lit_1e_12 = true.

Variable func : num -> result num.
Variable max_iter : Z.





End Raises.




Section RaisesLoops.
Context {A : Arith} {S : Sympy}.
Hypothesis tiny_zero : forall y : num,
  feqb y zero = true -> flt (fabs y) lit_1e_12 = true.
Variable func : num -> result num.






End RaisesLoops.



(** ** Bisection and Regula Falsi in exact arithmetic *)

Section ExactRuns.
#[local] Existing Instance exact | 0.
Context {S : Sympy (A := exact)}.

Lemma Rabs_half_left (a' b' : R) :
  (Rabs ((a' + b') / 2 - a') = Rabs (b' - a') / 2)%R.
Proof. unfold Rabs; repeat destruct Rcase_abs; lra. Qed.

Lemma Rabs_half_right (a' b' : R) :
  (Rabs (b' - (a' + b') / 2) = Rabs (b' - a') / 2)%R.
Proof. unfold Rabs; repeat destruct Rcase_abs; lra. Qed.

Lemma halved_error (w d : R) (k : nat) :
  (w * 2 ^ k = d)%R -> (d / 2 ^ Datatypes.S k = w / 2)%R.
Proof.
  intros <-. assert (2 ^ k <> 0)%R by (apply pow_nonzero; lra).
  simpl. field. assumption.
Qed.

Lemma bisection_halving func tol max_iter a b n fuel0 fuel i v st :
  total (A := exact) func ->
  (n <= fuel0)%nat -> (Rabs (b - a) / 2 ^ n < tol)%R ->
  halving_inv a b n fuel0 fuel i v ->
  converged_by n
    (for_range (CLI.bisection_body func tol) (CLI.bisection_after max_iter)
       fuel i v st).
Proof.
  intros Ht Hn Htol. apply for_range_rule with
    (I := fun left i (v : CLI.bracket_vars (A := exact))
              (_ : Store (A := exact)) => halving_inv a b n fuel0 left i v).
  - clear fuel i v st.
    intros left i [[[[a' b'] fa] fb] last] st (k & -> & Hk & Hkn & Hw).
    unfold CLI.bisection_body. run_monad.
    destruct (Ht ((a' + b') / 2)%R) as [fc Hfc].
    rewrite Hfc; simpl.
    destruct (Rltb (Rabs fc) tol || Rltb (Rabs (b' - a') / 2) tol) eqn:Hc;
      simpl.
    + eexists _, _; repeat split; try reflexivity; lia.
    + apply Bool.orb_false_iff in Hc as [_ He]. apply Rltb_false in He.
      assert (Hlt : (Datatypes.S k < n)%nat).
      { destruct (Nat.eq_dec (Datatypes.S k) n) as [<- | ?]; [| lia].
        rewrite (halved_error _ Hw) in Htol. lra. }
      destruct (Rltb (fa * fc) 0); simpl;
        exists (Datatypes.S k);
        (split; [lia | split; [lia | split; [exact Hlt |]]]);
        rewrite ?Rabs_half_left, ?Rabs_half_right; simpl; lra.
  - clear fuel i v st. intros i [[[[a' b'] fa] fb] last] st (k & _ & Hk & Hkn & _).
    lia.
Qed.

Lemma regula_falsi_divides func tol max_iter fuel i v st :
  sign_inv func v ->
  division_by_function func
    (for_range (CLI.regula_falsi_body func tol)
       (CLI.regula_falsi_after max_iter) fuel i v st).
Proof.
  apply for_range_rule with
    (I := fun (_ : nat) (_ : Z) v (_ : Store (A := exact)) => sign_inv func v).
  - clear. intros _ i [[[[[a' b'] fa] fb] c_old] last] st (Hs & Hfb & Hfa).
    unfold CLI.regula_falsi_body, truediv. run_monad.
    destruct (Reqb (fb - fa) 0) eqn:Hd; simpl.
    { exfalso. unfold Reqb in Hd.
      destruct (Req_dec_T (fb - fa) 0); [| discriminate].
      assert (fa = fb) by lra. subst fa. nra. }
    set (c := (b' - fb * (b' - a') / (fb - fa))%R) in *.
    destruct (func c) as [fc|e] eqn:Hfc; simpl.
    2:{ intros m [= ->]. now exists c. }
    destruct (_ || _); simpl; [intros m; discriminate |].
    destruct (Rltb (fa * fc) 0) eqn:Hsign; simpl.
    + apply Rltb_true in Hsign. repeat split; auto; try lra.
      intros ->. lra.
    + apply Rltb_false in Hsign. repeat split; auto.
      destruct (Req_dec_T fa 0) as [Hz | Hnz].
      * subst fa. unfold c in Hfc.
        rewrite false_position_at_root in Hfc by assumption.
        assert (fc = 0%R) by congruence. subst fc. lra.
      * assert (0 < fa * fa)%R by nra.
        assert ((fa * fa) * (fc * fb) <= 0)%R by nra.
        nra.
  - clear. intros i [[[[[a' b'] fa] fb] c_old] [[c e]|]] st _ m; discriminate.
Qed.
End ExactRuns.

(** X6. In exact arithmetic Bisection halves its bracket on every pass, so
    its error at pass [n] is [abs(b - a) / 2**n]: when the function returns
    everywhere, the sign check passes and this number is below [tol] for
    some [n] between 1 and [max_iter], the method returns a root from one
    of its first [n] passes, with no warning. *)
Theorem bisection_converges_by_halving {S : Sympy (A := exact)}
    (func_str : string) (func : R -> result R) (expr : Expr)
    (a b tol : R) (max_iter : Z) (st : Store (A := exact)) (fa fb : R)
    (n : nat) :
  CLI.parse_function (A := exact) func_str = Ok (func, expr) ->
  total (A := exact) func ->
  func a = Ok fa -> func b = Ok fb -> (fa * fb <= 0)%R ->
  (1 <= n <= Z.to_nat max_iter)%nat -> (Rabs (b - a) / 2 ^ n < tol)%R ->
  converged_by n
    (CLI.bisection_method (A := exact) func_str a b tol max_iter st).
Proof.
  intros Hp Ht Ha Hb Hs Hn Htol.
  assert (Hgt : fgt (A := exact) (fmul (Arith := exact) fa fb) zero = false).
  { unfold fgt; simpl. unfold Rltb. destruct (Rlt_dec 0 (fa * fb)); auto; lra. }
  unfold CLI.bisection_method, bind, lift, reset_iteration_data.
  rewrite Hp; cbn [fst snd]. rewrite Ha, Hb, Hgt.
  apply bisection_halving with (a := a) (b := b) (fuel0 := Z.to_nat max_iter);
    auto; try lia.
  exists O; repeat split; try lia. simpl; lra.
Qed.

Lemma bisection_converges_by_halving_witness :
  converged_by 12
    (CLI.bisection_method (A := exact) (S := line_sympy) "x - 1" 0%R 3%R
       (/ 1000)%R 20 solver0).
Proof.
  apply (@bisection_converges_by_halving line_sympy "x - 1"
           (fun x : R => Ok (x - 1)%R) false 0%R 3%R (/ 1000)%R 20 solver0
           (0 - 1)%R (3 - 1)%R 12%nat).
  - reflexivity.
  - intros x; eexists; reflexivity.
  - reflexivity.
  - reflexivity.
  - lra.
  - vm_compute; lia.
  - rewrite Rabs_right by lra. simpl. lra.
Defined.

(** X7. In exact arithmetic, when the function values at the endpoints have
    opposite signs, the divisor [fb - fa] of Regula Falsi is never zero: a
    [ZeroDivisionError] out of the method is one the function raised.  (With
    both values zero the method raises it itself.) *)
Theorem regula_falsi_divisor_not_zero {S : Sympy (A := exact)}
    (func_str : string) (func : R -> result R) (expr : Expr)
    (a b tol : R) (max_iter : Z) (st : Store (A := exact)) (fa fb : R) :
  CLI.parse_function (A := exact) func_str = Ok (func, expr) ->
  func a = Ok fa -> func b = Ok fb -> (fa * fb < 0)%R ->
  division_by_function func
    (CLI.regula_falsi_method (A := exact) func_str a b tol max_iter st).
Proof.
  intros Hp Ha Hb Hs.
  assert (Hgt : fgt (A := exact) (fmul (Arith := exact) fa fb) zero = false).
  { unfold fgt; simpl. unfold Rltb. destruct (Rlt_dec 0 (fa * fb)); auto; lra. }
  unfold CLI.regula_falsi_method, bind, lift, reset_iteration_data.
  rewrite Hp; cbn [fst snd]. rewrite Ha, Hb, Hgt.
  apply regula_falsi_divides.
  split; [lra | split; [| exact Ha]].
  intros Hz. rewrite Hz in Hs. lra.
Qed.

Lemma regula_falsi_divisor_not_zero_witness :
  division_by_function (fun x : R => Ok (x - 1)%R)
    (CLI.regula_falsi_method (A := exact) (S := line_sympy) "x - 1" 0%R 3%R
       (/ 1000)%R 10 solver0).
Proof.
  apply (@regula_falsi_divisor_not_zero line_sympy "x - 1"
           (fun x : R => Ok (x - 1)%R) false 0%R 3%R (/ 1000)%R 10 solver0
           (0 - 1)%R (3 - 1)%R);
    try reflexivity; lra.
Defined.

(** ** The trace as a history *)

Section Chain.
Context {A : Arith} {S : Sympy}.
Variable head : dict -> Prop.
Variable link : dict -> dict -> Prop.

Lemma chained_nil : chained head link [].
Proof. split; [intros r | intros [|k] r1 r2]; discriminate. Qed.

Lemma chained_snoc l rec :
  chained head link l ->
  (l = [] -> head rec) ->
  (forall l' r, l = (l' ++ [r])%list -> link r rec) ->
  chained head link (l ++ [rec]).
Proof.
  intros [Hh Hl] Hhead Hlink; split.
  - destruct l as [|r0 l]; simpl.
    + intros r [= <-]; auto.
    + apply Hh.
  - intros k r1 r2 H1 H2.
    destruct (Nat.lt_ge_cases (Datatypes.S k) (List.length l)) as [Hlt | Hge].
    + rewrite nth_error_app1 in H1, H2 by lia. eauto.
    + assert (Hk : Datatypes.S k = List.length l).
      { assert (Hb : (Datatypes.S k < List.length (l ++ [rec]))%nat)
          by (apply nth_error_Some; congruence).
        rewrite length_app in Hb; simpl in Hb. lia. }
      rewrite nth_error_app1 in H1 by lia.
      rewrite nth_error_app2, Hk, Nat.sub_diag in H2 by lia.
      injection H2 as <-.
      assert (Hne : l <> []) by (intros ->; discriminate).
      destruct (exists_last Hne) as (l' & r & ->).
      rewrite length_app in Hk; simpl in Hk.
      rewrite nth_error_app2 in H1 by lia.
      replace (k - List.length l')%nat with O in H1 by lia.
      injection H1 as <-. eauto.
Qed.

Section Loop.
Context {V : Type}.
Variable fits : V -> dict -> Prop.

Lemma chain_start v st :
  (forall rec, fits v rec -> head rec) ->
  chain_inv head link fits v (fresh st).
Proof.
  intros H; split; [apply fresh_valid | rewrite fresh_trace; split].
  - apply chained_nil.
  - intros rec Hf; split; auto. intros [|] r; discriminate.
Qed.

Lemma chain_stop v st :
  chain_inv head link fits v st -> chained head link (trace st).
Proof. now intros (_ & H & _). Qed.

Lemma chain_push_stop v st rec :
  chain_inv head link fits v st -> fits v rec ->
  chained head link (trace (push rec st)).
Proof.
  intros (Hv & Hc & Hn) Hf. rewrite push_trace by assumption.
  destruct (Hn rec Hf). now apply chained_snoc.
Qed.

Lemma chain_push v v' st rec :
  chain_inv head link fits v st -> fits v rec ->
  (forall rec', fits v' rec' -> link rec rec') ->
  chain_inv head link fits v' (push rec st).
Proof.
  intros HI Hf Hnext.
  split; [apply push_valid, HI | split; [eapply chain_push_stop; eauto |]].
  destruct HI as (Hv & _ & _). rewrite push_trace by assumption.
  intros rec' Hf'; split.
  - intros Hnil. now apply app_eq_nil in Hnil as [_ ?].
  - intros l r Heq. apply app_inj_tail in Heq as [_ <-]. auto.
Qed.

Lemma for_range_chain (body : Z -> V -> M (dict + V)) (after : V -> M dict) :
  (forall i v st, chain_inv head link fits v st ->
     match body i v st with
     | (Ok (inr v'), st') => chain_inv head link fits v' st'
     | (_, st') => chained head link (trace st')
     end) ->
  (forall v st, snd (after v st) = st) ->
  forall fuel i v st, chain_inv head link fits v st ->
    chained head link (trace (snd (for_range body after fuel i v st))).
Proof.
  intros Hb Ha. apply for_range_rule with
    (I := fun (_ : nat) (_ : Z) v st => chain_inv head link fits v st)
    (Q := fun r => chained head link (trace (snd r))).
  - intros _ i v st HI. specialize (Hb i v st HI).
    destruct (body i v st) as [[[d|v']|e] st']; auto.
  - intros i v st HI. rewrite Ha. eapply chain_stop; eauto.
Qed.
End Loop.
End Chain.

Ltac open_links :=
  unfold bracket_fits, falsi_fits, secant_fits, point_fits, bracket_link,
    secant_link, point_link, has_num in *; simpl in *.

Ltac close_fit := open_links; repeat split.

Ltac close_link :=
  let r := fresh "rec'" in let H := fresh "Hfit" in
  intros r H; open_links;
  repeat match goal with H : _ /\ _ |- _ => destruct H end;
  repeat eexists;
  first [ eassumption | left; split; assumption | right; split; assumption ].

Ltac close_chain H :=
  lazymatch goal with
  | |- chain_inv _ _ _ _ (push _ _) =>
      eapply chain_push; [exact H | close_fit | close_link]
  | |- chained _ _ (trace (push _ _)) =>
      eapply chain_push_stop; [exact H | close_fit]
  | |- chained _ _ (trace _) => eapply chain_stop; exact H
  end.

Ltac chain_loop :=
  intros;
  match goal with
  | H0 : chain_inv _ _ ?f _ _ |- _ =>
      apply for_range_chain with (fits := f); [ | | exact H0 ]
  end;
  [ let H := fresh "Hpass" in let w := fresh "w" in
    intros ? w ? H; split_vars w; open_body; close_chain H
  | intros ? ?; open_body; reflexivity ].

Section ChainLoops.
Context {A : Arith} {S : Sympy}.
Variable head : dict -> Prop.

Lemma bisection_chain func tol max_iter fuel i v st :
  chain_inv head bracket_link bracket_fits v st ->
  chained head bracket_link
    (trace (snd (for_range (CLI.bisection_body func tol)
                   (CLI.bisection_after max_iter) fuel i v st))).
Proof. chain_loop. Qed.

Lemma regula_falsi_chain func tol max_iter fuel i v st :
  chain_inv head bracket_link falsi_fits v st ->
  chained head bracket_link
    (trace (snd (for_range (CLI.regula_falsi_body func tol)
                   (CLI.regula_falsi_after max_iter) fuel i v st))).
Proof. chain_loop. Qed.

Lemma secant_chain func tol max_iter fuel i v st :
  chain_inv head secant_link secant_fits v st ->
  chained head secant_link
    (trace (snd (for_range (CLI.secant_body func tol)
                   (CLI.secant_after max_iter) fuel i v st))).
Proof. chain_loop. Qed.

Lemma newton_raphson_chain func derivative tol max_iter fuel i v st :
  chain_inv head (point_link "x_new") point_fits v st ->
  chained head (point_link "x_new")
    (trace (snd (for_range (CLI.newton_raphson_body func derivative tol)
                   (CLI.newton_raphson_after max_iter) fuel i v st))).
Proof. chain_loop. Qed.

Lemma fixed_point_chain func tol max_iter fuel i v st :
  chain_inv head (point_link "g(x)") point_fits v st ->
  chained head (point_link "g(x)")
    (trace (snd (for_range (CLI.fixed_point_body func tol)
                   (CLI.fixed_point_after max_iter) fuel i v st))).
Proof. chain_loop. Qed.

Lemma modified_secant_chain func delta tol max_iter fuel i v st :
  chain_inv head (point_link "x_new") point_fits v st ->
  chained head (point_link "x_new")
    (trace (snd (for_range (CLI.modified_secant_body func delta tol)
                   (CLI.modified_secant_after max_iter) fuel i v st))).
Proof. chain_loop. Qed.
End ChainLoops.

(** X8. Once the function text is compiled, the trace a method leaves behind
    is a history: its first record holds the arguments of the call, and
    every record starts where the one before ended.  For Bisection and
    Regula Falsi the next bracket is the left or the right part of the
    last, split at [c]; for Secant the next [x0, x1] are the last
    [x1, x2]; for the other three the next [x] is the last new point. *)
Theorem trace_is_a_history {A : Arith} {S : Sympy}
    (c : Call) (st : Store) (fe : (num -> result num) * Expr) :
  CLI.parse_function (func_str_of c) = Ok fe ->
  chained (starts_at c) (continues c) (trace (snd (cli_invoke c st))).
Proof.
  intros Hp; destruct c; simpl in Hp; enter_method Hp;
    unfold starts_at, continues;
    repeat (split_match; simpl);
    first [ apply bisection_chain | apply regula_falsi_chain
          | apply secant_chain | apply newton_raphson_chain
          | apply fixed_point_chain | apply modified_secant_chain
          | rewrite fresh_trace; apply chained_nil ];
    apply chain_start; intros rec Hf; exact Hf.
Qed.

Lemma trace_is_a_history_witness :
  chained (starts_at sample_bisection) bracket_link
    (trace (snd (cli_invoke (S := MiniSympy.mini) sample_bisection solver0))).
Proof.
  apply (@trace_is_a_history binary64 MiniSympy.mini sample_bisection solver0
           (MiniSympy.eval
              (MiniSympy.Sub (MiniSympy.Pow (MiniSympy.Symbol "x") 2)
                 (MiniSympy.Integer 4)),
            MiniSympy.Sub (MiniSympy.Pow (MiniSympy.Symbol "x") 2)
              (MiniSympy.Integer 4))).
  reflexivity.
Defined.

(** ** What [display_results] is given *)

Section Ready.
Context {A : Arith} {S : Sympy}.
Variable name : string.
Variable keys : list string.

Lemma keyed_start st : keyed keys (fresh st).
Proof.
  split; [apply fresh_valid | rewrite fresh_trace; intros rec []].
Qed.

Lemma keyed_push st rec :
  keyed keys st -> map fst rec = keys -> keyed keys (push rec st).
Proof.
  intros [Hv Hk] Hrec; split; [now apply push_valid |].
  rewrite push_trace by assumption. intros r Hin.
  apply in_app_iff in Hin as [Hin | [<- | []]]; auto.
Qed.

Lemma ready_raise e st : ready name keys (@Raise dict e, st).
Proof. intros d; discriminate. Qed.

Lemma ready_failure msg st : ready name keys (Ok [("error", VStr msg)], st).
Proof. intros d [= <-]. left. now exists msg. Qed.

Lemma ready_success st d x e i :
  keyed keys st -> d = success_dict name x e i (self_iteration_data st) ->
  ready name keys (Ok d, st).
Proof.
  intros [_ Hk] Hd d' [= <-]. right; split; auto. exists x, e, i. now left.
Qed.

Lemma ready_warned st d x e i :
  keyed keys st ->
  d = (success_dict name x e i (self_iteration_data st)
       ++ [("warning", VStr "Maximum iterations reached")])%list ->
  ready name keys (Ok d, st).
Proof.
  intros [_ Hk] Hd d' [= <-]. right; split; auto. exists x, e, i. now right.
Qed.

Lemma for_range_ready {V} (body : Z -> V -> M (dict + V))
    (after : V -> M dict) :
  (forall i v st, keyed keys st ->
     match body i v st with
     | (Ok (inl d), st') => ready name keys (Ok d, st')
     | (Ok (inr _), st') => keyed keys st'
     | (Raise _, _) => True
     end) ->
  (forall v st, keyed keys st -> ready name keys (after v st)) ->
  forall fuel i v st, keyed keys st ->
    ready name keys (for_range body after fuel i v st).
Proof.
  intros Hb Ha. apply for_range_rule with
    (I := fun (_ : nat) (_ : Z) (_ : V) st => keyed keys st); auto.
  intros _ i v st HI. specialize (Hb i v st HI).
  destruct (body i v st) as [[[d|v']|e] st']; auto.
  apply ready_raise.
Qed.
End Ready.

Ltac close_ready H :=
  lazymatch goal with
  | |- True => exact I
  | |- ready _ _ (Raise _, _) => apply ready_raise
  | |- ready _ _ (Ok [("error", _)], _) => apply ready_failure
  | |- ready _ _ (Ok _, push _ _) =>
      eapply ready_success;
      [eapply keyed_push; [exact H | reflexivity] | reflexivity]
  | |- ready _ _ (Ok _, _) => eapply ready_warned; [exact H | reflexivity]
  | |- keyed _ (push _ _) => eapply keyed_push; [exact H | reflexivity]
  end.

Ltac ready_loop :=
  intros; apply for_range_ready; [ | | assumption ];
  [ let H := fresh "Hpass" in let w := fresh "w" in
    intros ? w ? H; split_vars w; open_body; close_ready H
  | let H := fresh "Hpass" in let w := fresh "w" in
    intros w ? H; split_vars w; open_body; close_ready H ].

Section ReadyLoops.
Context {A : Arith} {S : Sympy}.

Lemma bisection_ready func tol max_iter fuel i v st :
  keyed ["iteration"; "a"; "b"; "c"; "f(c)"; "error"] st ->
  ready "Bisection Method" ["iteration"; "a"; "b"; "c"; "f(c)"; "error"]
    (for_range (CLI.bisection_body func tol) (CLI.bisection_after max_iter)
       fuel i v st).
Proof. ready_loop. Qed.

Lemma regula_falsi_ready func tol max_iter fuel i v st :
  keyed ["iteration"; "a"; "b"; "c"; "f(c)"; "error"] st ->
  ready "Regula Falsi Method" ["iteration"; "a"; "b"; "c"; "f(c)"; "error"]
    (for_range (CLI.regula_falsi_body func tol)
       (CLI.regula_falsi_after max_iter) fuel i v st).
Proof. ready_loop. Qed.

Lemma secant_ready func tol max_iter fuel i v st :
  keyed ["iteration"; "x0"; "x1"; "x2"; "f(x2)"; "error"] st ->
  ready "Secant Method" ["iteration"; "x0"; "x1"; "x2"; "f(x2)"; "error"]
    (for_range (CLI.secant_body func tol) (CLI.secant_after max_iter)
       fuel i v st).
Proof. ready_loop. Qed.

Lemma newton_raphson_ready func derivative tol max_iter fuel i v st :
  keyed ["iteration"; "x"; "f(x)"; "f'(x)"; "x_new"; "error"] st ->
  ready "Newton-Raphson Method"
    ["iteration"; "x"; "f(x)"; "f'(x)"; "x_new"; "error"]
    (for_range (CLI.newton_raphson_body func derivative tol)
       (CLI.newton_raphson_after max_iter) fuel i v st).
Proof. ready_loop. Qed.

Lemma fixed_point_ready func tol max_iter fuel i v st :
  keyed ["iteration"; "x"; "g(x)"; "error"] st ->
  ready "Fixed Point Iteration" ["iteration"; "x"; "g(x)"; "error"]
    (for_range (CLI.fixed_point_body func tol) (CLI.fixed_point_after max_iter)
       fuel i v st).
Proof. ready_loop. Qed.

Lemma modified_secant_ready func delta tol max_iter fuel i v st :
  keyed ["iteration"; "x"; "f(x)"; "f(x+δx)"; "x_new"; "error"] st ->
  ready "Modified Secant Method"
    ["iteration"; "x"; "f(x)"; "f(x+δx)"; "x_new"; "error"]
    (for_range (CLI.modified_secant_body func delta tol)
       (CLI.modified_secant_after max_iter) fuel i v st).
Proof. ready_loop. Qed.

Lemma cli_invoke_ready (c : Call) (st : Store) :
  ready (method_name c) (record_keys c) (cli_invoke c st).
Proof.
  destruct c; unfold cli_invoke, method_name, record_keys;
    autounfold with zof_methods; run_monad; repeat (split_match; simpl);
    try apply ready_raise; try apply ready_failure;
    first [ apply bisection_ready | apply regula_falsi_ready
          | apply secant_ready | apply newton_raphson_ready
          | apply fixed_point_ready | apply modified_secant_ready ];
    apply keyed_start.
Qed.
End ReadyLoops.

(** ** [display_results] on what the methods return *)

Section DisplayOk.
Context {A : Arith} {S : Sympy} {B : Builtins} {T : Text}.






Lemma display_failure st msg :
  Display.display_results st [("error", VStr msg)]
  = ([String.append Display.newline (Display.str_mul "=" 70);
      "Method: Unknown";
      Display.str_mul "=" 70;
      String.append Display.newline (String.append "Error: " msg)],
     Ok tt).
Proof. reflexivity. Qed.

End DisplayOk.



(** X10. When a method returns a failure, [display_results] prints four
    lines and stops: the rule, [Method: Unknown], since a failure dict
    carries no [method] key, the rule, and the message after [Error: ]. *)
Theorem display_of_failure {A : Arith} {S : Sympy} {B : Builtins} {T : Text}
    (c : Call) (st : Store) (d : dict) :
  fst (cli_invoke c st) = Ok d -> has_key "error" d = true ->
  exists msg,
    lookup "error" d = Some (VStr msg) /\
    Display.display_results (snd (cli_invoke c st)) d
    = ([String.append Display.newline (Display.str_mul "=" 70);
        "Method: Unknown";
        Display.str_mul "=" 70;
        String.append Display.newline (String.append "Error: " msg)],
       Ok tt).
Proof.
  intros Hd He. destruct (cli_invoke_ready c st Hd) as [[msg ->] | [Hs _]].
  - exists msg; split; [reflexivity | apply display_failure].
  - destruct Hs as (x & e & i & [-> | ->]); discriminate.
Qed.

Lemma display_of_failure_witness :
  exists msg,
    lookup "error" (precondition_failure (A := binary64)) = Some (VStr msg) /\
    Display.display_results (B := sample_builtins) (T := sample_text)
      (snd (cli_invoke (S := MiniSympy.mini) sample_same_sign solver0))
      precondition_failure
    = ([String.append Display.newline (Display.str_mul "=" 70);
        "Method: Unknown";
        Display.str_mul "=" 70;
        String.append Display.newline (String.append "Error: " msg)],
       Ok tt).
Proof.
  apply (@display_of_failure binary64 MiniSympy.mini sample_builtins
           sample_text sample_same_sign solver0 precondition_failure).
  - vm_compute. reflexivity.
  - reflexivity.
Defined.



(** ** Zeros of a continuous function *)

Section ExactZeros.
#[local] Existing Instance exact | 0.
Context {S : Sympy (A := exact)}.
Variable f : R -> R.
Hypothesis f_continuous : continuity f.

Lemma bracket_has_zero (lo hi : R) :
  (lo <= hi)%R -> (f lo * f hi <= 0)%R -> has_zero f lo hi.
Proof.
  intros Hle Hs. destruct (IVT_cor f lo hi f_continuous Hle Hs) as [z Hz].
  now exists z.
Qed.

Lemma midpoint_near_zero (lo hi : R) :
  (lo <= hi)%R -> (f lo * f hi <= 0)%R ->
  within_of_zero f ((lo + hi) / 2)%R (Rabs (hi - lo) / 2)%R.
Proof.
  intros Hle Hs. destruct (bracket_has_zero Hle Hs) as (z & Hz & Hfz).
  exists z; split; auto.
  rewrite (Rabs_right (hi - lo)) by lra.
  apply Rabs_le. lra.
Qed.

Lemma zeros_push st (lo hi c fc e : R) i :
  valid st ->
  (forall rec, In rec (trace st) -> record_has_zero f rec) ->
  has_zero f lo hi ->
  forall rec,
    In rec (trace (push (A := exact)
                     [("iteration", VInt i); ("a", VNum lo); ("b", VNum hi);
                      ("c", VNum c); ("f(c)", VNum fc); ("error", VNum e)]
                     st)) ->
    record_has_zero f rec.
Proof.
  intros Hv Hrecs Hz rec. rewrite push_trace by assumption.
  rewrite in_app_iff. intros [Hin | [<- | []]]; auto.
  exists lo, hi; repeat split; auto.
Qed.

Lemma same_sign_side (fa fb fc : R) :
  (fa * fb <= 0)%R -> fa <> 0%R -> (0 <= fa * fc)%R -> (fc * fb <= 0)%R.
Proof.
  intros Hs Hnz Hc.
  assert (0 < fa * fa)%R by nra.
  assert ((fa * fa) * (fc * fb) <= 0)%R by nra.
  nra.
Qed.

Lemma bisection_near_zero func tol max_iter fuel i v st :
  (forall x, func x = Ok (f x)) -> (0 < tol)%R ->
  zero_inv f v st ->
  near_zero f
    (for_range (CLI.bisection_body func tol) (CLI.bisection_after max_iter)
       fuel i v st).
Proof.
  intros Hf Htol. apply for_range_rule with
    (I := fun (_ : nat) (_ : Z) v st => zero_inv f v st).
  - clear fuel i v st.
    intros _ i [[[[a' b'] fa] fb] last] st
      (Hv & Hrecs & Hle & -> & -> & Hs & Hnz & _).
    unfold CLI.bisection_body. run_monad. rewrite Hf; simpl.
    set (c := ((a' + b') / 2)%R).
    assert (Hnear := midpoint_near_zero Hle Hs).
    assert (Hrecs' := fun rec =>
      @zeros_push st a' b' c (f c) (Rabs (b' - a') / 2)%R i Hv Hrecs
        (bracket_has_zero Hle Hs) rec).
    destruct (Rltb (Rabs (f c)) tol || Rltb (Rabs (b' - a') / 2) tol) eqn:Hc;
      simpl.
    + split; [exact Hrecs' |]. intros d [= <-] _.
      eexists _, _; repeat split; try reflexivity. exact Hnear.
    + apply Bool.orb_false_iff in Hc as [Hfc _]. apply Rltb_false in Hfc.
      assert (Hcz : f c <> 0%R).
      { intros Hz. rewrite Hz, Rabs_R0 in Hfc. lra. }
      assert (Hac : (a' <= c <= b')%R) by (unfold c; lra).
      destruct (Rltb (f a' * f c) 0) eqn:Hsign; simpl.
      * apply Rltb_true in Hsign.
        repeat split; auto using push_valid; lra.
      * apply Rltb_false in Hsign.
        repeat split; auto using push_valid; try lra.
        now apply same_sign_side with (fa := f a').
  - clear fuel i v st.
    intros i [[[[a' b'] fa] fb] [[c e]|]] st (Hv & Hrecs & _ & _ & _ & _ & _ & Hl);
      simpl.
    + split; [exact Hrecs |]. intros d [= <-] _.
      eexists _, _; repeat split; try reflexivity. exact Hl.
    + split; [exact Hrecs | discriminate].
Qed.

Lemma regula_falsi_zeros func tol max_iter fuel i v st :
  (forall x, func x = Ok (f x)) ->
  falsi_zero_inv f v st ->
  brackets_zero f
    (for_range (CLI.regula_falsi_body func tol)
       (CLI.regula_falsi_after max_iter) fuel i v st).
Proof.
  intros Hf. apply for_range_rule with
    (I := fun (_ : nat) (_ : Z) v st => falsi_zero_inv f v st).
  - clear fuel i v st.
    intros _ i [[[[[a' b'] fa] fb] c_old] last] st
      (Hv & Hrecs & Hle & -> & -> & Hs & Hnz).
    unfold CLI.regula_falsi_body, truediv. run_monad.
    destruct (Reqb (f b' - f a') 0) eqn:Hd; simpl; [exact Hrecs |].
    apply Reqb_false in Hd.
    assert (Hc := @false_position_between a' b' (f a') (f b') Hle Hs Hnz Hd).
    set (c := (b' - f b' * (b' - a') / (f b' - f a'))%R) in *.
    rewrite Hf; simpl.
    set (err := if (1 <? i)%Z then Rabs (c - c_old) else Rabs (b' - a')).
    assert (Hrecs' := fun rec =>
      @zeros_push st a' b' c (f c) err i Hv Hrecs
        (bracket_has_zero Hle Hs) rec).
    destruct (_ || _); simpl; [exact Hrecs' |].
    destruct (Rltb (f a' * f c) 0) eqn:Hsign; simpl.
    + apply Rltb_true in Hsign.
      repeat split; auto using push_valid; try lra.
      intros Hz. rewrite Hz in Hsign. lra.
    + apply Rltb_false in Hsign.
      repeat split; auto using push_valid; try lra.
      destruct (Req_dec_T (f a') 0) as [Hz | Hnz'].
      * unfold c in *. rewrite Hz in *.
        rewrite false_position_at_root by assumption. rewrite Hz. lra.
      * now apply same_sign_side with (fa := f a').
  - clear fuel i v st.
    intros i [[[[[a' b'] fa] fb] c_old] [[c e]|]] st (Hv & Hrecs & _);
      exact Hrecs.
Qed.
End ExactZeros.

(** X12. In exact arithmetic, for a continuous [f] with [a <= b],
    [f(a) * f(b) < 0] and a positive tolerance, every bracket that Bisection
    records holds a zero of [f], and the root it returns, with or without
    the warning, is within the returned [final_error] of a zero of [f]. *)
Theorem bisection_root_near_zero {S : Sympy (A := exact)}
    (func_str : string) (func : R -> result R) (expr : Expr) (f : R -> R)
    (a b tol : R) (max_iter : Z) (st : Store (A := exact)) :
  CLI.parse_function (A := exact) func_str = Ok (func, expr) ->
  (forall x, func x = Ok (f x)) -> continuity f ->
  (a <= b)%R -> (f a * f b < 0)%R -> (0 < tol)%R ->
  near_zero f
    (CLI.bisection_method (A := exact) func_str a b tol max_iter st).
Proof.
  intros Hp Hf Hc Hab Hs Htol.
  assert (Hgt : fgt (A := exact) (fmul (Arith := exact) (f a) (f b)) zero
                = false).
  { unfold fgt; simpl. unfold Rltb.
    destruct (Rlt_dec 0 (f a * f b)); auto; lra. }
  unfold CLI.bisection_method, bind, lift, reset_iteration_data.
  rewrite Hp; cbn [fst snd]. rewrite !Hf, Hgt.
  apply bisection_near_zero; auto.
  split; [apply fresh_valid | split].
  - rewrite fresh_trace. intros rec [].
  - repeat split; auto; try lra. intros Hz. rewrite Hz in Hs. lra.
Qed.

Lemma bisection_root_near_zero_witness :
  near_zero (fun x : R => (x - 1)%R)
    (CLI.bisection_method (A := exact) (S := line_sympy) "x - 1" 0%R 3%R
       (/ 1000)%R 10 solver0).
Proof.
  apply (@bisection_root_near_zero line_sympy "x - 1"
           (fun x : R => Ok (x - 1)%R) false (fun x : R => (x - 1)%R)
           0%R 3%R (/ 1000)%R 10 solver0).
  - reflexivity.
  - reflexivity.
  - intros x. apply derivable_continuous_pt. reg.
  - lra.
  - lra.
  - lra.
Defined.

(** X13. In exact arithmetic, for a continuous [f] with [a <= b] and
    [f(a) * f(b) < 0], every bracket that Regula Falsi records holds a zero
    of [f], whatever the tolerance. *)
Theorem regula_falsi_brackets_zero {S : Sympy (A := exact)}
    (func_str : string) (func : R -> result R) (expr : Expr) (f : R -> R)
    (a b tol : R) (max_iter : Z) (st : Store (A := exact)) :
  CLI.parse_function (A := exact) func_str = Ok (func, expr) ->
  (forall x, func x = Ok (f x)) -> continuity f ->
  (a <= b)%R -> (f a * f b < 0)%R ->
  brackets_zero f
    (CLI.regula_falsi_method (A := exact) func_str a b tol max_iter st).
Proof.
  intros Hp Hf Hc Hab Hs.
  assert (Hgt : fgt (A := exact) (fmul (Arith := exact) (f a) (f b)) zero
                = false).
  { unfold fgt; simpl. unfold Rltb.
    destruct (Rlt_dec 0 (f a * f b)); auto; lra. }
  unfold CLI.regula_falsi_method, bind, lift, reset_iteration_data.
  rewrite Hp; cbn [fst snd]. rewrite !Hf, Hgt.
  apply regula_falsi_zeros; auto.
  split; [apply fresh_valid | split].
  - rewrite fresh_trace. intros rec [].
  - repeat split; auto; try lra. intros Hz. rewrite Hz in Hs. lra.
Qed.

Lemma regula_falsi_brackets_zero_witness :
  brackets_zero (fun x : R => (x - 1)%R)
    (CLI.regula_falsi_method (A := exact) (S := line_sympy) "x - 1" 0%R 3%R
       (/ 1000)%R 10 solver0).
Proof.
  apply (@regula_falsi_brackets_zero line_sympy "x - 1"
           (fun x : R => Ok (x - 1)%R) false (fun x : R => (x - 1)%R)
           0%R 3%R (/ 1000)%R 10 solver0).
  - reflexivity.
  - reflexivity.
  - intros x. apply derivable_continuous_pt. reg.
  - lra.
  - lra.
Defined.

(** ** Fixed Point Iteration on a contraction *)

Section ExactContraction.
#[local] Existing Instance exact | 0.
Context {S : Sympy (A := exact)}.
Variable g : R -> R.
Variable q : R.
Hypothesis q_nonneg : (0 <= q)%R.
Hypothesis g_contracts : forall x y, (Rabs (g x - g y) <= q * Rabs (x - y))%R.
Hypothesis g_bounded : forall x, (Rabs (g x) <= 10 ^ 10)%R.

Lemma contraction_step (x x0 : R) (k : nat) :
  (Rabs (g x - x) <= q ^ k * Rabs (g x0 - x0))%R ->
  (Rabs (g (g x) - g x) <= q ^ Datatypes.S k * Rabs (g x0 - x0))%R.
Proof.
  intros H. apply Rle_trans with (1 := g_contracts (g x) x).
  simpl. rewrite Rmult_assoc. now apply Rmult_le_compat_l.
Qed.

Lemma fixed_point_contracts func tol max_iter x0 n fuel0 fuel i v st :
  (forall x, func x = Ok (g x)) ->
  (n <= fuel0)%nat ->
  (q ^ (n - 1) * Rabs (g x0 - x0) < tol)%R ->
  contraction_inv g q x0 n fuel0 fuel i v ->
  converged_by n
    (for_range (CLI.fixed_point_body func tol) (CLI.fixed_point_after max_iter)
       fuel i v st).
Proof.
  intros Hf Hn Htol. apply for_range_rule with
    (I := fun left i (v : CLI.point_vars (A := exact))
              (_ : Store (A := exact)) =>
            contraction_inv g q x0 n fuel0 left i v).
  - clear fuel i v st.
    intros left i [x last] st (k & -> & Hk & Hkn & Hstep).
    unfold CLI.fixed_point_body. run_monad. rewrite Hf; simpl.
    destruct (Rltb (Rabs (g x - x)) tol) eqn:Hc; simpl.
    + eexists _, _; repeat split; try reflexivity; lia.
    + apply Rltb_false in Hc.
      assert (Hlt : (Datatypes.S k < n)%nat).
      { destruct (Nat.eq_dec (Datatypes.S k) n) as [<- | ?]; [| lia].
        simpl in Htol. rewrite Nat.sub_0_r in Htol. lra. }
      destruct (Rltb _ (Rabs (g x))) eqn:Hb; simpl.
      { apply Rltb_true in Hb. pose proof (g_bounded x) as Hg.
        simpl in Hg. lra. }
      exists (Datatypes.S k).
      split; [lia | split; [lia | split; [exact Hlt |]]].
      now apply contraction_step.
  - clear fuel i v st. intros i [x last] st (k & _ & Hk & Hkn & _). lia.
Qed.
End ExactContraction.

(** X14. In exact arithmetic, Fixed Point Iteration on a contraction
    converges: when [abs(g(x) - g(y)) <= q * abs(x - y)] everywhere, the
    values of [g] stay within [10**10], and [q**(n-1) * abs(g(x0) - x0)]
    is below [tol] for some [n] between 1 and [max_iter], the method returns
    a root from one of its first [n] passes, with no warning and no
    divergence failure. *)
Theorem fixed_point_converges_on_contraction {S : Sympy (A := exact)}
    (func_str : string) (func : R -> result R) (expr : Expr) (g : R -> R)
    (q x0 tol : R) (max_iter : Z) (st : Store (A := exact)) (n : nat) :
  CLI.parse_function (A := exact) func_str = Ok (func, expr) ->
  (forall x, func x = Ok (g x)) ->
  (0 <= q)%R ->
  (forall x y, (Rabs (g x - g y) <= q * Rabs (x - y))%R) ->
  (forall x, (Rabs (g x) <= 10 ^ 10)%R) ->
  (1 <= n <= Z.to_nat max_iter)%nat ->
  (q ^ (n - 1) * Rabs (g x0 - x0) < tol)%R ->
  converged_by n
    (CLI.fixed_point_iteration (A := exact) func_str x0 tol max_iter st).
Proof.
  intros Hp Hf Hq Hc Hb Hn Htol.
  unfold CLI.fixed_point_iteration, bind, lift, reset_iteration_data.
  rewrite Hp; cbn [fst snd].
  apply fixed_point_contracts
    with (g := g) (q := q) (x0 := x0) (fuel0 := Z.to_nat max_iter);
    auto; try lia.
  exists O; repeat split; try lia. simpl; lra.
Qed.

Lemma fixed_point_converges_on_contraction_witness :
  converged_by 2
    (CLI.fixed_point_iteration (A := exact) (S := constant_sympy) "1" 0%R
       (/ 1000)%R 10 solver0).
Proof.
  apply (@fixed_point_converges_on_contraction constant_sympy "1"
           (fun _ : R => Ok 1%R) false (fun _ : R => 1%R) 0%R 0%R (/ 1000)%R
           10 solver0 2%nat).
  - reflexivity.
  - reflexivity.
  - lra.
  - intros x y. rewrite Rminus_diag, Rabs_R0. lra.
  - intros x. rewrite Rabs_R1. apply pow_R1_Rle. lra.
  - vm_compute; lia.
  - simpl. lra.
Defined.

(** ** [main] *)

Section MainFacts.
Context {A : Arith} {S : Sympy} {B : Builtins} {T : Text} {K : Console}.














End MainFacts.


Section MainParse.
Context {A : Arith} {S : Sympy} {B : Builtins} {T : Text} {K : Console}.

Lemma cli_parse_failure (c : Call) (st : Store) (e : exn) :
  sympify (func_str_of c) = Raise e ->
  cli_invoke c st
  = (Raise (ValueError (String.append "Error parsing function: " (str_exn e))),
     st).
Proof.
  intros He; destruct c; simpl in *;
    autounfold with zof_methods; run_monad; rewrite He; auto.
Qed.

Lemma run_choice_parse_failure choice func_str w e0 :
  sympify func_str = Raise e0 ->
  In choice first_text_choices ->
  exists e w',
    Main.run_choice choice func_str w = (Raise e, w') /\
    Main.solver w' = Main.solver w /\
    (e = ValueError (String.append "Error parsing function: " (str_exn e0))
     \/ reading_failed w e).
Proof.
  intros He Hc.
  assert (Hcall : forall c st, func_str_of c = func_str ->
            cli_invoke c st
            = (Raise (ValueError
                        (String.append "Error parsing function: "
                           (str_exn e0))), st)).
  { intros c st <-. now apply cli_parse_failure. }
  unfold first_text_choices in Hc. simpl in Hc.
  destruct Hc as [<- | [<- | [<- | [<- | [<- | []]]]]];
    unfold Main.run_choice; cbn [String.eqb Ascii.eqb Bool.eqb];
    unfold Main.read_tol, Main.read_max_iter, Main.read_float,
      Main.read_float_or, Main.read_int_or, Main.io_bind, Main.input,
      Main.io_lift, Main.io_ret, Main.call, reading_failed;
    destruct w as [st lines out]; cbn [Main.stdin Main.solver Main.stdout];
    repeat (match goal with
            | |- context [match ?l with [] => _ | _ :: _ => _ end] =>
                is_var l; destruct l
            | |- context [String.eqb ?s ""] => destruct (String.eqb s "")
            | |- context [float_of_str ?s] =>
                destruct (float_of_str s) eqn:?
            | |- context [int_of_str ?s] => destruct (int_of_str s) eqn:?
            end; cbn [Main.stdin Main.solver Main.stdout fst snd]);
    try match goal with
        | |- context [CLI.bisection_method ?f ?a ?b ?t ?n ?s] =>
            change (CLI.bisection_method f a b t n s)
              with (cli_invoke (Bisection f a b t n) s);
            rewrite Hcall by reflexivity
        | |- context [CLI.regula_falsi_method ?f ?a ?b ?t ?n ?s] =>
            change (CLI.regula_falsi_method f a b t n s)
              with (cli_invoke (RegulaFalsi f a b t n) s);
            rewrite Hcall by reflexivity
        | |- context [CLI.secant_method ?f ?a ?b ?t ?n ?s] =>
            change (CLI.secant_method f a b t n s)
              with (cli_invoke (Secant f a b t n) s);
            rewrite Hcall by reflexivity
        | |- context [CLI.newton_raphson_method ?f ?a ?t ?n ?s] =>
            change (CLI.newton_raphson_method f a t n s)
              with (cli_invoke (NewtonRaphson f a t n) s);
            rewrite Hcall by reflexivity
        | |- context [CLI.modified_secant_method ?f ?a ?b ?t ?n ?s] =>
            change (CLI.modified_secant_method f a b t n s)
              with (cli_invoke (ModifiedSecant f a b t n) s);
            rewrite Hcall by reflexivity
        end;
    (eexists _, _; split; [reflexivity | split; [reflexivity |]]);
    first [ left; reflexivity
          | right; left; reflexivity
          | right; right; eexists; split;
            [| first [left; eassumption | right; eassumption]];
            simpl; auto 10 ].
Qed.
End MainParse.

(** X16. In [main], for the five choices whose method runs on the text asked
    for first, a text that sympy rejects never reaches a method's loop or
    the display: the [try] block raises, the solver object is as [main]
    created it, and the [except] clauses print one line.  The line is
    [Error: Error parsing function: ...], unless reading an argument failed
    before the method was called. *)
Theorem main_reports_parse_failure {A : Arith} {S : Sympy} {B : Builtins}
    {T : Text} {K : Console}
    (choice func_str : string) (w : Main.World) (e0 : exn) :
  sympify func_str = Raise e0 ->
  In choice first_text_choices ->
  exists e w',
    Main.run_choice choice func_str w = (Raise e, w') /\
    Main.solver w' = Main.solver w /\
    Main.catch (Main.attempt choice func_str) Main.report w
    = Main.report e w' /\
    ((e = ValueError (String.append "Error parsing function: " (str_exn e0))
      /\ Main.report e w'
         = (Ok tt,
            {| Main.solver := Main.solver w';
               Main.stdin := Main.stdin w';
               Main.stdout :=
                 (Main.stdout w'
                  ++ [Main.Printed
                        (String.append Display.newline
                           (String.append "Error: "
                              (String.append "Error parsing function: "
                                 (str_exn e0))))])%list |}))
     \/ reading_failed w e).
Proof.
  intros He Hc.
  destruct (@run_choice_parse_failure _ _ _ choice func_str w e0 He Hc)
    as (e & w' & Hrun & Hs & Hcause).
  exists e, w'; repeat split; auto.
  - unfold Main.catch, Main.attempt, Main.io_bind. now rewrite Hrun.
  - destruct Hcause as [-> | Hr]; [left; split; reflexivity | now right].
Qed.

Lemma main_reports_parse_failure_witness :
  exists e w',
    Main.run_choice (S := MiniSympy.mini) (K := sample_console)
      "1" "x**2 -"
      {| Main.solver := solver0; Main.stdin := ["0"; "3"; ""; ""];
         Main.stdout := [] |}
    = (Raise e, w') /\
    e = ValueError "Error parsing function: could not parse x**2 -".
Proof.
  destruct (@main_reports_parse_failure binary64 MiniSympy.mini
              sample_builtins sample_text sample_console "1" "x**2 -"
              {| Main.solver := solver0; Main.stdin := ["0"; "3"; ""; ""];
                 Main.stdout := [] |}
              (SympifyError "could not parse x**2 -"))
    as (e & w' & Hrun & _).
  - reflexivity.
  - simpl; auto.
  - exists e, w'; split; [exact Hrun |].
    vm_compute in Hrun. now injection Hrun as <- _.
Defined.

(** X17. For choice 5, Fixed Point Iteration, [main] asks for a function
    text twice and runs the method on the second: the text typed first, at
    [Enter function f(x)], has no effect on the round. *)
Theorem fixed_point_round_ignores_first_text {A : Arith} {S : Sympy}
    {B : Builtins} {T : Text} {K : Console}
    (st : Store) (out : list Main.event) (choice text1 text2 : string)
    (rest : list string) :
  strip choice = "5" ->
  Main.round {| Main.solver := st; Main.stdin := choice :: text1 :: rest;
                Main.stdout := out |}
  = Main.round {| Main.solver := st; Main.stdin := choice :: text2 :: rest;
                  Main.stdout := out |}.
Proof.
  intros Hc. unfold Main.round, Main.io_bind, Main.input, Main.new_solver,
    Main.print, Main.catch, Main.attempt, Main.run_choice.
  cbn [Main.stdin Main.solver Main.stdout Main.print_all map Main.methods
       Main.io_bind fst snd].
  unfold Main.io_bind, Main.print, Main.io_ret.
  cbn [Main.stdin Main.solver Main.stdout]. rewrite Hc.
  reflexivity.
Qed.

Lemma fixed_point_round_ignores_first_text_witness :
  Main.round (S := MiniSympy.mini) (B := sample_builtins) (T := sample_text)
    (K := sample_console)
    {| Main.solver := solver0; Main.stdin := ["5"; "x**2 - 4"; "x"; "n"];
       Main.stdout := [] |}
  = Main.round (S := MiniSympy.mini) (B := sample_builtins) (T := sample_text)
      (K := sample_console)
      {| Main.solver := solver0; Main.stdin := ["5"; "x -"; "x"; "n"];
         Main.stdout := [] |}.
Proof.
  apply (@fixed_point_round_ignores_first_text binary64 MiniSympy.mini
           sample_builtins sample_text sample_console solver0 []
           "5" "x**2 - 4" "x -" ["x"; "n"]).
  reflexivity.
Defined.

(** ** [solve] *)

Section WebResponse.
Context {A : Arith} {S : Sympy} {B : Builtins}.

Lemma response_of_error msg : response_shape [("error", SStr msg)].
Proof. left. now exists msg. Qed.

Lemma web_invoke_response (c : Call) (st : Store) :
  match web_invoke c st with
  | (Ok d, st') => response_shape (snapshot st' d)
  | (Raise _, _) => True
  end.
Proof.
  pose proof (invoke_sim c st st) as Hsim.
  pose proof (@cli_invoke_shaped A S c st) as Hshape.
  unfold sim_out, observe in Hsim.
  destruct (web_invoke c st) as [[d2|e2] st2]; auto.
  destruct (cli_invoke c st) as [[d1|e1] st1]; [| discriminate].
  simpl in Hsim. injection Hsim as ->.
  destruct (Hshape d1 eq_refl) as [[msg ->] | (r & e & i & l & [-> | ->])].
  - apply response_of_error.
  - right. eexists _, _, _, _, _. left. reflexivity.
  - right. eexists _, _, _, _, _. right. reflexivity.
Qed.
End WebResponse.

Section ServerFacts.
Context {A : Arith} {S : Sympy} {B : Builtins} {T : Text} {K : Console}
  {F : Flask}.

Lemma call_parse_failure (s : string) (c : string -> Call) (st : Store) e0 :
  sympify s = Raise e0 ->
  (forall f, func_str_of (c f) = f) ->
  Server.call (JStr s) c st
  = (Raise (ValueError (String.append "Error parsing function: "
                          (str_exn e0))), st).
Proof.
  intros He Hc. unfold Server.call.
  apply (web_parse_failure_is_raised (S := Server.sympy_at (JStr s))).
  rewrite Hc. exact He.
Qed.

Lemma call_response v (c : string -> Call) (st : Store) :
  match Server.call v c st with
  | (Ok d, st') => response_shape (snapshot st' d)
  | (Raise _, _) => True
  end.
Proof.
  unfold Server.call.
  apply (web_invoke_response (S := Server.sympy_at v)).
Qed.
End ServerFacts.

(** X18. Whatever the request, [solve] answers with an object of one of two
    kinds: the key [error] alone, with a message, or the five keys of a
    root, [final_error] as text and [method] the name of the method, with
    [warning] after them when the passes ran out.  The empty dict that
    [result] starts as is never the answer, and no exception leaves
    [solve]. *)
Theorem solve_answers_error_or_root {A : Arith} {S : Sympy} {B : Builtins}
    {T : Text} {K : Console} {F : Flask}
    (request : result json) (st : Store) :
  response_shape (fst (Server.solve request st)).
Proof.
  unfold Server.solve, Server.answer, bind, lift, ret.
  destruct request as [data|e]; [| apply response_of_error].
  repeat (match goal with
          | |- context [Server.call ?v ?c ?s] =>
              let H := fresh "Hcall" in
              pose proof (call_response v c s) as H;
              destruct (Server.call v c s) as [[?|?] ?]
          | |- context [match ?x with _ => _ end] =>
              lazymatch x with
              | context [match _ with _ => _ end] => fail
              | context [Server.call] => fail
              | _ => destruct x eqn:?
              end
          end; cbn [fst snd]);
    first [assumption | apply response_of_error].
Qed.

(** X19. When the request names one of the six methods and its [function] is
    a text that sympy rejects, [solve] answers with the key [error] alone
    and leaves the shared solver as it was, the trace of the request before
    included.  The message is [Error parsing function: ...], unless a
    conversion of a field failed before the method was called. *)
Theorem solve_reports_parse_failure {A : Arith} {S : Sympy} {B : Builtins}
    {T : Text} {K : Console} {F : Flask}
    (fields : list (string * json)) (s m : string) (e0 : exn) (st : Store) :
  field "function" fields = Some (JStr s) ->
  sympify s = Raise e0 ->
  field "method" fields = Some (JStr m) ->
  In m method_names ->
  exists msg,
    Server.solve (Ok (JObject fields)) st = ([("error", SStr msg)], st) /\
    (msg = String.append "Error parsing function: " (str_exn e0) \/
     exists e, conversion_failed (JObject fields) e /\ msg = str_exn e).
Proof.
  intros Hf He Hm Hin.
  unfold Server.solve, Server.answer, bind, lift, ret.
  cbn [get]. rewrite Hm, Hf.
  unfold method_names in Hin. simpl in Hin.
  destruct Hin as [<- | [<- | [<- | [<- | [<- | [<- | []]]]]]];
    cbn [is_str String.eqb Ascii.eqb Bool.eqb];
    repeat (match goal with
            | |- context [Server.get_float ?d ?k ?v] =>
                destruct (Server.get_float d k v) eqn:?
            | |- context [Server.get_int ?d ?k ?v] =>
                destruct (Server.get_int d k v) eqn:?
            end; cbn [fst snd]);
    try (rewrite call_parse_failure with (e0 := e0)
           by first [exact He | intros; reflexivity]);
    cbn [fst snd];
    (eexists; split; [reflexivity |]);
    first [ left; reflexivity
          | right; eexists; split; [| reflexivity];
            eexists _, _; first [left; eassumption | right; eassumption] ].
Qed.

Lemma solve_reports_parse_failure_witness :
  exists msg,
    Server.solve (S := MiniSympy.mini) (B := sample_builtins)
      (T := sample_text) (K := sample_console) (F := sample_flask)
      (Ok (JObject [("method", JStr "bisection"); ("function", JStr "x**2 -");
                    ("a", JInt 0); ("b", JInt 3)]))
      solver0
    = ([("error", SStr msg)], solver0) /\
    (msg = "Error parsing function: could not parse x**2 -" \/
     exists e,
       conversion_failed (T := sample_text) (K := sample_console)
         (F := sample_flask)
         (JObject [("method", JStr "bisection"); ("function", JStr "x**2 -");
                   ("a", JInt 0); ("b", JInt 3)]) e /\
       msg = str_exn e).
Proof.
  apply (@solve_reports_parse_failure binary64 MiniSympy.mini sample_builtins
           sample_text sample_console sample_flask
           [("method", JStr "bisection"); ("function", JStr "x**2 -");
            ("a", JInt 0); ("b", JInt 3)]
           "x**2 -" "bisection" (SympifyError "could not parse x**2 -")
           solver0).
  - reflexivity.
  - reflexivity.
  - reflexivity.
  - simpl; auto.
Defined.

(** ** The pass that converges, for the methods that test late *)

Section LateHit.
Context {A : Arith} {S : Sympy}.
Variable func : num -> result num.
Variable tol : num.

Lemma late_start x st : late_inv func tol (x, None) (fresh st).
Proof.
  unfold late_inv. rewrite fresh_trace.
  split; [apply fresh_valid | split; [intros r [] | simpl; congruence]].
Qed.

Lemma late_push v v' st rec :
  late_inv func tol v st -> tested_at func tol false rec ->
  late_inv func tol v' (push rec st).
Proof.
  intros (Hv & Hall & _) Hrec. unfold late_inv.
  rewrite push_trace by assumption. repeat split; auto using push_valid.
  - intros r Hin. apply in_app_iff in Hin.
    destruct Hin as [Hin | [<- | []]]; auto.
  - intros _ Hnil. now apply app_eq_nil in Hnil as [_ ?].
Qed.

Lemma late_return v st rec d :
  late_inv func tol v st -> tested_at func tol true rec ->
  lookup "iteration_data" d = Some (VList (self_iteration_data st)) ->
  has_key "warning" d = false ->
  first_late_hit func tol (Ok d, push rec st).
Proof.
  intros (Hv & Hall & _) Hrec Hd Hw d' [= <-] _. simpl.
  exists (self_iteration_data st), (trace st), rec.
  change (deref (push rec st) (self_iteration_data st))
    with (trace (push rec st)).
  rewrite push_trace, Hw by assumption. auto.
Qed.

Lemma late_after x e st d :
  late_inv func tol (x, Some e) st ->
  lookup "iteration_data" d = Some (VList (self_iteration_data st)) ->
  has_key "warning" d = true ->
  first_late_hit func tol (Ok d, st).
Proof.
  intros (Hv & Hall & Hne) Hd Hw d' [= <-] _. simpl.
  destruct (exists_last (Hne ltac:(discriminate))) as (recs & rec & Ht).
  exists (self_iteration_data st), recs, rec.
  change (deref st (self_iteration_data st)) with (trace st).
  rewrite Ht in *. rewrite Hw. repeat split; auto.
  - intros r Hin. apply Hall, in_app_iff. auto.
  - apply Hall, in_app_iff. simpl; auto.
Qed.

Lemma first_late_failure st msg :
  first_late_hit func tol (Ok [("error", VStr msg)], st).
Proof. intros d [= <-]; discriminate. Qed.

Lemma first_late_raise e st : first_late_hit func tol (@Raise dict e, st).
Proof. intros d; discriminate. Qed.

Lemma for_range_late (body : Z -> CLI.point_vars -> M (dict + CLI.point_vars))
    (after : CLI.point_vars -> M dict) :
  (forall i v st, late_inv func tol v st ->
     match body i v st with
     | (Ok (inl d), st') => first_late_hit func tol (Ok d, st')
     | (Ok (inr v'), st') => late_inv func tol v' st'
     | (Raise e, st') => True
     end) ->
  (forall v st, late_inv func tol v st ->
     first_late_hit func tol (after v st)) ->
  forall fuel i v st, late_inv func tol v st ->
    first_late_hit func tol (for_range body after fuel i v st).
Proof.
  intros Hb Ha. apply for_range_rule with
    (I := fun (_ : nat) (_ : Z) v st => late_inv func tol v st); auto.
  intros _ i v st HI. specialize (Hb i v st HI).
  destruct (body i v st) as [[[d|v']|e] st']; auto.
  apply first_late_raise.
Qed.
End LateHit.

Ltac late_tested :=
  unfold tested_at, has_num; simpl; eexists _, _, _;
  split; [reflexivity | split; [reflexivity | split; eassumption]].

Ltac close_late H :=
  lazymatch goal with
  | |- True => exact I
  | |- first_late_hit _ _ (Raise _, _) => apply first_late_raise
  | |- first_late_hit _ _ (Ok [("error", _)], _) => apply first_late_failure
  | |- first_late_hit _ _ (Ok _, push _ _) =>
      eapply late_return; [exact H | late_tested | reflexivity ..]
  | |- first_late_hit _ _ (Ok _, _) =>
      eapply late_after; [exact H | reflexivity ..]
  | |- late_inv _ _ _ (push _ _) =>
      eapply late_push; [exact H | late_tested]
  end.

Ltac late_loop :=
  intros; apply for_range_late; [ | | assumption ];
  [ let H := fresh "Hpass" in let w := fresh "w" in
    intros ? w ? H; split_vars w; open_body; close_late H
  | let H := fresh "Hpass" in let w := fresh "w" in
    intros w ? H; split_vars w; open_body; close_late H ].

Section LateLoops.
Context {A : Arith} {S : Sympy}.

Lemma newton_raphson_late func derivative tol max_iter fuel i v st :
  late_inv func tol v st ->
  first_late_hit func tol
    (for_range (CLI.newton_raphson_body func derivative tol)
       (CLI.newton_raphson_after max_iter) fuel i v st).
Proof. late_loop. Qed.

Lemma modified_secant_late func delta tol max_iter fuel i v st :
  late_inv func tol v st ->
  first_late_hit func tol
    (for_range (CLI.modified_secant_body func delta tol)
       (CLI.modified_secant_after max_iter) fuel i v st).
Proof. late_loop. Qed.
End LateLoops.

(** X20. Newton-Raphson and Modified Secant test the function at the new
    point of a pass, which no record holds.  In a returned trace, for every
    record before the last the function returned at [x_new] and the test
    [abs(func(x_new)) < tol or error < tol] failed; for the last record it
    held exactly when the dict carries no warning. *)
Theorem late_test_converges_at_first_hit {A : Arith} {S : Sympy}
    (c : Call) (st : Store) (func : num -> result num) (expr : Expr) :
  tests_late c = true ->
  CLI.parse_function (func_str_of c) = Ok (func, expr) ->
  first_late_hit func (tol_of c) (cli_invoke c st).
Proof.
  intros Hc Hp; destruct c; try discriminate; simpl in Hp;
    enter_method Hp; unfold tol_of;
    repeat (split_match; simpl);
    try apply first_late_raise;
    first [ apply newton_raphson_late | apply modified_secant_late ];
    apply late_start.
Qed.

Lemma late_test_converges_at_first_hit_witness :
  first_late_hit
    (MiniSympy.eval
       (MiniSympy.Sub (MiniSympy.Pow (MiniSympy.Symbol "x") 2)
          (MiniSympy.Integer 4)))
    1e-6%float
    (cli_invoke (S := MiniSympy.mini) sample_newton_from_3 solver0).
Proof.
  apply (@late_test_converges_at_first_hit binary64 MiniSympy.mini
           sample_newton_from_3 solver0
           (MiniSympy.eval
              (MiniSympy.Sub (MiniSympy.Pow (MiniSympy.Symbol "x") 2)
                 (MiniSympy.Integer 4)))
           (MiniSympy.Sub (MiniSympy.Pow (MiniSympy.Symbol "x") 2)
              (MiniSympy.Integer 4))).
  - reflexivity.
  - reflexivity.
Defined.

(** ** The error that Regula Falsi records *)

Section FalsiStepLoop.
Context {A : Arith} {S : Sympy}.

Lemma regula_falsi_steps func tol max_iter a b fuel i v st :
  step_inv a b i v st ->
  chained (step_head a b) step_link
    (trace (snd (for_range (CLI.regula_falsi_body func tol)
                   (CLI.regula_falsi_after max_iter) fuel i v st))).
Proof.
  apply for_range_rule with
    (I := fun (_ : nat) i v st => step_inv a b i v st)
    (Q := fun r => chained (step_head a b) step_link (trace (snd r))).
  - clear. intros _ i [[[[[a' b'] fa] fb] c_old] last] st
      (Hv & Hi & Hc & Hnil & Hlast).
    unfold CLI.regula_falsi_body. run_monad.
    destruct (truediv _ _) as [q|e]; simpl; auto.
    destruct (func _) as [fc|e]; simpl; auto.
    set (c := fsub b' q).
    set (rec := [("iteration", VInt i); ("a", VNum a'); ("b", VNum b');
                 ("c", VNum c); ("f(c)", VNum fc);
                 ("error", VNum (if (1 <? i)%Z then fabs (fsub c c_old)
                                 else fabs (fsub b' a')))]).
    assert (Hrec : chained (step_head a b) step_link (trace (push rec st))).
    { rewrite push_trace by assumption. apply chained_snoc; auto.
      - intros Ht. destruct (Hnil Ht) as (-> & -> & ->). reflexivity.
      - intros l r Ht. destruct (Hlast l r Ht) as [Hlt Hr].
        exists c_old, c. repeat split; auto.
        unfold has_num, rec; simpl.
        apply Z.ltb_lt in Hlt. now rewrite Hlt. }
    assert (Hnext : forall a2 b2 fa2 fb2 last2,
              step_inv a b (i + 1) (a2, b2, fa2, fb2, c, last2)
                (push rec st)).
    { intros. split; [now apply push_valid | split; [lia | split; auto]].
      rewrite push_trace by assumption. split.
      - intros Ht. now apply app_eq_nil in Ht as [_ ?].
      - intros l r Ht. apply app_inj_tail in Ht as [_ <-].
        split; [lia | reflexivity]. }
    destruct (_ || _); simpl; auto.
    destruct (flt _ zero); simpl;
      first [exact (Hnext a' c fa fc None) | exact (Hnext c b' fc fb None)].
  - clear. intros i [[[[[a' b'] fa] fb] c_old] [[c e]|]] st
      (_ & _ & Hc & _); simpl; exact Hc.
Qed.
End FalsiStepLoop.

(** X21. Once the function text is compiled, the [error] of the first
    record of Regula Falsi is [abs(b - a)], the width of the bracket it was
    called with, and the [error] of every later record is the distance
    between its false position [c] and that of the record before. *)
Theorem regula_falsi_error_is_step {A : Arith} {S : Sympy}
    (func_str : string) (a b tol : num) (max_iter : Z) (st : Store)
    (fe : (num -> result num) * Expr) :
  CLI.parse_function func_str = Ok fe ->
  chained (step_head a b) step_link
    (trace (snd (CLI.regula_falsi_method func_str a b tol max_iter st))).
Proof.
  intros Hp.
  unfold CLI.regula_falsi_method, bind, lift, reset_iteration_data, ret.
  rewrite Hp; cbn [fst snd].
  repeat (split_match; simpl);
    try (rewrite fresh_trace; apply chained_nil).
  apply regula_falsi_steps.
  split; [apply fresh_valid | split; [lia | rewrite fresh_trace; split]].
  - apply chained_nil.
  - split; [auto | intros [|] r; discriminate].
Qed.

Lemma regula_falsi_error_is_step_witness :
  chained (step_head 2%float 3%float) step_link
    (trace (snd (CLI.regula_falsi_method (S := MiniSympy.mini)
                   "x**3 - 2*x - 5" 2%float 3%float 1e-6%float 100
                   solver0))).
Proof.
  apply (@regula_falsi_error_is_step binary64 MiniSympy.mini
           "x**3 - 2*x - 5" 2%float 3%float 1e-6%float 100 solver0
           (match CLI.parse_function (S := MiniSympy.mini) "x**3 - 2*x - 5"
            with
            | Ok fe => fe
            | Raise _ => (fun x => Ok x, MiniSympy.Symbol "x")
            end)).
  vm_compute. reflexivity.
Defined.
